(** * Movie search bot: search orchestration and history snapshots

    A shallow embedding of [main.py], [models.py] and [config.py].

    - Python values that travel through the bot (provider JSON, strings,
      [None]) are the type [json]; [None] is [JNull].
    - The provider, the clock and the library functions on strings and
      floats are the fields of [Env].
    - The handlers run in the monad [M]: the state is the provider's world,
      the database, the messages sent so far and the provider calls made so
      far; a computation either returns or raises a Python exception. *)

From Stdlib Require Import List ZArith NArith QArith Bool String Ascii Lia.
From Stdlib Require Import Sorted Permutation.
Import ListNotations.
Local Open Scope Z_scope.
Set Warnings "-register-all".

(** ** Python values *)

Module Py.

(** A [str]: a sequence of code points. *)
Definition pystr := list N.

(** A [str] literal written in ASCII. *)
Definition py (s : string) : pystr :=
  map N_of_ascii (list_ascii_of_string s).

Fixpoint str_eqb (a b : pystr) : bool :=
  match a, b with
  | [], [] => true
  | x :: a', y :: b' => N.eqb x y && str_eqb a' b'
  | _, _ => false
  end.

(** [needle] is a prefix of [hay]. *)
Fixpoint startswith (needle hay : pystr) : bool :=
  match needle, hay with
  | [], _ => true
  | x :: needle', y :: hay' => N.eqb x y && startswith needle' hay'
  | _ :: _, [] => false
  end.

(** [needle in hay] on two strings. *)
Fixpoint contains (needle hay : pystr) : bool :=
  startswith needle hay ||
  match hay with
  | [] => false
  | _ :: hay' => contains needle hay'
  end.

(** [s.split(sep)] for a separator of one character; [piece] is the
    beginning of the piece being read, reversed. *)
Fixpoint split_at (sep : N) (s piece : pystr) : list pystr :=
  match s with
  | [] => [rev piece]
  | c :: s' =>
      if N.eqb c sep then rev piece :: split_at sep s' []
      else split_at sep s' (c :: piece)
  end.

Definition split (sep : N) (s : pystr) : list pystr := split_at sep s [].

(** [sep.join(parts)]. *)
Fixpoint join (sep : pystr) (parts : list pystr) : pystr :=
  match parts with
  | [] => []
  | [p] => p
  | p :: rest => p ++ sep ++ join sep rest
  end.

(** A [float]. *)
Inductive pyfloat :=
| Finite (q : Q)
| Infinite (negative : bool)
| NaN.

(** What [requests]' [response.json()] can return, and [None]. *)
Inductive json :=
| JNull
| JBool (b : bool)
| JInt (z : Z)
| JFloat (x : pyfloat)
| JStr (s : pystr)
| JList (l : list json)
| JDict (d : list (pystr * json)).

Definition dict := list (pystr * json).

Inductive exn :=
| KeyError
| TypeError
| AttributeError
| ValueError
| IndexError
| IntegrityError
| DoesNotExist
| OverflowError
| UnicodeEncodeError.

(** [bool(x)], the test of [if x:] and [not x]. *)
Definition truthy (j : json) : bool :=
  match j with
  | JNull => false
  | JBool b => b
  | JInt z => negb (z =? 0)
  | JFloat (Finite q) => negb (Qnum q =? 0)
  | JFloat _ => true
  | JStr s => match s with [] => false | _ => true end
  | JList l => match l with [] => false | _ => true end
  | JDict d => match d with [] => false | _ => true end
  end.

Fixpoint lookup (key : pystr) (d : dict) : option json :=
  match d with
  | [] => None
  | (k, v) :: d' => if str_eqb key k then Some v else lookup key d'
  end.

(** [x.get(key, default)]; only a dict has [get]. *)
Definition get (x : json) (key : pystr) (default : json) : exn + json :=
  match x with
  | JDict d => inr (match lookup key d with Some v => v | None => default end)
  | _ => inl AttributeError
  end.

(** [x[key]] with a string key. *)
Definition getitem (x : json) (key : pystr) : exn + json :=
  match x with
  | JDict d => match lookup key d with Some v => inr v | None => inl KeyError end
  | _ => inl TypeError
  end.

(** [d[key] = v] on a dict literal: an existing key keeps its place. *)
Fixpoint setitem (key : pystr) (v : json) (d : dict) : dict :=
  match d with
  | [] => [(key, v)]
  | (k, v') :: d' =>
      if str_eqb key k then (k, v) :: d' else (k, v') :: setitem key v d'
  end.

(** [l[:n]] on a list. *)
Definition slice_to {A : Type} (n : Z) (l : list A) : list A :=
  if n <? 0 then firstn (List.length l - Z.to_nat (- n)) l
  else firstn (Z.to_nat n) l.

(** [x[:n]]: lists and strings can be sliced. *)
Definition getslice (x : json) (n : Z) : exn + json :=
  match x with
  | JList l => inr (JList (slice_to n l))
  | JStr s => inr (JStr (slice_to n s))
  | _ => inl TypeError
  end.

(** [for item in x]: the items visited. *)
Definition iter (x : json) : exn + list json :=
  match x with
  | JList l => inr l
  | JStr s => inr (map (fun c => JStr [c]) s)
  | JDict d => inr (map (fun kv => JStr (fst kv)) d)
  | _ => inl TypeError
  end.


(** [x[0]]. *)
Definition getfirst (x : json) : exn + json :=
  match x with
  | JList (item :: _) => inr item
  | JList [] => inl IndexError
  | JStr (c :: _) => inr (JStr [c])
  | JStr [] => inl IndexError
  | JDict _ => inl KeyError
  | _ => inl TypeError
  end.

(** Sequencing of computations that may raise. *)
Definition and_then {A B : Type} (r : exn + A) (k : A -> exn + B) : exn + B :=
  match r with
  | inl e => inl e
  | inr a => k a
  end.

Fixpoint traverse {A B : Type} (f : A -> exn + B) (l : list A) : exn + list B :=
  match l with
  | [] => inr []
  | a :: l' =>
      and_then (f a) (fun b =>
      and_then (traverse f l') (fun bs => inr (b :: bs)))
  end.

End Py.
Import Py.

(** ** config.py *)

Module Config.
Definition MAX_HISTORY_ENTRIES : Z := 10.
Definition MOVIES_PER_PAGE : Z := 5.
End Config.

(** ** models.py *)

Record User := mkUser {
  user_id : Z;
  telegram_id : Z;
  username : option pystr;
  first_name : pystr;
  last_name : option pystr;
  user_created_at : Z
}.

Record SearchHistory := mkSearchHistory {
  search_id : Z;
  search_user : Z;            (* ForeignKeyField(User) *)
  search_type : pystr;
  query : pystr;
  result_count : Z;
  created_at : Z
}.

Record MovieResult := mkMovieResult {
  result_id : Z;
  search : Z;                 (* ForeignKeyField(SearchHistory), no on_delete *)
  movie_id : json;
  title : json;
  original_title : json;
  overview : json;
  release_date : json;
  vote_average : json;
  vote_count : json;
  genre_names : pystr;
  adult : json;
  poster_path : json;
  budget : json;
  revenue : json
}.

(** The tables. The database is opened without pragmas, so SQLite does not
    enforce the foreign keys, and a primary key is [INTEGER PRIMARY KEY]:
    a new row gets one more than the largest key in its table. *)
Record DB := mkDB {
  users : list User;
  searches : list SearchHistory;
  movies : list MovieResult
}.

Definition next_id (ids : list Z) : Z := 1 + fold_right Z.max 0 ids.

Definition empty_db : DB := mkDB [] [] [].

(** The columns declared without [null=True] that [save_search_history]
    fills from provider data. *)
Definition not_null (v : json) : bool :=
  match v with
  | JNull => false
  | _ => true
  end.

(** [search.movies]: the rows whose foreign key is the entry. *)
Definition owned_by (entry : SearchHistory) (r : MovieResult) : bool :=
  search r =? search_id entry.

Definition movies_of (entry : SearchHistory) (d : DB) : list MovieResult :=
  filter (owned_by entry) (movies d).

(** Every row of [MovieResult] points to a row of [SearchHistory]. *)
Definition references_ok (d : DB) : Prop :=
  forall r, In r (movies d) -> In (search r) (map search_id (searches d)).

(** [ORDER BY created_at DESC], on the rows in the order of the table:
    SQLite gives rows of equal [created_at] in the order of their keys,
    the older row first. *)
Fixpoint insert_desc (x : SearchHistory) (l : list SearchHistory) : list SearchHistory :=
  match l with
  | [] => [x]
  | y :: l' =>
      if created_at y <=? created_at x then x :: y :: l'
      else y :: insert_desc x l'
  end.

Definition order_by_created_at_desc (l : list SearchHistory) : list SearchHistory :=
  fold_right insert_desc [] l.

(** [SearchHistory.select().where(SearchHistory.user == user)]. *)
Definition searches_of (u : User) (d : DB) : list SearchHistory :=
  filter (fun h => search_user h =? user_id u) (searches d).

(** The query of [history]: newest first, at most [MAX_HISTORY_ENTRIES]. *)
Definition recent_searches (u : User) (d : DB) : list SearchHistory :=
  slice_to Config.MAX_HISTORY_ENTRIES (order_by_created_at_desc (searches_of u d)).

(** ** The outside world *)

Inductive endpoint :=
| SearchMovie                 (* {TMDB_BASE_URL}/search/movie *)
| DiscoverMovie               (* {TMDB_BASE_URL}/discover/movie *)
| GenreMovieList              (* {TMDB_BASE_URL}/genre/movie/list *)
| Movie (movie_id : json).    (* {TMDB_BASE_URL}/movie/{movie_id} *)

Record request := mkRequest {
  url : endpoint;
  params : dict
}.

(** The texts the bot sends; each constructor is one literal or f-string
    of main.py. *)
Inductive text :=
| Welcome
| Help
| AskTitle
| SearchingTitle (query : pystr)
| MoviesNotFound
| AskRating
| RatingNotNumeric
| SearchingRating (min_rating : pyfloat) (genre : option pystr)
| SearchingBudget (budget_type : pystr) (genre : option pystr)
| MoviesNotFoundParams
| HistoryEmpty
| HistoryList (entries : list SearchHistory)
| HistoryPeriodEmpty
| HistoryPeriod (days : Z) (entries : list SearchHistory)
| HistoryCleared (deleted_count : Z)
| SearchingMovie (query : pystr)
| MovieNotFound
| MovieInfoFailed
| Html (message : pystr).

Inductive reply :=
| reply_text (t : text)
| reply_photo (poster_path : json) (caption : pystr)
| answer
| edit_message_text (t : text).

(** [update.effective_user] and [query.from_user]. Telegram sends
    well-formed text: the strings of a user, of a command and of a message
    hold no lone surrogate, so SQLite binds them; the strings of the
    provider are checked when a movie row is inserted. *)
Record TgUser := mkTgUser {
  tg_id : Z;
  tg_username : option pystr;
  tg_first_name : pystr;
  tg_last_name : option pystr
}.

(** What the bot does not own: the provider behind [requests.get], the
    clock (in microseconds), [str.lower], [int(...)], [float(...)] and
    [str(...)] on floats, the API key, and the rendering of one movie
    record ([format_movie_message], which only reads its argument).
    [requests_get] answers [None] when the call, [raise_for_status] or
    [json()] raises [RequestException]; [int] and [float] answer [None]
    for [ValueError]. *)
Class Env := {
  World : Type;
  requests_get : request -> World -> option json * World;
  now : World -> Z;
  str_lower : pystr -> pystr;
  int_of_str : pystr -> option Z;
  float_of_str : pystr -> option pyfloat;
  str_of_float : pyfloat -> pystr;
  format_movie_message : json -> exn + pystr;
  TMDB_API_KEY : pystr
}.

(** ** The bot *)

Section MovieBot.

Context {E : Env}.

Record Sys := mkSys {
  world : World;
  db : DB;
  outbox : list reply;        (* messages sent, oldest first *)
  calls : list request        (* provider calls made, oldest first *)
}.

(** A run either returns or raises; the state is kept in both cases. *)
Definition M (A : Type) : Type := Sys -> (exn + A) * Sys.

Definition ret {A : Type} (a : A) : M A := fun s => (inr a, s).

Definition raise {A : Type} (e : exn) : M A := fun s => (inl e, s).

Definition bind {A B : Type} (m : M A) (k : A -> M B) : M B :=
  fun s =>
    match m s with
    | (inr a, s') => k a s'
    | (inl e, s') => (inl e, s')
    end.

Definition lift {A : Type} (r : exn + A) : M A := fun s => (r, s).

Notation "x <- m ;; k" := (bind m (fun x => k))
  (at level 61, m at next level, right associativity).
Notation "m ;; k" := (bind m (fun _ => k))
  (at level 61, right associativity).

Definition get_db : M DB := fun s => (inr (db s), s).

Definition put_db (d : DB) : M unit :=
  fun s => (inr tt, mkSys (world s) d (outbox s) (calls s)).

Definition clock : M Z := fun s => (inr (now (world s)), s).

Definition send (r : reply) : M unit :=
  fun s => (inr tt, mkSys (world s) (db s) (outbox s ++ [r]) (calls s)).

(** [requests.get(url, params=params, timeout=10)], [raise_for_status()]
    and [json()]: [None] stands for a [RequestException]. *)
Definition fetch (req : request) : M (option json) :=
  fun s =>
    let (r, w) := requests_get req (world s) in
    (inr r, mkSys w (db s) (outbox s) (calls s ++ [req])).

(** The body of the [try] blocks that return [response.json()], [None] on
    [RequestException]. *)
Definition fetch_json (req : request) : M json :=
  r <- fetch req ;;
  ret (match r with Some j => j | None => JNull end).

(** [with database.atomic()]: an exception rolls the tables back and goes
    on to the caller. *)
Definition atomic {A : Type} (body : M A) : M A :=
  fun s =>
    match body s with
    | (inr a, s') => (inr a, s')
    | (inl e, s') => (inl e, mkSys (world s') (db s) (outbox s') (calls s'))
    end.

Definition ru_RU : json := JStr (py "ru-RU").

(** [url] and [params] of [search_movies_by_title]. *)
Definition title_request (query : pystr) (page : Z) : request :=
  mkRequest SearchMovie
    [ (py "api_key", JStr TMDB_API_KEY);
      (py "query", JStr query);
      (py "page", JInt page);
      (py "language", ru_RU) ].

Definition search_movies_by_title (query : pystr) (page : Z) : M json :=
  fetch_json (title_request query page).

(** [url] and [params] of [get_genre_id]. *)
Definition genre_list_request : request :=
  mkRequest GenreMovieList
    [ (py "api_key", JStr TMDB_API_KEY);
      (py "language", ru_RU) ].

Fixpoint find_genre (genre_name : pystr) (genres : list json) : exn + json :=
  match genres with
  | [] => inr JNull
  | genre :: rest =>
      and_then (getitem genre (py "name")) (fun name =>
      match name with
      | JStr name =>
          if contains (str_lower genre_name) (str_lower name)
          then getitem genre (py "id")
          else find_genre genre_name rest
      | _ => inl AttributeError
      end)
  end.

Definition get_genre_id (genre_name : pystr) : M json :=
  r <- fetch genre_list_request ;;
  match r with
  | None => ret JNull
  | Some body =>
      genres <- lift (get body (py "genres") (JList [])) ;;
      genres <- lift (iter genres) ;;
      lift (find_genre genre_name genres)
  end.

(** [if genre:] for [genre: str = None]. *)
Definition given (genre : option pystr) : bool :=
  match genre with
  | Some (_ :: _) => true
  | _ => false
  end.

(** The [if genre:] block of the two discover searches. *)
Definition with_genre (genre : option pystr) (params : dict) : M dict :=
  match genre with
  | Some (c :: name) =>
      genre_id <- get_genre_id (c :: name) ;;
      ret (if truthy genre_id
           then setitem (py "with_genres") genre_id params
           else params)
  | _ => ret params
  end.

(** [params] of [search_movies_by_rating] before the genre is looked up. *)
Definition rating_params (min_rating : pyfloat) (page : Z) : dict :=
  [ (py "api_key", JStr TMDB_API_KEY);
    (py "sort_by", JStr (py "vote_average.desc"));
    (py "vote_count.gte", JInt 100);
    (py "vote_average.gte", JFloat min_rating);
    (py "page", JInt page);
    (py "language", ru_RU) ].

Definition search_movies_by_rating (min_rating : pyfloat) (genre : option pystr) (page : Z)
  : M json :=
  params <- with_genre genre (rating_params min_rating page) ;;
  fetch_json (mkRequest DiscoverMovie params).

(** [params] of [search_movies_by_budget] before the genre is looked up. *)
Definition budget_params (budget_type : pystr) (page : Z) : dict :=
  let sort_by :=
    if str_eqb budget_type (py "low") then py "budget.asc" else py "budget.desc" in
  [ (py "api_key", JStr TMDB_API_KEY);
    (py "sort_by", JStr sort_by);
    (py "budget.gte", JInt 1000);
    (py "page", JInt page);
    (py "language", ru_RU) ].

Definition search_movies_by_budget (budget_type : pystr) (genre : option pystr) (page : Z)
  : M json :=
  params <- with_genre genre (budget_params budget_type page) ;;
  fetch_json (mkRequest DiscoverMovie params).

(** [url] and [params] of [get_movie_details]. *)
Definition details_request (movie_id : json) : request :=
  mkRequest (Movie movie_id)
    [ (py "api_key", JStr TMDB_API_KEY);
      (py "language", ru_RU) ].

Definition get_movie_details (movie_id : json) : M json :=
  fetch_json (details_request movie_id).

(** *** History store *)

(** [User.get_or_create(telegram_id=..., defaults={...})]. *)
Definition find_user (tid : Z) (d : DB) : option User :=
  find (fun u => telegram_id u =? tid) (users d).

Definition get_or_create_user (from : TgUser) : M User :=
  d <- get_db ;;
  match find_user (tg_id from) d with
  | Some user => ret user
  | None =>
      t <- clock ;;
      let user := mkUser (next_id (map user_id (users d))) (tg_id from)
                    (tg_username from) (tg_first_name from) (tg_last_name from) t in
      put_db (mkDB (users d ++ [user]) (searches d) (movies d)) ;;
      ret user
  end.

(** [User.get(telegram_id=...)]. *)
Definition User_get (tid : Z) : M User :=
  d <- get_db ;;
  match find_user tid d with
  | Some user => ret user
  | None => raise DoesNotExist
  end.

Definition SearchHistory_create (user : User) (search_type query : pystr)
    (result_count : Z) : M SearchHistory :=
  d <- get_db ;;
  t <- clock ;;
  let row := mkSearchHistory (next_id (map search_id (searches d))) (user_id user)
               search_type query result_count t in
  put_db (mkDB (users d) (searches d ++ [row]) (movies d)) ;;
  ret row.

(** [', '.join([genre['name'] for genre in movie_data.get('genres', [])])]. *)
Definition as_str (v : json) : exn + pystr :=
  match v with
  | JStr s => inr s
  | _ => inl TypeError
  end.

Definition genre_names_of (movie_data : json) : exn + pystr :=
  and_then (get movie_data (py "genres") (JList [])) (fun genres =>
  and_then (iter genres) (fun genres =>
  and_then (traverse (fun genre => getitem genre (py "name")) genres) (fun names =>
  and_then (traverse as_str names) (fun names =>
  inr (join (py ", ") names))))).

(** The keyword arguments of [MovieResult.create], in the order Python
    evaluates them. Column values are kept as the provider gave them. *)
Definition movie_row (search : SearchHistory) (movie_data : json) (id : Z)
  : exn + MovieResult :=
  and_then (get movie_data (py "id") JNull) (fun movie_id =>
  and_then (get movie_data (py "title") (JStr [])) (fun title =>
  and_then (get movie_data (py "original_title") (JStr [])) (fun original_title =>
  and_then (get movie_data (py "overview") (JStr [])) (fun overview =>
  and_then (get movie_data (py "release_date") (JStr [])) (fun release_date =>
  and_then (get movie_data (py "vote_average") (JInt 0)) (fun vote_average =>
  and_then (get movie_data (py "vote_count") (JInt 0)) (fun vote_count =>
  and_then (genre_names_of movie_data) (fun genre_names =>
  and_then (get movie_data (py "adult") (JBool false)) (fun adult =>
  and_then (get movie_data (py "poster_path") (JStr [])) (fun poster_path =>
  and_then (get movie_data (py "budget") (JInt 0)) (fun budget =>
  and_then (get movie_data (py "revenue") (JInt 0)) (fun revenue =>
  inr (mkMovieResult id (search_id search) movie_id title original_title
         overview release_date vote_average vote_count genre_names adult
         poster_path budget revenue))))))))))))).

(** [movie_id], [title] and [adult] are [NOT NULL]. *)
Definition constraints_ok (r : MovieResult) : bool :=
  not_null (movie_id r) && not_null (title r) && not_null (adult r).

(** [IntegerField.db_value] and [BigIntegerField.db_value]: [None] stays,
    any other value goes through [int(...)]. *)
Definition int_value (v : json) : exn + option Z :=
  match v with
  | JNull => inr None
  | JBool b => inr (Some (if b then 1 else 0))
  | JInt z => inr (Some z)
  | JFloat (Finite q) => inr (Some (Z.quot (Qnum q) (Z.pos (Qden q))))
  | JFloat (Infinite _) => inl OverflowError
  | JFloat NaN => inl ValueError
  | JStr s =>
      match int_of_str s with
      | Some z => inr (Some z)
      | None => inl ValueError
      end
  | JList _ | JDict _ => inl TypeError
  end.

(** [FloatField.db_value]: [None] stays, any other value goes through
    [float(...)]; an integer too large for a float raises. *)
Definition float_value (v : json) : exn + unit :=
  match v with
  | JNull | JBool _ | JFloat _ => inr tt
  | JInt z => if Z.abs z <? 2 ^ 1024 - 2 ^ 970 then inr tt else inl OverflowError
  | JStr s =>
      match float_of_str s with
      | Some _ => inr tt
      | None => inl ValueError
      end
  | JList _ | JDict _ => inl TypeError
  end.

(** An integer SQLite can hold: [sqlite3] raises [OverflowError] when it
    binds one outside 64 bits. *)
Definition sqlite_int (v : option Z) : bool :=
  match v with
  | None => true
  | Some z => (- 9223372036854775808 <=? z) && (z <? 9223372036854775808)
  end.

Definition int_error (v : option Z) : option exn :=
  if sqlite_int v then None else Some OverflowError.

(** A code point that stands alone as half of a surrogate pair: [sqlite3]
    raises [UnicodeEncodeError] when it binds a string that holds one. *)
Definition surrogate (c : N) : bool := ((55296 <=? c) && (c <=? 57343))%N.

(** The binding of a text column. A value that is no string is written
    as [str(...)] of it, which holds no surrogate. *)
Definition text_error (v : json) : option exn :=
  match v with
  | JStr s => if existsb surrogate s then Some UnicodeEncodeError else None
  | _ => None
  end.

Fixpoint first_error (l : list (option exn)) : option exn :=
  match l with
  | [] => None
  | Some e :: _ => Some e
  | None :: l' => first_error l'
  end.

(** What the [INSERT] of a row raises, if anything: the conversions of the
    numeric columns in the order of the columns, then the binding of the
    values in the same order, then the [NOT NULL] constraints. The flag
    takes any value ([bool(...)]). The row keeps the values as [create]
    received them: the bot never reads a movie row. *)
Definition insert_error (r : MovieResult) : option exn :=
  match
    and_then (int_value (movie_id r)) (fun a =>
    and_then (float_value (vote_average r)) (fun _ =>
    and_then (int_value (vote_count r)) (fun b =>
    and_then (int_value (budget r)) (fun c =>
    and_then (int_value (revenue r)) (fun d =>
    inr (a, b, c, d))))))
  with
  | inl e => Some e
  | inr (a, b, c, d) =>
      match first_error
              [ int_error a; text_error (title r); text_error (original_title r);
                text_error (overview r); text_error (release_date r);
                int_error b; text_error (JStr (genre_names r));
                text_error (poster_path r); int_error c; int_error d ]
      with
      | Some e => Some e
      | None => if constraints_ok r then None else Some IntegrityError
      end
  end.

Definition MovieResult_create (search : SearchHistory) (movie_data : json) : M unit :=
  d <- get_db ;;
  row <- lift (movie_row search movie_data (next_id (map result_id (movies d)))) ;;
  match insert_error row with
  | None => put_db (mkDB (users d) (searches d) (movies d ++ [row]))
  | Some e => raise e
  end.

Fixpoint create_movie_results (search : SearchHistory) (results : list json) : M unit :=
  match results with
  | [] => ret tt
  | movie_data :: rest =>
      MovieResult_create search movie_data ;;
      create_movie_results search rest
  end.

Definition save_search_history (user : User) (search_type query : pystr)
    (results : list json) : M unit :=
  atomic (
    search <- SearchHistory_create user search_type query
                (Z.of_nat (List.length results)) ;;
    create_movie_results search results).

(** *** Search orchestration *)

(** [not results or not results.get('results')]. *)
Definition no_results (results : json) : M bool :=
  if truthy results then
    page <- lift (get results (py "results") JNull) ;;
    ret (negb (truthy page))
  else ret true.

(** [results['results'][:self.config.MOVIES_PER_PAGE]], as the [for] loop
    visits it. *)
Definition first_movies (results : json) : M (list json) :=
  page <- lift (getitem results (py "results")) ;;
  movies <- lift (getslice page Config.MOVIES_PER_PAGE) ;;
  lift (iter movies).

(** The loop that fills [detailed_movies] (the same in the three
    commands). *)
Fixpoint collect_details (movies detailed_movies : list json) : M (list json) :=
  match movies with
  | [] => ret detailed_movies
  | movie :: rest =>
      id <- lift (getitem movie (py "id")) ;;
      details <- get_movie_details id ;;
      collect_details rest
        (if truthy details then detailed_movies ++ [details] else detailed_movies)
  end.

(** The sending of one movie: a photo with caption when the record has a
    poster, a text otherwise. *)
Definition send_movie (movie : json) : M unit :=
  message <- lift (format_movie_message movie) ;;
  poster_path <- lift (get movie (py "poster_path") JNull) ;;
  if truthy poster_path
  then send (reply_photo poster_path message)
  else send (reply_text (Html message)).

Fixpoint send_results (detailed_movies : list json) : M unit :=
  match detailed_movies with
  | [] => ret tt
  | movie :: rest => send_movie movie ;; send_results rest
  end.

Definition movie_search_command (from : TgUser) (args : list pystr) : M unit :=
  user <- get_or_create_user from ;;
  match args with
  | [] => send (reply_text AskTitle)
  | _ :: _ =>
      let query := join (py " ") args in
      send (reply_text (SearchingTitle query)) ;;
      results <- search_movies_by_title query 1 ;;
      empty <- no_results results ;;
      if empty then send (reply_text MoviesNotFound)
      else
        movies <- first_movies results ;;
        detailed_movies <- collect_details movies [] ;;
        save_search_history user (py "title") query detailed_movies ;;
        send_results detailed_movies
  end.

(** [f' genre:{genre}' if genre else ''] *)
Definition genre_suffix (genre : option pystr) : pystr :=
  match genre with
  | Some (c :: name) => py " genre:" ++ c :: name
  | _ => []
  end.

Definition movie_by_rating_command (from : TgUser) (args : list pystr) : M unit :=
  user <- get_or_create_user from ;;
  match args with
  | [] => send (reply_text AskRating)
  | arg :: more =>
      match float_of_str arg with
      | None => send (reply_text RatingNotNumeric)
      | Some min_rating =>
          let genre := match more with [] => None | g :: _ => Some g end in
          send (reply_text (SearchingRating min_rating genre)) ;;
          results <- search_movies_by_rating min_rating genre 1 ;;
          empty <- no_results results ;;
          if empty then send (reply_text MoviesNotFoundParams)
          else
            movies <- first_movies results ;;
            detailed_movies <- collect_details movies [] ;;
            save_search_history user (py "rating")
              (py "rating>" ++ str_of_float min_rating ++ genre_suffix genre)
              detailed_movies ;;
            send_results detailed_movies
      end
  end.

Definition handle_budget_search (from : TgUser) (args : list pystr)
    (budget_type : pystr) : M unit :=
  user <- get_or_create_user from ;;
  let genre := match args with [] => None | _ :: _ => Some (join (py " ") args) end in
  send (reply_text (SearchingBudget budget_type genre)) ;;
  results <- search_movies_by_budget budget_type genre 1 ;;
  empty <- no_results results ;;
  if empty then send (reply_text MoviesNotFoundParams)
  else
    movies <- first_movies results ;;
    detailed_movies <- collect_details movies [] ;;
    save_search_history user (py "budget_" ++ budget_type)
      (py "budget:" ++ budget_type ++ genre_suffix genre)
      detailed_movies ;;
    send_results detailed_movies.

Definition low_budget_movie_command (from : TgUser) (args : list pystr) : M unit :=
  handle_budget_search from args (py "low").

Definition high_budget_movie_command (from : TgUser) (args : list pystr) : M unit :=
  handle_budget_search from args (py "high").

(** The dictionary [types] of [get_search_type_name]: the names of the
    kinds of search in Russian. *)
Definition search_type_names : list (pystr * pystr) :=
  [ (py "title",
     [1055; 1086; 32; 1085; 1072; 1079; 1074; 1072; 1085; 1080; 1102]%N);
    (py "rating",
     [1055; 1086; 32; 1088; 1077; 1081; 1090; 1080; 1085; 1075; 1091]%N);
    (py "budget_low",
     [1053; 1080; 1079; 1082; 1086; 1073; 1102; 1076; 1078; 1077; 1090; 1085;
      1099; 1077]%N);
    (py "budget_high",
     [1042; 1099; 1089; 1086; 1082; 1086; 1073; 1102; 1076; 1078; 1077; 1090;
      1085; 1099; 1077]%N) ].

Definition get_search_type_name (search_type : pystr) : pystr :=
  match find (fun kv => str_eqb search_type (fst kv)) search_type_names with
  | Some kv => snd kv
  | None => search_type
  end.

Definition start_command (from : TgUser) : M unit :=
  user <- get_or_create_user from ;;
  send (reply_text Welcome).

Definition help_command : M unit := send (reply_text Help).

Definition history (from : TgUser) : M unit :=
  user <- get_or_create_user from ;;
  d <- get_db ;;
  match recent_searches user d with
  | [] => send (reply_text HistoryEmpty)
  | entries => send (reply_text (HistoryList entries))
  end.

(** [timedelta(days=days)]. *)
Definition timedelta (days : Z) : Z := days * 86400000000.

Definition show_detailed_history (from : TgUser) (days : Z) : M unit :=
  user <- User_get (tg_id from) ;;
  t <- clock ;;
  let cutoff_date := t - timedelta days in
  d <- get_db ;;
  match order_by_created_at_desc
          (filter (fun h => (search_user h =? user_id user) &&
                            (cutoff_date <=? created_at h)) (searches d)) with
  | [] => send (edit_message_text HistoryPeriodEmpty)
  | entries => send (edit_message_text (HistoryPeriod days entries))
  end.

Definition clear_history (from : TgUser) : M unit :=
  user <- User_get (tg_id from) ;;
  d <- get_db ;;
  let deleted_count := Z.of_nat (List.length (searches_of user d)) in
  put_db (mkDB (users d)
            (filter (fun h => negb (search_user h =? user_id user)) (searches d))
            (movies d)) ;;
  send (edit_message_text (HistoryCleared deleted_count)).

Definition handle_message (from : TgUser) (query : pystr) : M unit :=
  user <- get_or_create_user from ;;
  if Z.of_nat (List.length query) >? 2 then
    send (reply_text (SearchingMovie query)) ;;
    results <- search_movies_by_title query 1 ;;
    empty <- no_results results ;;
    if empty then send (reply_text MovieNotFound)
    else
      page <- lift (getitem results (py "results")) ;;
      movie_data <- lift (getfirst page) ;;
      id <- lift (getitem movie_data (py "id")) ;;
      details <- get_movie_details id ;;
      if truthy details then
        message <- lift (format_movie_message details) ;;
        poster_path <- lift (get details (py "poster_path") JNull) ;;
        save_search_history user (py "title") query [details] ;;
        if truthy poster_path
        then send (reply_photo poster_path message)
        else send (reply_text (Html message))
      else send (reply_text MovieInfoFailed)
  else ret tt.

Definition handle_callback (from : TgUser) (data : pystr) : M unit :=
  send answer ;;
  if startswith (py "history_") data then
    match nth_error (split 95 data) 1 with
    | Some piece =>
        match int_of_str piece with
        | Some days => show_detailed_history from days
        | None => raise ValueError
        end
    | None => raise IndexError
    end
  else if str_eqb data (py "clear_history") then clear_history from
  else ret tt.

(** The updates and the handlers [setup_handlers] gives them to. *)
Inductive update :=
| CmdStart
| CmdHelp
| CmdHistory
| CmdMovieSearch (args : list pystr)
| CmdMovieByRating (args : list pystr)
| CmdLowBudgetMovie (args : list pystr)
| CmdHighBudgetMovie (args : list pystr)
| CallbackQuery (data : pystr)
| TextMessage (message : pystr).

Definition dispatch (from : TgUser) (u : update) : M unit :=
  match u with
  | CmdStart => start_command from
  | CmdHelp => help_command
  | CmdHistory => history from
  | CmdMovieSearch args => movie_search_command from args
  | CmdMovieByRating args => movie_by_rating_command from args
  | CmdLowBudgetMovie args => low_budget_movie_command from args
  | CmdHighBudgetMovie args => high_budget_movie_command from args
  | CallbackQuery data => handle_callback from data
  | TextMessage message => handle_message from message
  end.

End MovieBot.

Arguments Sys : clear implicits.
Arguments M : clear implicits.

(** ** Well-formed provider data *)

(** One genre of the provider's list, [{"id": ..., "name": ...}]. *)
Definition genre_json (g : Z * pystr) : json :=
  JDict [ (py "id", JInt (fst g)); (py "name", JStr (snd g)) ].

(** One candidate of a result page; only the id is guaranteed. *)
Definition candidate_json (id : Z) : json :=
  JDict [ (py "id", JInt id) ].

(** A result page carrying the candidates [ids]. *)
Definition page_json (ids : list Z) : json :=
  JDict [ (py "page", JInt 1); (py "results", JList (map candidate_json ids)) ].

(** A detail record that [MovieResult.create] accepts. *)
Definition storable {E : Env} (movie_data : json) : Prop :=
  exists row,
    movie_row (mkSearchHistory 0 0 [] [] 0 0) movie_data 0 = inr row /\
    insert_error row = None.

(** ** A scripted provider

    A world for running the bot on concrete inputs: the provider answers
    the n-th call with the n-th line of a script and fails when the script
    is over; the clock ticks once per call. *)

Module Script.

Record world := mkWorld {
  time : Z;
  answers : list (option json)
}.

Definition respond (req : request) (w : world) : option json * world :=
  match answers w with
  | [] => (None, mkWorld (time w + 1) [])
  | a :: rest => (a, mkWorld (time w + 1) rest)
  end.

(** Lower case for the Latin and the Russian alphabet. *)
Definition lower_char (c : N) : N :=
  if ((65 <=? c) && (c <=? 90))%N then (c + 32)%N
  else if ((1040 <=? c) && (c <=? 1071))%N then (c + 32)%N
  else if ((1024 <=? c) && (c <=? 1039))%N then (c + 80)%N
  else c.

Definition digit (c : N) : option Z :=
  if ((48 <=? c) && (c <=? 57))%N then Some (Z.of_N c - 48) else None.

(** [float] of a string of digits. *)
Fixpoint digits (s : pystr) (acc : Z) : option Z :=
  match s with
  | [] => Some acc
  | c :: s' =>
      match digit c with
      | Some d => digits s' (10 * acc + d)
      | None => None
      end
  end.

Definition parse (s : pystr) : option pyfloat :=
  match s with
  | [] => None
  | _ => option_map (fun z => Finite (inject_Z z)) (digits s 0)
  end.

(** The caption: the title of the record when it is a string. Like the
    f-string of [format_movie_message] it takes any title, and like
    [release_date[:4]] it raises [TypeError] on a release date that is a
    number other than 0. *)
Definition caption (movie : json) : exn + pystr :=
  and_then (get movie (py "title") (JStr [])) (fun title =>
  and_then (get movie (py "release_date") (JStr [])) (fun release_date =>
  match release_date with
  | JInt (Zpos _) | JInt (Zneg _) => inl TypeError
  | _ => inr (match title with JStr t => t | _ => py "?" end)
  end)).

#[export] Instance env : Env := {|
  World := world;
  requests_get := respond;
  now := time;
  str_lower := map lower_char;
  int_of_str := fun s => match s with [] => None | _ => digits s 0 end;
  float_of_str := parse;
  str_of_float := fun _ => py "x";
  format_movie_message := caption;
  TMDB_API_KEY := py "key"
|}.

Definition start (answers : list (option json)) (d : DB) : Sys env :=
  mkSys (mkWorld 0 answers) d [] [].

Definition alice : TgUser := mkTgUser 42 (Some (py "alice")) (py "Alice") None.

Definition alice_row : User := mkUser 1 42 (Some (py "alice")) (py "Alice") None 0.

(** A detail record as the provider sends it. *)
Definition details_json (id : Z) (t : pystr) : json :=
  JDict [ (py "id", JInt id); (py "title", JStr t);
          (py "genres", JList [genre_json (878, py "SF")]);
          (py "adult", JBool false) ].

Definition matrix : pystr := py "Matrix".

(** Alice is known and has no history. *)
Definition known_db : DB := mkDB [alice_row] [] [].

Definition two_movies : list json :=
  [ details_json 603 (py "The Matrix"); details_json 604 (py "Reloaded") ].

Definition before_save : Sys env := start [] known_db.

Definition after_save : Sys env :=
  snd (save_search_history alice_row (py "title") matrix two_movies before_save).

(** A title search with one candidate, and the history cleared after it. *)
Definition one_hit : list (option json) :=
  [ Some (page_json [603]); Some (details_json 603 (py "The Matrix")) ].

Definition after_search : Sys env :=
  snd (movie_search_command alice [matrix] (start one_hit empty_db)).

Definition after_clear : Sys env := snd (clear_history alice after_search).

Definition matrix_entry : SearchHistory :=
  mkSearchHistory 1 1 (py "title") matrix 1 2.

Definition matrix_row : MovieResult :=
  mkMovieResult 1 1 (JInt 603) (JStr (py "The Matrix")) (JStr []) (JStr [])
    (JStr []) (JInt 0) (JInt 0) (py "SF") (JBool false) (JStr []) (JInt 0) (JInt 0).

(** A title search with two candidates whose details cannot be fetched. *)
Definition no_details : list (option json) :=
  [ Some (page_json [603; 604]); None; None ].

(** A page of seven candidates. *)
Definition seven : list Z := [11; 12; 13; 14; 15; 16; 17].

Definition seven_hits : list (option json) :=
  Some (page_json seven) ::
  map (fun id => Some (details_json id (py "m"))) [11; 12; 13; 14; 15].

(** Five candidates, the details of the third cannot be fetched. *)
Definition five : list Z := [11; 12; 13; 14; 15].

Definition third_fails : list (option json) :=
  [ Some (details_json 11 (py "a")); Some (details_json 12 (py "b")); None;
    Some (details_json 14 (py "d")); Some (details_json 15 (py "e")) ].

(** The genres of the provider, in Russian, and two names to resolve:
    [fantast] is the beginning of the second genre in lower case. *)
Definition genres : list (Z * pystr) :=
  [ (28, [1041; 1086; 1077; 1074; 1080; 1082]%N);
    (878, [1060; 1072; 1085; 1090; 1072; 1089; 1090; 1080; 1082; 1072]%N);
    (14, [1060; 1101; 1085; 1090; 1077; 1079; 1080]%N) ].

Definition genre_list : dict :=
  [ (py "genres", JList (map genre_json genres)) ].

Definition fantast : pystr := [1092; 1072; 1085; 1090; 1072; 1089; 1090]%N.

Definition western : pystr := py "western".

(** A record without an id, which the table of movie rows refuses. *)
Definition no_id : json := JDict [ (py "title", JStr (py "Untitled")) ].

Definition mixed : list json := [ details_json 603 (py "The Matrix"); no_id ].

(** A page of three candidates whose details are all fetched. *)
Definition three_hits : list (option json) :=
  Some (page_json [1; 2; 3]) ::
  map (fun id => Some (details_json id (py "m"))) [1; 2; 3].

(** A record the table accepts and the caption refuses: its release date
    is a number. *)
Definition odd_date : json :=
  JDict [ (py "id", JInt 604); (py "title", JStr (py "Reloaded"));
          (py "release_date", JInt 2003) ].

(** Two candidates; the record of the second has the odd date. *)
Definition shown_then_odd : list (option json) :=
  [ Some (page_json [603; 604]); Some (details_json 603 (py "The Matrix"));
    Some odd_date ].

(** One candidate whose record has the odd date. *)
Definition odd_hit : list (option json) :=
  [ Some (page_json [604]); Some odd_date ].

(** A page whose second candidate has no id. *)
Definition broken_page : json :=
  JDict [ (py "results", JList [ candidate_json 603; JDict [] ]) ].

Definition broken_hits : list (option json) :=
  [ Some broken_page; Some (details_json 603 (py "The Matrix")) ].

(** Time passes and the provider has a new script. *)
Definition again (answers : list (option json)) (s : Sys env) : Sys env :=
  match s with
  | mkSys w d sent asked => mkSys (mkWorld (time w + 1) answers) d sent asked
  end.

(** Alice searches, clears her history and searches again: with a
    command, and with a plain message. *)
Definition searched_again : Sys env :=
  snd (movie_search_command alice [matrix] (again one_hit after_clear)).

Definition asked_again : Sys env :=
  snd (handle_message alice matrix (again one_hit after_clear)).

(** Three candidates; the details of the second are an empty object. *)
Definition empty_second : list (option json) :=
  [ Some (details_json 11 (py "a")); Some (JDict []);
    Some (details_json 13 (py "c")) ].

(** Five candidates: the details of the third cannot be fetched and the
    record of the second has no id. *)
Definition five_hits_one_bad : list (option json) :=
  [ Some (page_json five);
    Some (details_json 11 (py "a")); Some no_id; None;
    Some (details_json 14 (py "d")); Some (details_json 15 (py "e")) ].

(** Bob has not written to the bot yet. *)
Definition bob : TgUser := mkTgUser 7 None (py "Bob") None.

End Script.

(** ** Vocabulary of the statements *)

Section Vocabulary.

Context {E : Env}.

(** What a provider answer becomes in the [try] blocks. *)
Definition answer_of (r : option json) : json :=
  match r with
  | Some j => j
  | None => JNull
  end.

(** The answers the provider gives when it is asked for the details of
    [ids] one after the other, starting in [s], and the state afterwards. *)
Fixpoint fetch_each (ids : list json) (s : Sys E) : list json * Sys E :=
  match ids with
  | [] => ([], s)
  | id :: rest =>
      let (r, w) := requests_get (details_request id) (world s) in
      let (answers, s') :=
        fetch_each rest
          (mkSys w (db s) (outbox s) (calls s ++ [details_request id])) in
      (answer_of r :: answers, s')
  end.

(** The candidates [movies] carry the ids [ids]. *)
Definition have_ids (movies ids : list json) : Prop :=
  Forall2 (fun movie id => getitem movie (py "id") = inr id) movies ids.

(** [row] is the row [MovieResult.create] makes of [movie_data] for [entry]. *)
Definition row_of (entry : SearchHistory) (row : MovieResult) (movie_data : json)
  : Prop :=
  movie_row entry movie_data (result_id row) = inr row.

(** [genre_name] occurs in the name of [g], upper and lower case alike. *)
Definition names (genre_name : pystr) (g : Z * pystr) : Prop :=
  exists pre post, str_lower (snd g) = pre ++ str_lower genre_name ++ post.

(** The keys SQLite hands out to [n] rows inserted one after the other,
    the first of them being [first]. *)
Fixpoint consecutive (first : Z) (n : nat) : list Z :=
  match n with
  | O => []
  | S n' => first :: consecutive (first + 1) n'
  end.

(** The bot handles updates one at a time; an exception ends the handler
    and the application goes on with the next update. *)
Fixpoint run_all (updates : list (TgUser * update)) (s : Sys E) : Sys E :=
  match updates with
  | [] => s
  | (from, u) :: rest => run_all rest (snd (dispatch from u s))
  end.

(** Every run of [m] takes a state to an [R]-related one, whether it
    returns or raises, and what it returns satisfies [Q]. *)
Definition yields {A : Type} (R : Sys E -> Sys E -> Prop) (Q : A -> Prop)
    (m : M E A) : Prop :=
  forall s, R s (snd (m s)) /\ forall a, fst (m s) = inr a -> Q a.

Definition steps {A : Type} (R : Sys E -> Sys E -> Prop) (m : M E A) : Prop :=
  yields R (fun _ => True) m.

(** A relation between states that composes along a run. *)
Definition kept (R : Sys E -> Sys E -> Prop) : Prop :=
  (forall x, R x x) /\
  (forall x y z, R x y -> R y z -> R x z).

(** At most [n] items. *)
Definition at_most (n : nat) (l : list json) : Prop := (List.length l <= n)%nat.

Definition same_calls (s s' : Sys E) : Prop := calls s' = calls s.

(** The two history tables are as before. *)
Definition same_history (s s' : Sys E) : Prop :=
  searches (db s') = searches (db s) /\ movies (db s') = movies (db s).

(** From [s] to [s'] the history has grown by one entry that counts one
    result, and by the row of [movie_data], owned by this entry. The entry
    owns this row after the rows that were stored under its key before,
    and this row alone when every row stored before had its entry. *)
Definition one_snapshot (s s' : Sys E) (movie_data : json) : Prop :=
  exists entry row,
    searches (db s') = searches (db s) ++ [entry] /\
    result_count entry = 1 /\
    movies (db s') = movies (db s) ++ [row] /\
    row_of entry row movie_data /\
    owned_by entry row = true /\
    movies_of entry (db s') = movies_of entry (db s) ++ [row] /\
    (references_ok (db s) -> movies_of entry (db s') = [row]).

(** The entries of [s'] that were not in [s] count at most
    [MOVIES_PER_PAGE] results. *)
Definition bounded (entry : SearchHistory) : Prop :=
  0 <= result_count entry <= Config.MOVIES_PER_PAGE.

Definition new_entries_bounded (s s' : Sys E) : Prop :=
  forall entry, In entry (searches (db s')) ->
    In entry (searches (db s)) \/ bounded entry.

End Vocabulary.

(** ** Vocabulary of the further statements *)

Section MoreVocabulary.

Context {E : Env}.

(** The tables are as before. *)
Definition same_db (s s' : Sys E) : Prop := db s' = db s.

(** The primary keys of the three tables and the Telegram ids of the
    users are unique, and every entry of the history belongs to a user
    of the table. *)
Definition keys_ok (d : DB) : Prop :=
  NoDup (map user_id (users d)) /\
  NoDup (map telegram_id (users d)) /\
  NoDup (map search_id (searches d)) /\
  NoDup (map result_id (movies d)) /\
  forall h, In h (searches d) -> In (search_user h) (map user_id (users d)).

(** From [s] to [s'] the tables keep [keys_ok] and the user [u]. *)
Definition keeps_keys (u : User) (s s' : Sys E) : Prop :=
  keys_ok (db s) /\ In u (users (db s)) ->
  keys_ok (db s') /\ In u (users (db s')).

(** The entries of [s'] that were not in [s] satisfy [P]. *)
Definition new_entries (P : SearchHistory -> Prop) (s s' : Sys E) : Prop :=
  forall entry, In entry (searches (db s')) ->
    In entry (searches (db s)) \/ P entry.

(** An entry of the user [u] whose kind has a name in the table of
    [get_search_type_name]. *)
Definition written_for (u : User) (entry : SearchHistory) : Prop :=
  search_user entry = user_id u /\
  In (search_type entry, get_search_type_name (search_type entry))
    search_type_names.

(** From [s] to [s'] the users are the same and the new entries are
    entries of [u] of a known kind. *)
Definition writes_for (u : User) (s s' : Sys E) : Prop :=
  users (db s') = users (db s) /\ new_entries (written_for u) s s'.

(** From [s] to [s'] at most [n] calls to the provider were made, and
    the calls made before are still on record. *)
Definition calls_within (n : nat) (s s' : Sys E) : Prop :=
  exists extra, calls s' = calls s ++ extra /\ (List.length extra <= n)%nat.

(** The most calls to the provider an update can cost: the genre list,
    one search and the details of one page. *)
Definition call_budget (u : update) : nat :=
  match u with
  | CmdStart | CmdHelp | CmdHistory | CallbackQuery _ => 0
  | TextMessage _ => 2
  | CmdMovieSearch _ => Z.to_nat Config.MOVIES_PER_PAGE + 1
  | CmdMovieByRating _ | CmdLowBudgetMovie _ | CmdHighBudgetMovie _ =>
      Z.to_nat Config.MOVIES_PER_PAGE + 2
  end.

(** From [s] to [s'] no user and no movie row was deleted or changed:
    the two tables have only grown at their end. *)
Definition grows (s s' : Sys E) : Prop :=
  (exists new_users, users (db s') = users (db s) ++ new_users) /\
  (exists rows, movies (db s') = movies (db s) ++ rows).

(** Newest first. *)
Definition newest_first (l : list SearchHistory) : Prop :=
  StronglySorted (fun a b => created_at b <= created_at a) l.

(** The beginning of [s] up to the first [sep]. *)
Fixpoint until (sep : N) (s : pystr) : pystr :=
  match s with
  | [] => []
  | c :: s' => if N.eqb c sep then [] else c :: until sep s'
  end.

(** A genre with a name that is a string. *)
Definition named (genre : json) : bool :=
  match genre with
  | JDict d =>
      match lookup (py "name") d with
      | Some (JStr _) => true
      | _ => false
      end
  | _ => false
  end.

(** A value of the key [genres] that the join of the genre names accepts. *)
Definition genres_ok (genres : json) : bool :=
  match genres with
  | JList l => forallb named l
  | JStr [] => true
  | JDict [] => true
  | _ => false
  end.

Definition or_default (v : option json) (default : json) : json :=
  match v with
  | Some x => x
  | None => default
  end.

(** A record the table of movie rows accepts: an object whose id is there
    and not null, whose title and adult flag are not null, and whose
    genres, when there, are well formed. *)
Definition storableb (movie_data : json) : bool :=
  match movie_data with
  | JDict d =>
      not_null (or_default (lookup (py "id") d) JNull) &&
      not_null (or_default (lookup (py "title") d) (JStr [])) &&
      not_null (or_default (lookup (py "adult") d) (JBool false)) &&
      genres_ok (or_default (lookup (py "genres") d) (JList []))
  | _ => false
  end.

(** A value peewee can write to an integer column: it converts what is
    not [None] with [int], and SQLite holds 64 bits. *)
Definition int_column (v : json) : bool :=
  match v with
  | JNull => true
  | JInt z => (- 9223372036854775808 <=? z) && (z <? 9223372036854775808)
  | _ => false
  end.

(** A value peewee can write to a float column, converted with [float]. *)
Definition float_column (v : json) : bool :=
  match v with
  | JNull | JFloat _ => true
  | JInt z => (- 9223372036854775808 <=? z) && (z <? 9223372036854775808)
  | _ => false
  end.

(** The numeric columns of a movie row hold numbers. The text columns and
    the adult flag take any value: peewee converts them with [str] and
    [bool]. *)
Definition column_typed (movie_data : json) : bool :=
  match movie_data with
  | JDict d =>
      int_column (or_default (lookup (py "id") d) JNull) &&
      float_column (or_default (lookup (py "vote_average") d) (JInt 0)) &&
      int_column (or_default (lookup (py "vote_count") d) (JInt 0)) &&
      int_column (or_default (lookup (py "budget") d) (JInt 0)) &&
      int_column (or_default (lookup (py "revenue") d) (JInt 0))
  | _ => false
  end.

(** The computation returned a value. *)
Definition returned {A : Type} (r : exn + A) : bool :=
  match r with
  | inr _ => true
  | inl _ => false
  end.

(** The message [send_results] sends for one movie. *)
Definition reply_for (movie : json) : exn + reply :=
  and_then (format_movie_message movie) (fun message =>
  and_then (get movie (py "poster_path") JNull) (fun poster_path =>
  inr (if truthy poster_path
       then reply_photo poster_path message
       else reply_text (Html message)))).


(** The answer of a search in which the handlers find no movie: no answer,
    an answer that counts as empty, or an object whose [results] are
    missing or count as empty. *)
Definition nothing_found (r : option json) : bool :=
  match r with
  | None => true
  | Some (JDict d) => negb (truthy (or_default (lookup (py "results") d) JNull))
  | Some body => negb (truthy body)
  end.

End MoreVocabulary.

(** ** Strings *)

Lemma str_eqb_eq (a b : pystr) : str_eqb a b = true <-> a = b.
Proof.
  revert b; induction a as [|x a IH]; intros [|y b]; simpl; split;
    try congruence; try reflexivity.
  - intros H. apply andb_true_iff in H as [Hx Hab].
    apply N.eqb_eq in Hx. apply IH in Hab. congruence.
  - intros H. injection H as -> ->.
    rewrite N.eqb_refl. simpl. now apply IH.
Qed.

Lemma startswith_spec (needle hay : pystr) :
  startswith needle hay = true <-> exists post, hay = needle ++ post.
Proof.
  revert hay; induction needle as [|x needle IH]; intros hay; simpl.
  - split; [intros _; now exists hay | reflexivity].
  - destruct hay as [|y hay].
    + split; [discriminate | intros [post H]; discriminate].
    + rewrite andb_true_iff, N.eqb_eq, IH. split.
      * intros [-> [post ->]]. now exists post.
      * intros [post H]. injection H as -> ->. split; [reflexivity | now exists post].
Qed.

(** [needle in hay] holds exactly when [needle] occurs somewhere in [hay]. *)
Lemma contains_spec (needle hay : pystr) :
  contains needle hay = true <-> exists pre post, hay = pre ++ needle ++ post.
Proof.
  induction hay as [|y hay IH].
  - cbn [contains]. rewrite orb_false_r, startswith_spec. split.
    + intros [post H]. now exists [], post.
    + intros [pre [post H]]. destruct pre as [|p pre]; [|discriminate].
      now exists post.
  - cbn [contains]. rewrite orb_true_iff, startswith_spec, IH. split.
    + intros [[post H] | [pre [post H]]].
      * now exists [], post.
      * exists (y :: pre), post. simpl. now rewrite H.
    + intros [pre [post H]]. destruct pre as [|p pre].
      * left. now exists post.
      * right. injection H as _ H. now exists pre, post.
Qed.

(** ** Lists *)

Lemma find_first {A : Type} (f : A -> bool) (l : list A) :
  match find f l with
  | Some x =>
      exists pre post, l = pre ++ x :: post /\ f x = true /\
                       forall y, In y pre -> f y = false
  | None => forall y, In y l -> f y = false
  end.
Proof.
  induction l as [|a l IH]; simpl.
  - intros y [].
  - destruct (f a) eqn:Ha.
    + exists [], l. repeat split; [assumption | intros y []].
    + destruct (find f l) as [x|].
      * destruct IH as (pre & post & -> & Hx & Hpre).
        exists (a :: pre), post. repeat split; try assumption.
        intros y [<- | Hy]; [assumption | now apply Hpre].
      * intros y [<- | Hy]; [assumption | now apply IH].
Qed.

Lemma find_app_none {A : Type} (f : A -> bool) (l l' : list A) :
  find f l = None -> find f (l ++ l') = find f l'.
Proof.
  induction l as [|a l IH]; [reflexivity |].
  cbn [find app]. destruct (f a); [discriminate | exact IH].
Qed.

Lemma slice_to_firstn {A : Type} (n : Z) (l : list A) :
  0 <= n -> slice_to n l = firstn (Z.to_nat n) l.
Proof.
  intros Hn. unfold slice_to.
  destruct (Z.ltb_spec n 0); [lia | reflexivity].
Qed.

Lemma next_id_fresh (ids : list Z) : ~ In (next_id ids) ids.
Proof.
  assert (H : forall x, In x ids -> x <= fold_right Z.max 0 ids).
  { induction ids as [|y ids IH]; simpl; [intros x [] |].
    intros x [<- | Hx]; [lia | specialize (IH x Hx); lia]. }
  intros Hin. apply H in Hin. unfold next_id in Hin. lia.
Qed.

Lemma next_id_snoc (ids : list Z) :
  next_id (ids ++ [next_id ids]) = next_id ids + 1.
Proof.
  unfold next_id.
  assert (H : forall m, 0 <= m -> fold_right Z.max 0 ids <= m ->
            fold_right Z.max 0 (ids ++ [m]) = m).
  { induction ids as [|y ids IH]; simpl; intros m H0 Hm; [lia |].
    rewrite IH; lia. }
  assert (H0 : 0 <= fold_right Z.max 0 ids).
  { clear H. induction ids; simpl; lia. }
  rewrite H; lia.
Qed.

(** ** Genre resolver *)

Section GenreResolver.

Context {E : Env}.

Lemma names_iff (genre_name : pystr) (g : Z * pystr) :
  contains (str_lower genre_name) (str_lower (snd g)) = true <-> names genre_name g.
Proof. apply contains_spec. Qed.

(** On a well-formed list the loop of [get_genre_id] is [find]. *)
Lemma find_genre_find (genre_name : pystr) (gs : list (Z * pystr)) :
  find_genre genre_name (map genre_json gs) =
  inr (match find (fun g => contains (str_lower genre_name) (str_lower (snd g))) gs with
       | Some g => JInt (fst g)
       | None => JNull
       end).
Proof.
  induction gs as [|g gs IH]; [reflexivity |].
  cbn [map find_genre find].
  change (getitem (genre_json g) (py "name")) with (@inr exn json (JStr (snd g))).
  cbn [and_then].
  destruct (contains (str_lower genre_name) (str_lower (snd g))); [reflexivity | exact IH].
Qed.

(** C5. Genre resolution answers with the id of the first genre of the
    provider's list whose name contains the given name, case ignored, and
    with [None] when there is none; a [None] makes the discover searches
    go on as if no genre had been given. *)
Theorem genre_resolution_first_match :
  forall (genre_name : pystr) (s : Sys E),
    (forall (gs : list (Z * pystr)) (body : dict) (w : World),
        requests_get genre_list_request (world s) = (Some (JDict body), w) ->
        lookup (py "genres") body = Some (JList (map genre_json gs)) ->
        exists result,
          get_genre_id genre_name s =
            (inr result, mkSys w (db s) (outbox s) (calls s ++ [genre_list_request])) /\
          ((exists pre g post,
               gs = pre ++ g :: post /\ names genre_name g /\
               (forall g', In g' pre -> ~ names genre_name g') /\
               result = JInt (fst g))
           \/
           ((forall g, In g gs -> ~ names genre_name g) /\ result = JNull)))
    /\
    (fst (get_genre_id genre_name s) = inr JNull ->
     given (Some genre_name) = true ->
     forall min_rating budget_type page,
       search_movies_by_rating min_rating (Some genre_name) page s =
         search_movies_by_rating min_rating None page (snd (get_genre_id genre_name s)) /\
       search_movies_by_budget budget_type (Some genre_name) page s =
         search_movies_by_budget budget_type None page (snd (get_genre_id genre_name s))).
Proof.
  intros genre_name s. split.
  - intros gs body w Hget Hgenres.
    unfold get_genre_id, bind, fetch, lift. rewrite Hget.
    cbn [get]. rewrite Hgenres. cbn [iter].
    rewrite find_genre_find.
    eexists. split; [reflexivity |].
    pose proof (find_first
      (fun g => contains (str_lower genre_name) (str_lower (snd g))) gs) as Hfind.
    destruct (find _ gs) as [g|].
    + left. destruct Hfind as (pre & post & -> & Hg & Hpre).
      exists pre, g, post.
      split; [reflexivity |]. split; [now apply names_iff |]. split; [| reflexivity].
      intros g' Hin Hn. apply names_iff in Hn.
      rewrite (Hpre g' Hin) in Hn. discriminate.
    + right. split; [| reflexivity].
      intros g Hin Hn. apply names_iff in Hn.
      rewrite (Hfind g Hin) in Hn. discriminate.
  - intros Hnone Hgiven min_rating budget_type page.
    destruct genre_name as [|c name]; [discriminate |].
    unfold search_movies_by_rating, search_movies_by_budget, with_genre, bind, ret.
    destruct (get_genre_id (c :: name) s) as [[e|r] s1]; [discriminate |].
    cbn [fst snd] in *. injection Hnone as ->.
    split; reflexivity.
Qed.

End GenreResolver.

(** ** History store *)

Section HistoryStore.

Context {E : Env}.

Ltac destruct_matches H :=
  repeat match type of H with
         | match ?x with _ => _ end = _ => destruct x; try discriminate H
         end.

Lemma movie_row_keys (entry : SearchHistory) (movie_data : json) (id : Z)
    (row : MovieResult) :
  movie_row entry movie_data id = inr row ->
  result_id row = id /\ search row = search_id entry.
Proof.
  unfold movie_row, and_then. intros H. destruct_matches H.
  injection H as <-. split; reflexivity.
Qed.

(** Whether a record can be stored does not depend on the entry or on the
    key of the row. *)
Lemma storable_any (movie_data : json) (entry : SearchHistory) (id : Z) :
  storable movie_data <->
  exists row, movie_row entry movie_data id = inr row /\ insert_error row = None.
Proof.
  unfold storable, movie_row, and_then.
  split; intros (row & H & Hok);
    destruct_matches H; injection H as <-;
    eexists; (split; [reflexivity | exact Hok]).
Qed.

Lemma MovieResult_create_run (entry : SearchHistory) (movie_data : json) (s : Sys E) :
  MovieResult_create entry movie_data s =
  match movie_row entry movie_data (next_id (map result_id (movies (db s)))) with
  | inl e => (inl e, s)
  | inr row =>
      match insert_error row with
      | None => (inr tt, mkSys (world s)
                      (mkDB (users (db s)) (searches (db s)) (movies (db s) ++ [row]))
                      (outbox s) (calls s))
      | Some e => (inl e, s)
      end
  end.
Proof.
  unfold MovieResult_create, bind, get_db, lift, put_db, raise.
  destruct (movie_row _ _ _) as [e|row]; [reflexivity |].
  destruct (insert_error row); reflexivity.
Qed.

(** The loop over [results]: the rows it has inserted when it ends, in
    either way. *)
Lemma create_movie_results_run (entry : SearchHistory) (results : list json) :
  forall s : Sys E,
    let r := create_movie_results entry results s in
    world (snd r) = world s /\ outbox (snd r) = outbox s /\ calls (snd r) = calls s /\
    users (db (snd r)) = users (db s) /\ searches (db (snd r)) = searches (db s) /\
    exists rows,
      movies (db (snd r)) = movies (db s) ++ rows /\
      Forall (fun row => search row = search_id entry) rows /\
      map result_id rows =
        consecutive (next_id (map result_id (movies (db s)))) (List.length rows) /\
      match fst r with
      | inr _ => Forall2 (row_of entry) rows results
      | inl _ => (List.length rows < List.length results)%nat
      end.
Proof.
  induction results as [|movie_data rest IH]; intros s.
  - cbn. do 5 (split; [reflexivity |]). exists []. rewrite app_nil_r.
    repeat split; constructor.
  - cbn zeta. cbn [create_movie_results]. unfold bind.
    rewrite MovieResult_create_run.
    destruct (movie_row _ _ _) as [e|row] eqn:Hrow.
    + cbn. do 5 (split; [reflexivity |]). exists []. rewrite app_nil_r.
      split; [reflexivity |]. split; [constructor |]. split; [reflexivity |].
      cbn [List.length]. lia.
    + destruct (insert_error row) as [e|] eqn:Hok.
      * cbn. do 5 (split; [reflexivity |]). exists []. rewrite app_nil_r.
        split; [reflexivity |]. split; [constructor |]. split; [reflexivity |].
        cbn [List.length]. lia.
      * apply movie_row_keys in Hrow as Hkeys. destruct Hkeys as [Hid Hsearch].
        match goal with |- context [create_movie_results entry rest ?s1] =>
          specialize (IH s1); set (r := create_movie_results entry rest s1) in *
        end.
        cbn zeta in IH. cbn [world db outbox calls users searches movies] in IH.
        destruct IH as (Hw & Ho & Hc & Hu & Hs & rows & Hm & Hown & Hids & Hres).
        repeat (split; [assumption |]).
        exists (row :: rows). split; [rewrite Hm, <- app_assoc; reflexivity |].
        split; [constructor; assumption |].
        split.
        { cbn [map List.length consecutive]. rewrite Hid. f_equal.
          rewrite Hids. f_equal.
          rewrite map_app. cbn [map]. rewrite Hid. apply next_id_snoc. }
        destruct (fst r).
        -- cbn [List.length]. lia.
        -- constructor; [| assumption]. unfold row_of. rewrite Hid. exact Hrow.
Qed.

Lemma SearchHistory_create_run (user : User) (search_type query : pystr)
    (n : Z) (s : Sys E) :
  SearchHistory_create user search_type query n s =
  let entry := mkSearchHistory (next_id (map search_id (searches (db s))))
                 (user_id user) search_type query n (now (world s)) in
  (inr entry,
   mkSys (world s)
     (mkDB (users (db s)) (searches (db s) ++ [entry]) (movies (db s)))
     (outbox s) (calls s)).
Proof. reflexivity. Qed.

(** The entry [save_search_history] inserts in state [s]. *)
Lemma save_search_history_run (user : User) (search_type query : pystr)
    (results : list json) (s : Sys E) :
  let r := save_search_history user search_type query results s in
  let entry := mkSearchHistory (next_id (map search_id (searches (db s))))
                 (user_id user) search_type query
                 (Z.of_nat (List.length results)) (now (world s)) in
  world (snd r) = world s /\ outbox (snd r) = outbox s /\ calls (snd r) = calls s /\
  match fst r with
  | inr _ =>
      exists rows,
        db (snd r) = mkDB (users (db s)) (searches (db s) ++ [entry])
                       (movies (db s) ++ rows) /\
        Forall2 (row_of entry) rows results /\
        Forall (fun row => search row = search_id entry) rows /\
        map result_id rows =
          consecutive (next_id (map result_id (movies (db s)))) (List.length rows)
  | inl _ => db (snd r) = db s
  end.
Proof.
  cbn zeta. unfold save_search_history, atomic, bind.
  rewrite SearchHistory_create_run. cbv beta iota zeta.
  match goal with |- context [create_movie_results ?entry results ?s1] =>
    pose proof (create_movie_results_run entry results s1) as H;
    destruct (create_movie_results entry results s1) as [[e|[]] s2]
  end;
  cbn zeta in H; cbn [fst snd world db outbox calls users searches movies] in *;
  destruct H as (Hw & Ho & Hc & Hu & Hs & rows & Hm & Hown & Hids & Hres).
  - repeat split; assumption.
  - repeat (split; [assumption |]).
    exists rows. repeat split; try assumption.
    destruct (db s2) as [us ss ms].
    cbn [users searches movies] in *. congruence.
Qed.

(** C8. The snapshot write is all or nothing: when it returns, the tables
    hold one more entry, with [result_count] the length of the list, and
    one more row per movie; when it raises, the tables are as they were
    before the call. *)
Theorem save_search_history_all_or_nothing :
  forall (user : User) (search_type query : pystr) (results : list json) (s : Sys E),
    let r := save_search_history user search_type query results s in
    match fst r with
    | inr _ =>
        exists entry rows,
          users (db (snd r)) = users (db s) /\
          searches (db (snd r)) = searches (db s) ++ [entry] /\
          result_count entry = Z.of_nat (List.length results) /\
          movies (db (snd r)) = movies (db s) ++ rows /\
          List.length rows = List.length results /\
          Forall2 (row_of entry) rows results /\
          Forall (fun row => owned_by entry row = true) rows
    | inl _ => db (snd r) = db s
    end.
Proof.
  intros user search_type query results s.
  pose proof (save_search_history_run user search_type query results s) as H.
  cbn zeta in *. destruct H as (_ & _ & _ & H).
  destruct (fst (save_search_history user search_type query results s)); [exact H |].
  destruct H as (rows & Hdb & Hrows & Hown & _).
  eexists. exists rows. rewrite Hdb. cbn [users searches movies].
  split; [reflexivity |]. split; [reflexivity |]. split; [reflexivity |].
  split; [reflexivity |]. split; [exact (Forall2_length Hrows) |].
  split; [exact Hrows |].
  apply Forall_impl with (2 := Hown).
  intros row Hrow. unfold owned_by. rewrite Hrow. apply Z.eqb_refl.
Qed.

Lemma filter_none {A : Type} (f : A -> bool) (l : list A) :
  (forall x, In x l -> f x = false) -> filter f l = [].
Proof.
  induction l as [|a l IH]; intros H; [reflexivity |].
  cbn [filter]. rewrite (H a (or_introl eq_refl)).
  apply IH. intros x Hx. apply H. now right.
Qed.

Lemma filter_all {A : Type} (f : A -> bool) (l : list A) :
  Forall (fun x => f x = true) l -> filter f l = l.
Proof.
  induction 1 as [|a l Ha _ IH]; [reflexivity |].
  cbn [filter]. now rewrite Ha, IH.
Qed.

(** An entry with the next key owns no row of a table in which every row
    has its entry. *)
Lemma next_entry_owns_nothing (entry : SearchHistory) (d : DB) :
  references_ok d ->
  search_id entry = next_id (map search_id (searches d)) ->
  movies_of entry d = [].
Proof.
  intros Hrefs Hkey. unfold movies_of. apply filter_none.
  intros row Hin. unfold owned_by. apply Z.eqb_neq. intros Heq.
  apply Hrefs in Hin. rewrite Heq, Hkey in Hin.
  exact (next_id_fresh _ Hin).
Qed.

(** The rows an entry owns after rows of its own were appended. *)
Lemma movies_of_appended (entry : SearchHistory) (d d' : DB)
    (rows : list MovieResult) :
  movies d' = movies d ++ rows ->
  Forall (fun row => owned_by entry row = true) rows ->
  movies_of entry d' = movies_of entry d ++ rows.
Proof.
  intros Hm Hown. unfold movies_of. rewrite Hm, filter_app.
  now rewrite (filter_all _ _ Hown).
Qed.

(** C2, as the code has it. The entry made by a snapshot write has
    [result_count] equal to the number of rows written for it; these rows
    are the rows of the movies of the input list, in the order of the list
    and with increasing keys. The entry owns them after the rows that were
    stored under its key before the write; it owns them alone, and
    [result_count] is the number of rows it owns, when every row stored
    before the write had its entry. *)
Theorem save_search_history_result_count :
  forall (user : User) (search_type query : pystr) (results : list json)
         (s s' : Sys E),
    save_search_history user search_type query results s = (inr tt, s') ->
    exists entry rows,
      searches (db s') = searches (db s) ++ [entry] /\
      search_user entry = user_id user /\
      movies (db s') = movies (db s) ++ rows /\
      result_count entry = Z.of_nat (List.length rows) /\
      Forall2 (row_of entry) rows results /\
      Forall (fun row => owned_by entry row = true) rows /\
      map result_id rows =
        consecutive (next_id (map result_id (movies (db s)))) (List.length results) /\
      movies_of entry (db s') = movies_of entry (db s) ++ rows /\
      (references_ok (db s) ->
       movies_of entry (db s') = rows /\
       result_count entry = Z.of_nat (List.length (movies_of entry (db s')))).
Proof.
  intros user search_type query results s s' Hrun.
  pose proof (save_search_history_run user search_type query results s) as H.
  cbn zeta in H. rewrite Hrun in H. cbn [fst snd] in H.
  destruct H as (_ & _ & _ & rows & Hdb & Hrows & Hown & Hids).
  set (entry := mkSearchHistory (next_id (map search_id (searches (db s))))
                  (user_id user) search_type query
                  (Z.of_nat (List.length results)) (now (world s))) in *.
  assert (Hmine : Forall (fun row => owned_by entry row = true) rows).
  { apply Forall_impl with (2 := Hown).
    intros row Hrow. unfold owned_by. rewrite Hrow. apply Z.eqb_refl. }
  assert (Hall : movies_of entry (db s') = movies_of entry (db s) ++ rows).
  { apply movies_of_appended; [now rewrite Hdb | exact Hmine]. }
  exists entry, rows. rewrite Hdb. cbn [users searches movies]. rewrite <- Hdb.
  split; [reflexivity |]. split; [reflexivity |]. split; [reflexivity |].
  split; [cbn [entry result_count]; now rewrite (Forall2_length Hrows) |].
  split; [exact Hrows |]. split; [exact Hmine |].
  split; [now rewrite <- (Forall2_length Hrows) |].
  split; [exact Hall |].
  intros Hrefs. rewrite Hall.
  rewrite (next_entry_owns_nothing entry (db s) Hrefs eq_refl). cbn [app].
  split; [reflexivity |].
  cbn [entry result_count]. now rewrite (Forall2_length Hrows).
Qed.

(** The snapshot write returns exactly when every movie can be stored. *)
Lemma create_movie_results_returns (entry : SearchHistory) (results : list json) :
  forall s : Sys E,
    fst (create_movie_results entry results s) = inr tt <-> Forall storable results.
Proof.
  induction results as [|movie_data rest IH]; intros s.
  - split; [constructor | reflexivity].
  - cbn [create_movie_results]. unfold bind. rewrite MovieResult_create_run.
    pose proof (storable_any movie_data entry
                  (next_id (map result_id (movies (db s))))) as Hany.
    destruct (movie_row _ _ _) as [e|row].
    + split; [discriminate |].
      intros H. inversion H as [|? ? Hst _]; subst.
      apply Hany in Hst as (? & ? & _). discriminate.
    + destruct (insert_error row) as [e|] eqn:Hok.
      * split; [discriminate |].
        intros H. inversion H as [|? ? Hst _]; subst.
        apply Hany in Hst as (row' & Hrow' & Hok'). congruence.
      * rewrite IH. split.
        -- intros H. constructor; [| exact H]. apply Hany. now exists row.
        -- intros H. now inversion H.
Qed.

Lemma save_search_history_returns (user : User) (search_type query : pystr)
    (results : list json) (s : Sys E) :
  fst (save_search_history user search_type query results s) = inr tt <->
  Forall storable results.
Proof.
  unfold save_search_history, atomic, bind.
  rewrite SearchHistory_create_run. cbv beta iota zeta.
  match goal with |- context [create_movie_results ?entry results ?s1] =>
    rewrite <- (create_movie_results_returns entry results s1);
    destruct (create_movie_results entry results s1) as [[e|[]] s2]
  end; cbn [fst]; split; congruence.
Qed.

Lemma clear_history_run (from : TgUser) (user : User) (s : Sys E) :
  find_user (tg_id from) (db s) = Some user ->
  clear_history from s =
  (inr tt,
   mkSys (world s)
     (mkDB (users (db s))
        (filter (fun h => negb (search_user h =? user_id user)) (searches (db s)))
        (movies (db s)))
     (outbox s ++
      [edit_message_text
         (HistoryCleared (Z.of_nat (List.length (searches_of user (db s)))))])
     (calls s)).
Proof.
  intros Hfind.
  unfold clear_history, User_get, bind, get_db. cbv beta iota zeta.
  rewrite Hfind. reflexivity.
Qed.

Lemma filter_filter_negb {A : Type} (f : A -> bool) (l : list A) :
  filter f (filter (fun x => negb (f x)) l) = [].
Proof.
  apply filter_none. intros x Hx.
  apply filter_In in Hx as [_ Hx]. now destruct (f x).
Qed.

Lemma filter_other {A : Type} (f g : A -> bool) (l : list A) :
  (forall x, g x = true -> f x = false) ->
  filter g (filter (fun x => negb (f x)) l) = filter g l.
Proof.
  intros H. induction l as [|a l IH]; [reflexivity |].
  cbn [filter]. destruct (g a) eqn:Hg.
  - rewrite (H a Hg). cbn [negb filter]. rewrite Hg. now f_equal.
  - destruct (f a); cbn [negb filter]; [| rewrite Hg]; exact IH.
Qed.

(** C4. [clear_history] reports the number of entries the user owned
    before the call (0 when there were none, without an exception);
    afterwards the query of [history] finds nothing for this user and
    [history] says that the history is empty; the entries of the other
    users stay. *)
Theorem clear_history_count :
  forall (from : TgUser) (user : User) (s : Sys E),
    find_user (tg_id from) (db s) = Some user ->
    exists s',
      clear_history from s = (inr tt, s') /\
      outbox s' = outbox s ++
        [edit_message_text
           (HistoryCleared (Z.of_nat (List.length (searches_of user (db s)))))] /\
      (searches_of user (db s) = [] ->
       outbox s' = outbox s ++ [edit_message_text (HistoryCleared 0)]) /\
      searches_of user (db s') = [] /\
      recent_searches user (db s') = [] /\
      outbox (snd (history from s')) = outbox s' ++ [reply_text HistoryEmpty] /\
      (forall other, user_id other <> user_id user ->
         searches_of other (db s') = searches_of other (db s)).
Proof.
  intros from user s Hfind.
  eexists. split; [exact (clear_history_run from user s Hfind) |].
  cbn [outbox db].
  assert (Hnone : searches_of user
            (mkDB (users (db s))
               (filter (fun h => negb (search_user h =? user_id user)) (searches (db s)))
               (movies (db s))) = []).
  { unfold searches_of. cbn [searches].
    apply (filter_filter_negb (fun h => search_user h =? user_id user)). }
  split; [reflexivity |].
  split; [intros ->; reflexivity |].
  split; [exact Hnone |].
  split; [unfold recent_searches; rewrite Hnone; reflexivity |].
  split.
  - unfold history, get_or_create_user, bind, get_db. cbv beta iota zeta.
    unfold find_user in *. cbn [db users]. rewrite Hfind.
    unfold ret. cbn [db snd]. unfold recent_searches. rewrite Hnone. reflexivity.
  - intros other Hother. unfold searches_of. cbn [searches].
    apply (filter_other (fun h => search_user h =? user_id user)).
    intros h Hh. apply Z.eqb_eq in Hh. apply Z.eqb_neq. congruence.
Qed.

(** C3, as the code has it. [clear_history] deletes the entries of the user
    and nothing else: the table of movie rows is as before, so every row
    owned by a deleted entry is still there. *)
Theorem clear_history_keeps_movie_rows :
  forall (from : TgUser) (user : User) (s : Sys E),
    find_user (tg_id from) (db s) = Some user ->
    exists s',
      clear_history from s = (inr tt, s') /\
      movies (db s') = movies (db s) /\
      forall entry, In entry (searches_of user (db s)) ->
        ~ In entry (searches (db s')) /\
        movies_of entry (db s') = movies_of entry (db s).
Proof.
  intros from user s Hfind.
  eexists. split; [exact (clear_history_run from user s Hfind) |].
  cbn [db movies searches]. split; [reflexivity |].
  intros entry Hin. split; [| reflexivity].
  apply filter_In in Hin as [_ Hmine].
  intros Hstill. apply filter_In in Hstill as [_ Hnot].
  rewrite Hmine in Hnot. discriminate.
Qed.

End HistoryStore.

(** ** Reasoning about runs *)

Section Runs.

Context {E : Env}.

Lemma yields_bind {A B : Type} (R1 R2 R3 : Sys E -> Sys E -> Prop)
    (Q : A -> Prop) (Q' : B -> Prop) (m : M E A) (k : A -> M E B) :
  (forall x y, R1 x y -> R3 x y) ->
  (forall x y z, R1 x y -> R2 y z -> R3 x z) ->
  yields R1 Q m ->
  (forall a, Q a -> yields R2 Q' (k a)) ->
  yields R3 Q' (bind m k).
Proof.
  intros Hexit Hseq Hm Hk s. unfold bind.
  destruct (Hm s) as [HR HQ].
  destruct (m s) as [[e|a] s1]; cbn [fst snd] in *.
  - split; [now apply Hexit | discriminate].
  - specialize (Hk a (HQ a eq_refl) s1) as [HR2 HQ2].
    split; [now apply Hseq with s1 | exact HQ2].
Qed.

(** The rule for one relation that is transitive. *)
Lemma yields_seq {A B : Type} (R : Sys E -> Sys E -> Prop)
    (Q : A -> Prop) (Q' : B -> Prop) (m : M E A) (k : A -> M E B) :
  (forall x y z, R x y -> R y z -> R x z) ->
  yields R Q m ->
  (forall a, Q a -> yields R Q' (k a)) ->
  yields R Q' (bind m k).
Proof.
  intros Htrans. apply yields_bind; [trivial | exact Htrans].
Qed.

Lemma yields_weaken {A : Type} (R : Sys E -> Sys E -> Prop) (Q Q' : A -> Prop)
    (m : M E A) :
  (forall a, Q a -> Q' a) -> yields R Q m -> yields R Q' m.
Proof.
  intros HQ Hm s. destruct (Hm s) as [HR Ha].
  split; [exact HR | intros a Hfst; apply HQ, Ha, Hfst].
Qed.

Lemma yields_and {A : Type} (R1 R2 : Sys E -> Sys E -> Prop) (Q1 Q2 : A -> Prop)
    (m : M E A) :
  yields R1 Q1 m -> yields R2 Q2 m ->
  yields (fun s s' => R1 s s' /\ R2 s s') (fun a => Q1 a /\ Q2 a) m.
Proof.
  intros H1 H2 s. destruct (H1 s) as [HR1 HQ1], (H2 s) as [HR2 HQ2].
  split; [now split | intros a Ha; split; auto].
Qed.

Lemma yields_ret {A : Type} (R : Sys E -> Sys E -> Prop) (Q : A -> Prop) (a : A) :
  (forall x, R x x) -> Q a -> yields R Q (ret a).
Proof.
  intros Hrefl Ha s. split; [apply Hrefl |].
  intros a' H. injection H as <-. exact Ha.
Qed.

Lemma yields_lift {A : Type} (R : Sys E -> Sys E -> Prop) (r : exn + A) :
  (forall x, R x x) -> yields R (fun a => r = inr a) (lift r).
Proof.
  intros Hrefl s. split; [apply Hrefl | intros a H; exact H].
Qed.

Lemma yields_raise {A : Type} (R : Sys E -> Sys E -> Prop) (Q : A -> Prop) (e : exn) :
  (forall x, R x x) -> yields R Q (raise e).
Proof.
  intros Hrefl s. split; [apply Hrefl | discriminate].
Qed.

Lemma kept_same_calls : kept same_calls.
Proof. split; unfold same_calls; [reflexivity | congruence]. Qed.

Lemma kept_same_history : kept same_history.
Proof.
  split; unfold same_history; [split; reflexivity |].
  intros x y z [? ?] [? ?]. split; congruence.
Qed.

Lemma kept_new_entries_bounded : kept new_entries_bounded.
Proof.
  split; unfold new_entries_bounded; [intros x entry H; now left |].
  intros x y z Hxy Hyz entry Hin.
  destruct (Hyz entry Hin) as [Hy | Hb]; [now apply Hxy | now right].
Qed.

Lemma same_history_bounded (s s' : Sys E) :
  same_history s s' -> new_entries_bounded s s'.
Proof. intros [Hs _] entry Hin. left. now rewrite <- Hs. Qed.

End Runs.

(** ** Search orchestrator *)

Section Orchestrator.

Context {E : Env}.

Lemma yields_rel {A : Type} (R R' : Sys E -> Sys E -> Prop) (Q : A -> Prop)
    (m : M E A) :
  (forall x y, R x y -> R' x y) -> yields R Q m -> yields R' Q m.
Proof.
  intros HR Hm s. destruct (Hm s) as [H HQ]. split; [now apply HR | exact HQ].
Qed.

Lemma fetch_run (req : request) (s : Sys E) :
  fetch req s =
  (inr (fst (requests_get req (world s))),
   mkSys (snd (requests_get req (world s))) (db s) (outbox s) (calls s ++ [req])).
Proof. unfold fetch. destruct (requests_get req (world s)). reflexivity. Qed.

Lemma fetch_json_run (req : request) (s : Sys E) :
  fetch_json req s =
  (inr (answer_of (fst (requests_get req (world s)))),
   mkSys (snd (requests_get req (world s))) (db s) (outbox s) (calls s ++ [req])).
Proof. unfold fetch_json, bind. rewrite fetch_run. reflexivity. Qed.

Lemma get_or_create_user_run (from : TgUser) (s : Sys E) :
  exists user d,
    get_or_create_user from s =
      (inr user, mkSys (world s) d (outbox s) (calls s)) /\
    searches d = searches (db s) /\ movies d = movies (db s) /\
    find_user (tg_id from) d = Some user.
Proof.
  unfold get_or_create_user, bind, get_db. cbv beta iota zeta.
  destruct (find_user (tg_id from) (db s)) as [user|] eqn:Hfind.
  - exists user, (db s). destruct s; cbn. repeat split; assumption.
  - eexists. eexists. split; [reflexivity |].
    cbn [searches movies]. split; [reflexivity |]. split; [reflexivity |].
    unfold find_user in *. cbn [users]. rewrite (find_app_none _ _ _ Hfind).
    cbn [find telegram_id]. now rewrite Z.eqb_refl.
Qed.

(** *** Steps that leave the history tables alone *)

Lemma quiet_get_or_create_user (from : TgUser) :
  steps same_history (get_or_create_user from).
Proof.
  intros s. destruct (get_or_create_user_run from s) as (user & d & -> & Hs & Hm & _).
  split; [split; assumption | trivial].
Qed.

Lemma quiet_send (r : reply) : steps same_history (send r).
Proof. intros s. split; [split; reflexivity | trivial]. Qed.

Lemma quiet_fetch_json (req : request) : steps same_history (fetch_json req).
Proof.
  intros s. rewrite fetch_json_run. split; [split; reflexivity | trivial].
Qed.

Lemma quiet_lift {A : Type} (r : exn + A) : steps same_history (lift r).
Proof. intros s. split; [split; reflexivity | trivial]. Qed.

Lemma quiet_get_genre_id (genre_name : pystr) :
  steps same_history (get_genre_id genre_name).
Proof.
  intros s. unfold get_genre_id, bind. rewrite fetch_run.
  destruct (fst (requests_get genre_list_request (world s))) as [body|];
    [| split; [split; reflexivity | trivial]].
  unfold lift.
  destruct (get body (py "genres") (JList [])) as [e|genres];
    [split; [split; reflexivity | trivial] |].
  destruct (iter genres) as [e|items];
    split; try (split; reflexivity); trivial.
Qed.

Lemma quiet_with_genre (genre : option pystr) (params : dict) :
  steps same_history (with_genre genre params).
Proof.
  destruct genre as [[|c name]|]; try (apply yields_ret; [apply kept_same_history | trivial]).
  unfold with_genre.
  apply yields_seq with (Q := fun _ => True);
    [apply kept_same_history | apply quiet_get_genre_id |].
  intros genre_id _. apply yields_ret; [apply kept_same_history | trivial].
Qed.

Lemma quiet_search_movies_by_rating (min_rating : pyfloat) (genre : option pystr)
    (page : Z) :
  steps same_history (search_movies_by_rating min_rating genre page).
Proof.
  apply yields_seq with (Q := fun _ => True);
    [apply kept_same_history | apply quiet_with_genre |].
  intros params _. apply quiet_fetch_json.
Qed.

Lemma quiet_search_movies_by_budget (budget_type : pystr) (genre : option pystr)
    (page : Z) :
  steps same_history (search_movies_by_budget budget_type genre page).
Proof.
  apply yields_seq with (Q := fun _ => True);
    [apply kept_same_history | apply quiet_with_genre |].
  intros params _. apply quiet_fetch_json.
Qed.

Lemma quiet_no_results (results : json) : steps same_history (no_results results).
Proof.
  unfold no_results. destruct (truthy results);
    [| apply yields_ret; [apply kept_same_history | trivial]].
  apply yields_seq with (Q := fun _ => True);
    [apply kept_same_history | apply quiet_lift |].
  intros page _. apply yields_ret; [apply kept_same_history | trivial].
Qed.

Lemma quiet_send_movie (movie : json) : steps same_history (send_movie movie).
Proof.
  unfold send_movie.
  apply yields_seq with (Q := fun _ => True);
    [apply kept_same_history | apply quiet_lift |].
  intros message _.
  apply yields_seq with (Q := fun _ => True);
    [apply kept_same_history | apply quiet_lift |].
  intros poster_path _. destruct (truthy poster_path); apply quiet_send.
Qed.

Lemma quiet_send_results (detailed_movies : list json) :
  steps same_history (send_results detailed_movies).
Proof.
  induction detailed_movies as [|movie rest IH].
  - apply yields_ret; [apply kept_same_history | trivial].
  - cbn [send_results].
    apply yields_seq with (Q := fun _ => True);
      [apply kept_same_history | apply quiet_send_movie |].
    intros _ _. exact IH.
Qed.

(** *** The page limit and the fan-out never make the list longer *)

Lemma slice_to_length {A : Type} (n : Z) (l : list A) :
  0 <= n -> (List.length (slice_to n l) <= Z.to_nat n)%nat.
Proof.
  intros Hn. rewrite slice_to_firstn by assumption.
  rewrite length_firstn. lia.
Qed.

Lemma first_movies_at_most (results : json) :
  yields same_history (at_most (Z.to_nat Config.MOVIES_PER_PAGE)) (first_movies results).
Proof.
  intros s. unfold first_movies, bind, lift.
  destruct (getitem results (py "results")) as [e|page];
    [split; [split; reflexivity | discriminate] |].
  destruct page; cbn [getslice];
    try (split; [split; reflexivity | discriminate]);
    cbn [iter fst snd]; (split; [split; reflexivity |]);
    intros movies H; injection H as <-; unfold at_most.
  - rewrite length_map. apply slice_to_length. discriminate.
  - apply slice_to_length. discriminate.
Qed.

Lemma collect_details_at_most (movies : list json) :
  forall detailed_movies,
    yields same_history
      (at_most (List.length detailed_movies + List.length movies))
      (collect_details movies detailed_movies).
Proof.
  induction movies as [|movie rest IH]; intros acc.
  - apply yields_ret; [apply kept_same_history |]. unfold at_most. lia.
  - cbn [collect_details].
    apply yields_seq with (Q := fun _ => True);
      [apply kept_same_history | apply quiet_lift |].
    intros id _.
    apply yields_seq with (Q := fun _ => True);
      [apply kept_same_history | apply quiet_fetch_json |].
    intros details _.
    eapply yields_weaken; [| apply IH].
    intros l. unfold at_most. cbn [List.length].
    destruct (truthy details); [rewrite length_app; cbn [List.length] |]; lia.
Qed.

Lemma save_search_history_bounded (user : User) (search_type query : pystr)
    (results : list json) :
  at_most (Z.to_nat Config.MOVIES_PER_PAGE) results ->
  steps new_entries_bounded (save_search_history user search_type query results).
Proof.
  intros Hlen s. split; [| trivial].
  pose proof (save_search_history_run user search_type query results s) as H.
  cbn zeta in H. destruct H as (_ & _ & _ & H). unfold new_entries_bounded.
  destruct (fst (save_search_history user search_type query results s)).
  - intros entry Hin. left. now rewrite <- H.
  - destruct H as (rows & -> & _).
    intros entry Hin. cbn [searches] in Hin.
    apply in_app_or in Hin as [Hold | [<- | []]]; [now left | right].
    unfold bounded, at_most in *. cbn [result_count].
    change Config.MOVIES_PER_PAGE with 5 in *. lia.
Qed.

(** What the three commands do with the answer of the provider. *)
Lemma results_tail_bounded (user : User) (search_type query : pystr)
    (not_found : text) (results : json) :
  steps new_entries_bounded
    (bind (no_results results) (fun empty =>
       if empty then send (reply_text not_found)
       else
         bind (first_movies results) (fun movies =>
         bind (collect_details movies []) (fun detailed_movies =>
         bind (save_search_history user search_type query detailed_movies) (fun _ =>
         send_results detailed_movies))))).
Proof.
  pose proof kept_new_entries_bounded as [Hrefl Htrans].
  apply yields_seq with (Q := fun _ => True); [exact Htrans | |].
  { eapply yields_rel; [apply same_history_bounded | apply quiet_no_results]. }
  intros [|] _.
  { eapply yields_rel; [apply same_history_bounded | apply quiet_send]. }
  apply yields_seq with (Q := at_most (Z.to_nat Config.MOVIES_PER_PAGE));
    [exact Htrans | |].
  { eapply yields_rel; [apply same_history_bounded | apply first_movies_at_most]. }
  intros movies Hmovies.
  apply yields_seq with (Q := at_most (Z.to_nat Config.MOVIES_PER_PAGE));
    [exact Htrans | |].
  { eapply yields_rel; [apply same_history_bounded |].
    eapply yields_weaken; [| apply collect_details_at_most].
    intros l. unfold at_most in *. cbn [List.length]. lia. }
  intros detailed_movies Hdetailed.
  apply yields_seq with (Q := fun _ => True); [exact Htrans | |].
  { now apply save_search_history_bounded. }
  intros _ _.
  eapply yields_rel; [apply same_history_bounded | apply quiet_send_results].
Qed.

Lemma movie_search_command_bounded (from : TgUser) (args : list pystr) :
  steps new_entries_bounded (movie_search_command from args).
Proof.
  pose proof kept_new_entries_bounded as [Hrefl Htrans].
  unfold movie_search_command.
  apply yields_seq with (Q := fun _ => True); [exact Htrans | |].
  { eapply yields_rel; [apply same_history_bounded | apply quiet_get_or_create_user]. }
  intros user _. destruct args as [|arg more].
  { eapply yields_rel; [apply same_history_bounded | apply quiet_send]. }
  apply yields_seq with (Q := fun _ => True); [exact Htrans | |].
  { eapply yields_rel; [apply same_history_bounded | apply quiet_send]. }
  intros _ _.
  apply yields_seq with (Q := fun _ => True); [exact Htrans | |].
  { eapply yields_rel; [apply same_history_bounded | apply quiet_fetch_json]. }
  intros results _. apply results_tail_bounded.
Qed.

Lemma movie_by_rating_command_bounded (from : TgUser) (args : list pystr) :
  steps new_entries_bounded (movie_by_rating_command from args).
Proof.
  pose proof kept_new_entries_bounded as [Hrefl Htrans].
  unfold movie_by_rating_command.
  apply yields_seq with (Q := fun _ => True); [exact Htrans | |].
  { eapply yields_rel; [apply same_history_bounded | apply quiet_get_or_create_user]. }
  intros user _. destruct args as [|arg more].
  { eapply yields_rel; [apply same_history_bounded | apply quiet_send]. }
  destruct (float_of_str arg) as [min_rating|].
  2: { eapply yields_rel; [apply same_history_bounded | apply quiet_send]. }
  apply yields_seq with (Q := fun _ => True); [exact Htrans | |].
  { eapply yields_rel; [apply same_history_bounded | apply quiet_send]. }
  intros _ _.
  apply yields_seq with (Q := fun _ => True); [exact Htrans | |].
  { eapply yields_rel;
      [apply same_history_bounded | apply quiet_search_movies_by_rating]. }
  intros results _. apply results_tail_bounded.
Qed.

Lemma handle_budget_search_bounded (from : TgUser) (args : list pystr)
    (budget_type : pystr) :
  steps new_entries_bounded (handle_budget_search from args budget_type).
Proof.
  pose proof kept_new_entries_bounded as [Hrefl Htrans].
  unfold handle_budget_search.
  apply yields_seq with (Q := fun _ => True); [exact Htrans | |].
  { eapply yields_rel; [apply same_history_bounded | apply quiet_get_or_create_user]. }
  intros user _. cbv zeta.
  apply yields_seq with (Q := fun _ => True); [exact Htrans | |].
  { eapply yields_rel; [apply same_history_bounded | apply quiet_send]. }
  intros _ _.
  apply yields_seq with (Q := fun _ => True); [exact Htrans | |].
  { eapply yields_rel;
      [apply same_history_bounded | apply quiet_search_movies_by_budget]. }
  intros results _. apply results_tail_bounded.
Qed.

Lemma handle_message_bounded (from : TgUser) (query : pystr) :
  steps new_entries_bounded (handle_message from query).
Proof.
  pose proof kept_new_entries_bounded as [Hrefl Htrans].
  assert (Hquiet : forall (A : Type) (m : M E A),
             steps same_history m -> steps new_entries_bounded m).
  { intros A m. apply yields_rel, same_history_bounded. }
  unfold handle_message.
  apply yields_seq with (Q := fun _ => True);
    [exact Htrans | apply Hquiet, quiet_get_or_create_user |].
  intros user _.
  destruct (Z.of_nat (List.length query) >? 2); [| now apply yields_ret].
  apply yields_seq with (Q := fun _ => True);
    [exact Htrans | apply Hquiet, quiet_send |].
  intros _ _.
  apply yields_seq with (Q := fun _ => True);
    [exact Htrans | apply Hquiet, quiet_fetch_json |].
  intros results _.
  apply yields_seq with (Q := fun _ => True);
    [exact Htrans | apply Hquiet, quiet_no_results |].
  intros [|] _; [apply Hquiet, quiet_send |].
  do 3 (apply yields_seq with (Q := fun _ => True);
          [exact Htrans | apply Hquiet, quiet_lift | intros ? _]).
  apply yields_seq with (Q := fun _ => True);
    [exact Htrans | apply Hquiet, quiet_fetch_json |].
  intros details _.
  destruct (truthy details); [| apply Hquiet, quiet_send].
  do 2 (apply yields_seq with (Q := fun _ => True);
          [exact Htrans | apply Hquiet, quiet_lift | intros ? _]).
  apply yields_seq with (Q := fun _ => True); [exact Htrans | |].
  { apply save_search_history_bounded. unfold at_most. cbn. lia. }
  intros _ _. match goal with |- context [if ?b then _ else _] => destruct b end;
    apply Hquiet, quiet_send.
Qed.

Lemma history_quiet (from : TgUser) : steps same_history (history from).
Proof.
  unfold history.
  apply yields_seq with (Q := fun _ => True);
    [apply kept_same_history | apply quiet_get_or_create_user |].
  intros user _. intros s. unfold bind, get_db. cbv beta iota zeta.
  destruct (recent_searches user (db s)); split; try (split; reflexivity); trivial.
Qed.

Lemma clear_history_bounded (from : TgUser) :
  steps new_entries_bounded (clear_history from).
Proof.
  intros s. split; [| trivial].
  destruct (find_user (tg_id from) (db s)) as [user|] eqn:Hfind.
  - rewrite (clear_history_run from user s Hfind).
    intros entry Hin. cbn [snd db searches] in Hin.
    apply filter_In in Hin as [Hin _]. now left.
  - unfold clear_history, User_get, bind, get_db. cbv beta iota zeta.
    rewrite Hfind. intros entry Hin. now left.
Qed.

Lemma show_detailed_history_quiet (from : TgUser) (days : Z) :
  steps same_history (show_detailed_history from days).
Proof.
  intros s. split; [| trivial].
  unfold show_detailed_history, User_get, bind, get_db, clock.
  cbv beta iota zeta.
  destruct (find_user (tg_id from) (db s)); [| split; reflexivity].
  unfold ret. cbv beta iota zeta.
  match goal with |- context [order_by_created_at_desc ?l] =>
    destruct (order_by_created_at_desc l) end; split; reflexivity.
Qed.

Lemma handle_callback_bounded (from : TgUser) (data : pystr) :
  steps new_entries_bounded (handle_callback from data).
Proof.
  pose proof kept_new_entries_bounded as [Hrefl Htrans].
  unfold handle_callback.
  apply yields_seq with (Q := fun _ => True); [exact Htrans | |].
  { eapply yields_rel; [apply same_history_bounded | apply quiet_send]. }
  intros _ _.
  destruct (startswith (py "history_") data).
  - destruct (nth_error (split 95 data) 1) as [piece|];
      [| now apply yields_raise].
    destruct (int_of_str piece) as [days|]; [| now apply yields_raise].
    eapply yields_rel;
      [apply same_history_bounded | apply show_detailed_history_quiet].
  - destruct (str_eqb data (py "clear_history"));
      [apply clear_history_bounded | now apply yields_ret].
Qed.

Lemma dispatch_bounded (from : TgUser) (u : update) :
  steps new_entries_bounded (dispatch from u).
Proof.
  destruct u; cbn [dispatch].
  - unfold start_command.
    apply yields_seq with (Q := fun _ => True);
      [apply kept_new_entries_bounded | | intros _ _].
    + eapply yields_rel;
        [apply same_history_bounded | apply quiet_get_or_create_user].
    + eapply yields_rel; [apply same_history_bounded | apply quiet_send].
  - eapply yields_rel; [apply same_history_bounded | apply quiet_send].
  - eapply yields_rel; [apply same_history_bounded | apply history_quiet].
  - apply movie_search_command_bounded.
  - apply movie_by_rating_command_bounded.
  - apply handle_budget_search_bounded.
  - apply handle_budget_search_bounded.
  - apply handle_callback_bounded.
  - apply handle_message_bounded.
Qed.

(** C9. Whatever updates the bot handles, an entry of the history never
    counts more than [MOVIES_PER_PAGE] results: the bound holds after the
    updates when it held before them, so it holds for every entry the
    handlers have made. *)
Theorem result_count_at_most_page :
  forall (updates : list (TgUser * update)) (s : Sys E),
    Forall bounded (searches (db s)) ->
    Forall bounded (searches (db (run_all updates s))).
Proof.
  induction updates as [|[from u] rest IH]; intros s Hs; [exact Hs |].
  cbn [run_all]. apply IH.
  destruct (dispatch_bounded from u s) as [Hstep _].
  apply Forall_forall. intros entry Hin.
  destruct (Hstep entry Hin) as [Hold | Hnew]; [| exact Hnew].
  now apply (proj1 (Forall_forall _ _) Hs).
Qed.

(** *** The detail fan-out *)

Lemma storable_truthy (movie_data : json) :
  storable movie_data -> truthy movie_data = true.
Proof.
  intros (row & Hrow & Hok).
  destruct movie_data as [| | | | | |d]; try discriminate Hrow.
  destruct d as [|kv d]; [| reflexivity].
  cbn in Hrow. injection Hrow as <-. discriminate Hok.
Qed.

Lemma fetch_each_frame (ids : list json) :
  forall s : Sys E,
    db (snd (fetch_each ids s)) = db s /\
    outbox (snd (fetch_each ids s)) = outbox s /\
    calls (snd (fetch_each ids s)) = calls s ++ map details_request ids /\
    List.length (fst (fetch_each ids s)) = List.length ids.
Proof.
  induction ids as [|id rest IH]; intros s.
  - cbn. now rewrite app_nil_r.
  - cbn [fetch_each].
    destruct (requests_get (details_request id) (world s)) as [r w].
    match goal with |- context [fetch_each rest ?s1] =>
      specialize (IH s1); destruct (fetch_each rest s1) as [answers s2]
    end.
    cbn [fst snd db outbox calls] in *.
    destruct IH as (Hd & Ho & Hc & Hl).
    repeat split; try assumption.
    + rewrite Hc, <- app_assoc. reflexivity.
    + cbn [List.length map]. now rewrite Hl.
Qed.

(** The loop keeps the answers that are not empty, in their order. *)
Lemma collect_details_run (movies ids : list json) :
  have_ids movies ids ->
  forall (detailed_movies : list json) (s : Sys E),
    collect_details movies detailed_movies s =
    (inr (detailed_movies ++ filter truthy (fst (fetch_each ids s))),
     snd (fetch_each ids s)).
Proof.
  induction 1 as [|movie id movies ids Hid _ IH]; intros acc s.
  - cbn. now rewrite app_nil_r.
  - cbn [collect_details fetch_each]. unfold bind, lift, get_movie_details.
    rewrite Hid, fetch_json_run.
    destruct (requests_get (details_request id) (world s)) as [r w].
    cbn [fst snd]. rewrite IH.
    destruct (fetch_each ids _) as [answers s2].
    cbn [fst snd filter].
    destruct (truthy (answer_of r)); [rewrite <- app_assoc |]; reflexivity.
Qed.

Lemma persist_collected (user : User) (search_type query : pystr)
    (results : list json) (s : Sys E) :
  Forall storable results ->
  exists s' entry rows,
    save_search_history user search_type query results s = (inr tt, s') /\
    searches (db s') = searches (db s) ++ [entry] /\
    result_count entry = Z.of_nat (List.length results) /\
    movies (db s') = movies (db s) ++ rows /\
    List.length rows = List.length results /\
    Forall2 (row_of entry) rows results /\
    outbox s' = outbox s /\ calls s' = calls s.
Proof.
  intros Hst.
  apply (save_search_history_returns user search_type query results s) in Hst.
  pose proof (save_search_history_run user search_type query results s) as H.
  cbn zeta in H.
  destruct (save_search_history user search_type query results s) as [r s'].
  cbn [fst snd] in *. subst r.
  destruct H as (_ & Ho & Hc & rows & Hdb & Hrows & _).
  exists s'. eexists. exists rows. rewrite Hdb. cbn [searches movies].
  repeat split; try assumption; try reflexivity.
  exact (Forall2_length Hrows).
Qed.

Lemma filter_dropped (pre post : list json) :
  Forall storable (pre ++ post) ->
  filter truthy (pre ++ JNull :: post) = pre ++ post.
Proof.
  intros H. rewrite filter_app. cbn [filter truthy]. rewrite <- filter_app.
  apply filter_all. apply Forall_impl with (2 := H).
  exact storable_truthy.
Qed.

(** C7, as the code has it. The fan-out drops the candidates whose details
    could not be fetched or are empty and keeps the others in their order,
    without raising and without telling the user; when the table accepts
    the records it keeps, they are stored as one entry and one row each,
    so that one failure among five candidates leaves four rows. *)
Theorem detail_fan_out_drops_failures :
  forall (candidates ids : list json) (s : Sys E),
    have_ids candidates ids ->
    let answers := fst (fetch_each ids s) in
    let s1 := snd (fetch_each ids s) in
    collect_details candidates [] s = (inr (filter truthy answers), s1) /\
    db s1 = db s /\ outbox s1 = outbox s /\
    (forall user search_type query,
        Forall storable (filter truthy answers) ->
        exists s2 entry rows,
          save_search_history user search_type query (filter truthy answers) s1 =
            (inr tt, s2) /\
          searches (db s2) = searches (db s) ++ [entry] /\
          result_count entry = Z.of_nat (List.length (filter truthy answers)) /\
          movies (db s2) = movies (db s) ++ rows /\
          Forall2 (row_of entry) rows (filter truthy answers) /\
          outbox s2 = outbox s) /\
    (forall user search_type query pre post,
        answers = pre ++ JNull :: post ->
        List.length (pre ++ post) = 4%nat ->
        Forall storable (pre ++ post) ->
        exists s2 entry rows,
          save_search_history user search_type query (filter truthy answers) s1 =
            (inr tt, s2) /\
          searches (db s2) = searches (db s) ++ [entry] /\
          result_count entry = 4 /\
          movies (db s2) = movies (db s) ++ rows /\
          List.length rows = 4%nat /\
          Forall2 (row_of entry) rows (pre ++ post) /\
          outbox s2 = outbox s).
Proof.
  intros candidates ids s Hids answers s1.
  destruct (fetch_each_frame ids s) as (Hdb & Hout & _ & _).
  fold s1 in Hdb, Hout.
  split; [exact (collect_details_run candidates ids Hids [] s) |].
  split; [exact Hdb |]. split; [exact Hout |]. split.
  - intros user search_type query Hst.
    destruct (persist_collected user search_type query _ s1 Hst)
      as (s2 & entry & rows & Hrun & Hs & Hcount & Hm & _ & Hrows & Ho & _).
    exists s2, entry, rows. rewrite <- Hdb, <- Hout. repeat split; assumption.
  - intros user search_type query pre post Hanswers Hlen Hst.
    rewrite Hanswers, (filter_dropped pre post Hst).
    destruct (persist_collected user search_type query _ s1 Hst)
      as (s2 & entry & rows & Hrun & Hs & Hcount & Hm & Hrl & Hrows & Ho & _).
    exists s2, entry, rows. rewrite <- Hdb, <- Hout.
    rewrite Hlen in Hcount, Hrl. repeat split; assumption.
Qed.

(** *** The title search, step by step *)

(** The command up to the answer of the provider. *)
Lemma movie_search_command_run (from : TgUser) (arg : pystr) (more : list pystr)
    (s : Sys E) :
  exists user d,
    searches d = searches (db s) /\ movies d = movies (db s) /\
    movie_search_command from (arg :: more) s =
      let query := join (py " ") (arg :: more) in
      let r := requests_get (title_request query 1) (world s) in
      bind (no_results (answer_of (fst r))) (fun empty =>
        if empty then send (reply_text MoviesNotFound)
        else
          bind (first_movies (answer_of (fst r))) (fun movies =>
          bind (collect_details movies []) (fun detailed_movies =>
          bind (save_search_history user (py "title") query detailed_movies) (fun _ =>
          send_results detailed_movies))))
        (mkSys (snd r) d (outbox s ++ [reply_text (SearchingTitle query)])
           (calls s ++ [title_request query 1])).
Proof.
  destruct (get_or_create_user_run from s) as (user & d & Hrun & Hs & Hm & _).
  exists user, d. split; [exact Hs |]. split; [exact Hm |].
  unfold movie_search_command. unfold bind at 1. rewrite Hrun.
  cbv beta iota zeta. unfold bind at 1. unfold send at 1.
  cbv beta iota zeta. unfold bind at 1. unfold search_movies_by_title.
  rewrite fetch_json_run. reflexivity.
Qed.

Lemma getitem_get (x : json) (key : pystr) (v default : json) :
  getitem x key = inr v -> get x key default = inr v /\ truthy x = true.
Proof.
  destruct x as [| | | | | |d]; try discriminate. cbn [getitem get].
  destruct (lookup key d) eqn:Hl; [| discriminate].
  intros H. split; [exact H |]. destruct d; [discriminate | reflexivity].
Qed.

Lemma no_results_run (results page : json) (s : Sys E) :
  truthy results = true ->
  get results (py "results") JNull = inr page ->
  no_results results s = (inr (negb (truthy page)), s).
Proof.
  intros Ht Hget. unfold no_results, bind, lift, ret. now rewrite Ht, Hget.
Qed.

Lemma first_movies_run (results : json) (page : list json) (s : Sys E) :
  getitem results (py "results") = inr (JList page) ->
  first_movies results s =
  (inr (firstn (Z.to_nat Config.MOVIES_PER_PAGE) page), s).
Proof.
  intros Hpage. unfold first_movies, bind, lift. rewrite Hpage. reflexivity.
Qed.

Lemma Forall2_firstn {A B : Type} (R : A -> B -> Prop) (n : nat)
    (l : list A) (l' : list B) :
  Forall2 R l l' -> Forall2 R (firstn n l) (firstn n l').
Proof.
  intros H. revert n. induction H as [|a b l l' Hab _ IH]; intros [|n];
    cbn [firstn]; constructor; auto.
Qed.

Lemma save_search_history_same_calls (user : User) (search_type query : pystr)
    (results : list json) :
  steps same_calls (save_search_history user search_type query results).
Proof.
  intros s. split; [| trivial].
  pose proof (save_search_history_run user search_type query results s) as H.
  cbn zeta in H. unfold same_calls. tauto.
Qed.

Lemma send_results_same_calls (detailed_movies : list json) :
  steps same_calls (send_results detailed_movies).
Proof.
  induction detailed_movies as [|movie rest IH].
  - apply yields_ret; [apply kept_same_calls | trivial].
  - cbn [send_results].
    apply yields_seq with (Q := fun _ => True);
      [apply kept_same_calls | | intros _ _; exact IH].
    intros s. split; [| trivial].
    unfold send_movie, bind, lift, same_calls.
    destruct (format_movie_message movie) as [e|message]; [reflexivity |].
    destruct (get movie (py "poster_path") JNull) as [e|poster_path];
      [reflexivity |].
    destruct (truthy poster_path); reflexivity.
Qed.

(** C6. From a page that is not empty the title search takes the first
    [MOVIES_PER_PAGE] candidates, in the order of the provider: what it
    takes is a prefix of the page, the whole page when the page is not
    longer than the limit, and the details are asked for exactly these
    candidates, one after the other. *)
Theorem page_limit_takes_prefix :
  forall (from : TgUser) (arg : pystr) (more : list pystr) (s : Sys E)
         (results : json) (page ids : list json) (w : World),
    let query := join (py " ") (arg :: more) in
    let selected := firstn (Z.to_nat Config.MOVIES_PER_PAGE) page in
    requests_get (title_request query 1) (world s) = (Some results, w) ->
    getitem results (py "results") = inr (JList page) ->
    page <> [] ->
    have_ids page ids ->
    (forall s1 : Sys E, first_movies results s1 = (inr selected, s1)) /\
    (exists rest, page = selected ++ rest) /\
    List.length selected =
      Nat.min (Z.to_nat Config.MOVIES_PER_PAGE) (List.length page) /\
    ((List.length page <= Z.to_nat Config.MOVIES_PER_PAGE)%nat -> selected = page) /\
    calls (snd (movie_search_command from (arg :: more) s)) =
      calls s ++ title_request query 1 ::
        map details_request (firstn (Z.to_nat Config.MOVIES_PER_PAGE) ids).
Proof.
  intros from arg more s results page ids w query selected Hget Hpage Hne Hids.
  split; [intros s1; now apply first_movies_run |].
  split; [exists (skipn (Z.to_nat Config.MOVIES_PER_PAGE) page);
          symmetry; apply firstn_skipn |].
  split; [apply length_firstn |].
  split; [apply firstn_all2 |].
  destruct (movie_search_command_run from arg more s) as (user & d & _ & _ & ->).
  cbv zeta. fold query. rewrite Hget. cbn [fst snd answer_of].
  destruct (getitem_get _ _ _ JNull Hpage) as [Hg Ht].
  unfold bind at 1. rewrite (no_results_run results (JList page)) by assumption.
  assert (Htruthy : truthy (JList page) = true)
    by (destruct page; [contradiction | reflexivity]).
  rewrite Htruthy. cbn [negb].
  unfold bind at 1. rewrite (first_movies_run results page) by assumption.
  unfold bind at 1.
  rewrite (collect_details_run _ _
             (Forall2_firstn _ (Z.to_nat Config.MOVIES_PER_PAGE) _ _ Hids)).
  match goal with |- calls (snd (bind ?m ?k ?s2)) = _ =>
    assert (Hsame : steps same_calls (bind m k));
    [| destruct (Hsame s2) as [-> _]]
  end.
  { apply yields_seq with (Q := fun _ => True);
      [apply kept_same_calls | apply save_search_history_same_calls |].
    intros _ _. apply send_results_same_calls. }
  match goal with |- calls (snd (fetch_each ?l ?s2)) = _ =>
    destruct (fetch_each_frame l s2) as (_ & _ & -> & _)
  end.
  cbn [calls]. rewrite <- app_assoc. reflexivity.
Qed.

(** With no candidate to show, the title search says so and writes
    nothing. *)
Lemma movie_search_command_empty_page (from : TgUser) (arg : pystr)
    (more : list pystr) (s : Sys E) :
  let query := join (py " ") (arg :: more) in
  let results := answer_of (fst (requests_get (title_request query 1) (world s))) in
  truthy results = false \/
  (exists page, get results (py "results") JNull = inr page /\ truthy page = false) ->
  exists s',
    movie_search_command from (arg :: more) s = (inr tt, s') /\
    same_history s s' /\
    outbox s' = outbox s ++
      [reply_text (SearchingTitle query); reply_text MoviesNotFound].
Proof.
  intros query results Hempty.
  destruct (movie_search_command_run from arg more s) as (user & d & Hs & Hm & ->).
  cbv zeta. fold query. fold results.
  assert (Hno : forall s1 : Sys E, no_results results s1 = (inr true, s1)).
  { intros s1. unfold no_results.
    destruct Hempty as [-> | (page & Hget & Hpage)]; [reflexivity |].
    destruct (truthy results); [| reflexivity].
    unfold bind, lift, ret. now rewrite Hget, Hpage. }
  unfold bind. rewrite Hno. unfold send.
  eexists. split; [reflexivity |]. cbn [db outbox].
  split; [split; assumption |]. now rewrite <- app_assoc.
Qed.

(** When every answer of the fan-out is empty, the title search still
    writes an entry, with no result, and sends nothing more. *)
Lemma movie_search_command_no_details (from : TgUser) (arg : pystr)
    (more : list pystr) (s : Sys E) (results : json) (page ids : list json)
    (w : World) :
  let query := join (py " ") (arg :: more) in
  requests_get (title_request query 1) (world s) = (Some results, w) ->
  getitem results (py "results") = inr (JList page) ->
  page <> [] ->
  have_ids page ids ->
  (forall s1 : Sys E,
     Forall (fun a => truthy a = false)
       (fst (fetch_each (firstn (Z.to_nat Config.MOVIES_PER_PAGE) ids) s1))) ->
  exists s' entry,
    movie_search_command from (arg :: more) s = (inr tt, s') /\
    searches (db s') = searches (db s) ++ [entry] /\
    result_count entry = 0 /\
    movies (db s') = movies (db s) /\
    outbox s' = outbox s ++ [reply_text (SearchingTitle query)].
Proof.
  intros query Hget Hpage Hne Hids Hfail.
  destruct (movie_search_command_run from arg more s) as (user & d & Hs & Hm & ->).
  cbv zeta. fold query. rewrite Hget. cbn [fst snd answer_of].
  destruct (getitem_get _ _ _ JNull Hpage) as [Hg Ht].
  unfold bind at 1. rewrite (no_results_run results (JList page)) by assumption.
  assert (Htruthy : truthy (JList page) = true)
    by (destruct page; [contradiction | reflexivity]).
  rewrite Htruthy. cbn [negb].
  unfold bind at 1. rewrite (first_movies_run results page) by assumption.
  unfold bind at 1.
  rewrite (collect_details_run _ _
             (Forall2_firstn _ (Z.to_nat Config.MOVIES_PER_PAGE) _ _ Hids)).
  match goal with |- context [fetch_each ?l ?s1] =>
    specialize (Hfail s1);
    destruct (fetch_each_frame l s1) as (Hdb & Hout & _ & _);
    destruct (fetch_each l s1) as [answers s2]
  end.
  cbn [fst snd db outbox] in *.
  rewrite filter_none
    by (intros a Ha; exact (proj1 (Forall_forall _ _) Hfail a Ha)).
  cbn [app]. unfold bind, save_search_history, atomic, bind.
  rewrite SearchHistory_create_run. cbv beta iota zeta.
  cbn [create_movie_results send_results]. unfold ret.
  eexists. eexists. split; [reflexivity |]. cbn [db searches movies outbox].
  rewrite Hdb, Hout. cbn [searches movies]. rewrite Hs, Hm.
  repeat split; reflexivity.
Qed.

(** *** The quick search *)

(** A message of more than two characters, up to the answer of the
    provider. *)
Lemma handle_message_run (from : TgUser) (query : pystr) (s : Sys E) :
  (Z.of_nat (List.length query) >? 2) = true ->
  exists user d,
    searches d = searches (db s) /\ movies d = movies (db s) /\
    handle_message from query s =
      let r := requests_get (title_request query 1) (world s) in
      let results := answer_of (fst r) in
      bind (no_results results) (fun empty =>
        if empty then send (reply_text MovieNotFound)
        else
          bind (lift (getitem results (py "results"))) (fun page =>
          bind (lift (getfirst page)) (fun movie_data =>
          bind (lift (getitem movie_data (py "id"))) (fun id =>
          bind (get_movie_details id) (fun details =>
          if truthy details then
            bind (lift (format_movie_message details)) (fun message =>
            bind (lift (get details (py "poster_path") JNull)) (fun poster_path =>
            bind (save_search_history user (py "title") query [details]) (fun _ =>
            if truthy poster_path
            then send (reply_photo poster_path message)
            else send (reply_text (Html message)))))
          else send (reply_text MovieInfoFailed))))))
        (mkSys (snd r) d (outbox s ++ [reply_text (SearchingMovie query)])
           (calls s ++ [title_request query 1])).
Proof.
  intros Hlong.
  destruct (get_or_create_user_run from s) as (user & d & Hrun & Hs & Hm & _).
  exists user, d. split; [exact Hs |]. split; [exact Hm |].
  unfold handle_message. unfold bind at 1. rewrite Hrun, Hlong.
  cbv beta iota zeta. unfold bind at 1. unfold send at 1.
  cbv beta iota zeta. unfold bind at 1. unfold search_movies_by_title.
  rewrite fetch_json_run. reflexivity.
Qed.

Lemma no_results_state (results : json) (s : Sys E) :
  snd (no_results results s) = s.
Proof.
  unfold no_results, bind, lift, ret.
  destruct (truthy results); [| reflexivity].
  destruct (get results (py "results") JNull); reflexivity.
Qed.

(** The end of the quick search, from the record of the top candidate. *)
Lemma quick_search_tail (user : User) (query : pystr) (details : json) (s s0 : Sys E) :
  same_history s0 s ->
  let s' :=
    snd (bind (lift (format_movie_message details)) (fun message =>
         bind (lift (get details (py "poster_path") JNull)) (fun poster_path =>
         bind (save_search_history user (py "title") query [details]) (fun _ =>
         if truthy poster_path
         then send (reply_photo poster_path message)
         else send (reply_text (Html message))))) s) in
  calls s' = calls s /\
  (same_history s0 s' \/ one_snapshot s0 s' details).
Proof.
  intros [Hs Hm]. cbv zeta. unfold bind, lift. cbv beta iota zeta.
  destruct (format_movie_message details) as [e|message].
  { split; [reflexivity | left; split; assumption]. }
  destruct (get details (py "poster_path") JNull) as [e|poster_path].
  { split; [reflexivity | left; split; assumption]. }
  pose proof (save_search_history_run user (py "title") query [details] s) as H.
  cbn zeta in H.
  destruct (save_search_history user (py "title") query [details] s) as [[e|[]] s2].
  - cbn [fst snd] in *. destruct H as (_ & _ & Hc & Hsame).
    split; [exact Hc | left; split; now rewrite Hsame].
  - cbn [fst snd] in H. destruct H as (_ & _ & Hc & rows & Hs2 & Hrows & Hown & _).
    assert (Hend : forall r : reply,
               calls (snd (send r s2)) = calls s /\
               one_snapshot s0 (snd (send r s2)) details).
    { intros r. cbn [send snd calls db]. split; [exact Hc |].
      rewrite Hs, Hm in Hs2. rewrite Hs in Hrows, Hown.
      inversion Hrows as [|row ? rest ? Hrow Hrest]; subst.
      inversion Hrest; subst. inversion Hown as [|? ? Hsearch _]; subst.
      set (entry := mkSearchHistory (next_id (map search_id (searches (db s0))))
                      (user_id user) (py "title") query
                      (Z.of_nat (List.length [details])) (now (world s))) in *.
      assert (Hmine : owned_by entry row = true)
        by (unfold owned_by; rewrite Hsearch; apply Z.eqb_refl).
      assert (Hall : movies_of entry (db s2) = movies_of entry (db s0) ++ [row]).
      { apply movies_of_appended; [now rewrite Hs2 | now constructor]. }
      exists entry, row. cbn [db].
      split; [now rewrite Hs2 |]. split; [reflexivity |]. split; [now rewrite Hs2 |].
      split; [exact Hrow |]. split; [exact Hmine |]. split; [exact Hall |].
      intros Hrefs. rewrite Hall.
      now rewrite (next_entry_owns_nothing entry (db s0) Hrefs eq_refl). }
    destruct (truthy poster_path);
      match goal with |- context [send ?r s2] =>
        destruct (Hend r) as [? ?] end; split; auto.
Qed.

(** The quick search from the answer of the provider on: either nothing
    is written, or the details of the top candidate were fetched and are
    the one snapshot of one new entry. *)
Lemma quick_search_from_answer (user : User) (query : pystr) (results : json)
    (s1 s0 : Sys E) (r : (exn + unit) * Sys E) :
  same_history s0 s1 ->
  bind (no_results results) (fun empty =>
    if empty then send (reply_text MovieNotFound)
    else
      bind (lift (getitem results (py "results"))) (fun page =>
      bind (lift (getfirst page)) (fun movie_data =>
      bind (lift (getitem movie_data (py "id"))) (fun id =>
      bind (get_movie_details id) (fun details =>
      if truthy details then
        bind (lift (format_movie_message details)) (fun message =>
        bind (lift (get details (py "poster_path") JNull)) (fun poster_path =>
        bind (save_search_history user (py "title") query [details]) (fun _ =>
        if truthy poster_path
        then send (reply_photo poster_path message)
        else send (reply_text (Html message)))))
      else send (reply_text MovieInfoFailed)))))) s1 = r ->
  same_history s0 (snd r) \/
  exists page movie id,
    getitem results (py "results") = inr page /\
    getfirst page = inr movie /\
    getitem movie (py "id") = inr id /\
    truthy (answer_of (fst (requests_get (details_request id) (world s1)))) = true /\
    calls (snd r) = calls s1 ++ [details_request id] /\
    one_snapshot s0 (snd r)
      (answer_of (fst (requests_get (details_request id) (world s1)))).
Proof.
  intros Hh H. unfold bind at 1 in H.
  pose proof (no_results_state results s1) as Hstate.
  destruct (no_results results s1) as [[e|empty] s2]; cbn [snd] in Hstate; subst s2.
  { subst r. now left. }
  destruct empty.
  { subst r. left. exact Hh. }
  unfold bind at 1 in H. unfold lift at 1 in H.
  destruct (getitem results (py "results")) as [e|page] eqn:Hpage;
    [subst r; now left |].
  unfold bind at 1 in H. unfold lift at 1 in H.
  destruct (getfirst page) as [e|movie] eqn:Hfirst; [subst r; now left |].
  unfold bind at 1 in H. unfold lift at 1 in H.
  destruct (getitem movie (py "id")) as [e|id] eqn:Hid; [subst r; now left |].
  unfold bind at 1 in H. unfold get_movie_details in H.
  rewrite fetch_json_run in H.
  destruct (truthy (answer_of (fst (requests_get (details_request id) (world s1)))))
    eqn:Htruthy.
  2: { subst r. left. exact Hh. }
  match type of H with ?tail ?s3 = r =>
    pose proof (quick_search_tail user query
                  (answer_of (fst (requests_get (details_request id) (world s1))))
                  s3 s0 Hh) as Htail
  end.
  cbv zeta in Htail. rewrite H in Htail. destruct Htail as [Hcalls [Hsame | Hone]].
  - now left.
  - right. exists page, movie, id. cbn [calls] in Hcalls.
    repeat split; try assumption; reflexivity.
Qed.

Lemma storable_get (movie_data : json) (key : pystr) (default : json) :
  storable movie_data -> exists v, get movie_data key default = inr v.
Proof.
  intros (row & Hrow & _).
  destruct movie_data as [| | | | | |d]; try discriminate Hrow.
  eexists. reflexivity.
Qed.

(** C10, as the code has it. The quick search on a plain text message: a
    message of at most two characters makes no provider call, no reply and
    no change to the history; otherwise the history changes only when the
    details of the top candidate were fetched and not empty, and then by
    exactly one entry with [result_count] 1 and one row written for it,
    the only row the entry owns when every row stored before had its
    entry; when these details could not be fetched, nothing is written and
    the user is told so. *)
Theorem quick_search_single_snapshot :
  forall (from : TgUser) (query : pystr) (s : Sys E),
    (Z.of_nat (List.length query) <= 2 ->
     calls (snd (handle_message from query s)) = calls s /\
     same_history s (snd (handle_message from query s)) /\
     outbox (snd (handle_message from query s)) = outbox s)
    /\
    (same_history s (snd (handle_message from query s)) \/
     exists page movie id,
       getitem (answer_of (fst (requests_get (title_request query 1) (world s))))
         (py "results") = inr page /\
       getfirst page = inr movie /\
       getitem movie (py "id") = inr id /\
       truthy (answer_of (fst (requests_get (details_request id)
                 (snd (requests_get (title_request query 1) (world s)))))) = true /\
       calls (snd (handle_message from query s)) =
         calls s ++ [title_request query 1; details_request id] /\
       one_snapshot s (snd (handle_message from query s))
         (answer_of (fst (requests_get (details_request id)
            (snd (requests_get (title_request query 1) (world s)))))))
    /\
    (forall page movie id,
       2 < Z.of_nat (List.length query) ->
       getitem (answer_of (fst (requests_get (title_request query 1) (world s))))
         (py "results") = inr page ->
       truthy page = true ->
       getfirst page = inr movie ->
       getitem movie (py "id") = inr id ->
       let details :=
         answer_of (fst (requests_get (details_request id)
            (snd (requests_get (title_request query 1) (world s))))) in
       (truthy details = false ->
        same_history s (snd (handle_message from query s)) /\
        outbox (snd (handle_message from query s)) =
          outbox s ++ [reply_text (SearchingMovie query); reply_text MovieInfoFailed])
       /\
       (storable details ->
        (exists message, format_movie_message details = inr message) ->
        fst (handle_message from query s) = inr tt /\
        one_snapshot s (snd (handle_message from query s)) details)).
Proof.
  intros from query s. split; [| split].
  - intros Hshort.
    destruct (get_or_create_user_run from s) as (user & d & Hrun & Hs & Hm & _).
    unfold handle_message, bind. rewrite Hrun.
    destruct (Z.gtb_spec (Z.of_nat (List.length query)) 2) as [Hgt | _]; [lia |].
    cbn [ret snd calls outbox]. repeat split; assumption.
  - destruct (Z.of_nat (List.length query) >? 2) eqn:Hlong.
    + destruct (handle_message_run from query s Hlong) as (user & d & Hs & Hm & Heq).
      cbv zeta in Heq.
      match type of Heq with _ = ?tail ?s1 =>
        destruct (quick_search_from_answer user query _ s1 s _
                    (conj Hs Hm) (eq_sym Heq))
          as [Hsame | (page & movie & id & Hpage & Hfirst & Hid & Ht & Hc & Hone)]
      end; [now left | right].
      exists page, movie, id. cbn [world calls] in Ht, Hc, Hone.
      rewrite <- app_assoc in Hc. repeat split; assumption.
    + left.
      destruct (get_or_create_user_run from s) as (user & d & Hrun & Hs & Hm & _).
      unfold handle_message, bind. rewrite Hrun, Hlong. split; assumption.
  - intros page movie id Hlen Hpage Htp Hfirst Hid details.
    assert (Hlong : (Z.of_nat (List.length query) >? 2) = true)
      by (apply Z.gtb_lt; lia).
    destruct (handle_message_run from query s Hlong) as (user & d & Hs & Hm & Heq).
    cbv zeta in Heq.
    destruct (getitem_get _ _ _ JNull Hpage) as [Hget Htr].
    unfold bind at 1 in Heq.
    rewrite (no_results_run _ page) in Heq by assumption.
    rewrite Htp in Heq. cbn [negb] in Heq.
    unfold bind at 1 in Heq. unfold lift at 1 in Heq. rewrite Hpage in Heq.
    unfold bind at 1 in Heq. unfold lift at 1 in Heq. rewrite Hfirst in Heq.
    unfold bind at 1 in Heq. unfold lift at 1 in Heq. rewrite Hid in Heq.
    unfold bind at 1 in Heq. unfold get_movie_details in Heq.
    rewrite fetch_json_run in Heq. cbn [world db outbox calls] in Heq.
    fold details in Heq. split.
    + intros Hfail. rewrite Hfail in Heq. rewrite Heq.
      cbn [send snd db outbox]. split; [split; assumption |].
      now rewrite <- app_assoc.
    + intros Hst [message Hmsg].
      rewrite (storable_truthy _ Hst) in Heq.
      unfold bind at 1 in Heq. unfold lift at 1 in Heq. rewrite Hmsg in Heq.
      destruct (storable_get details (py "poster_path") JNull Hst) as [poster Hposter].
      unfold bind at 1 in Heq. unfold lift at 1 in Heq. rewrite Hposter in Heq.
      unfold bind at 1 in Heq.
      match type of Heq with context [save_search_history _ _ _ _ ?s3] =>
        destruct (persist_collected user (py "title") query [details] s3
                    (Forall_cons _ Hst (Forall_nil _)))
          as (s4 & entry & rows & Hrun & Hs4 & Hcount & Hm4 & Hlen4 & Hrows & _);
        pose proof (save_search_history_run user (py "title") query [details] s3)
          as Hexact
      end.
      cbn zeta in Hexact. rewrite Hrun in Hexact. cbn [fst snd db] in Hexact.
      destruct Hexact as (_ & _ & _ & rows' & Hdb4 & _).
      rewrite Hrun in Heq. rewrite Heq.
      assert (Hone : forall r : reply,
                 fst (send r s4) = inr tt /\ one_snapshot s (snd (send r s4)) details).
      { intros r. split; [reflexivity |]. unfold one_snapshot. cbn [send snd db].
        cbn [db] in Hs4, Hm4.
        inversion Hrows as [|row ? rest ? Hrow Hrest]; subst.
        inversion Hrest; subst.
        rewrite Hs, Hm in *.
        assert (Hkey : search_id entry = next_id (map search_id (searches (db s)))).
        { rewrite Hdb4 in Hs4. cbn [searches] in Hs4.
          apply app_inj_tail in Hs4 as [_ <-]. reflexivity. }
        assert (Hmine : owned_by entry row = true).
        { unfold owned_by. apply movie_row_keys in Hrow as [_ ->]. apply Z.eqb_refl. }
        assert (Hall : movies_of entry (db s4) = movies_of entry (db s) ++ [row]).
        { apply movies_of_appended; [exact Hm4 | now constructor]. }
        exists entry, row.
        split; [exact Hs4 |]. split; [exact Hcount |]. split; [exact Hm4 |].
        split; [exact Hrow |]. split; [exact Hmine |]. split; [exact Hall |].
        intros Hrefs. rewrite Hall.
        now rewrite (next_entry_owns_nothing entry (db s) Hrefs Hkey). }
      destruct (truthy poster); apply Hone.
Qed.

End Orchestrator.

(** ** Further properties *)

Section Users.

Context {E : Env}.

Lemma find_user_none (tid : Z) (d : DB) :
  find_user tid d = None -> ~ In tid (map telegram_id (users d)).
Proof.
  unfold find_user. intros Hnone Hin.
  apply in_map_iff in Hin as (u & Hu & Hin).
  apply (find_none _ _ Hnone) in Hin. apply Z.eqb_neq in Hin. congruence.
Qed.

Lemma find_user_some (tid : Z) (d : DB) (user : User) :
  find_user tid d = Some user -> In user (users d) /\ telegram_id user = tid.
Proof.
  unfold find_user. intros H. apply find_some in H as [Hin Heq].
  split; [exact Hin | now apply Z.eqb_eq].
Qed.

Lemma NoDup_snoc {A : Type} (l : list A) (x : A) :
  NoDup l -> ~ In x l -> NoDup (l ++ [x]).
Proof.
  intros Hl Hx. apply NoDup_app; [exact Hl | repeat constructor; intros [] |].
  intros a Ha [<- | []]. contradiction.
Qed.

Lemma get_or_create_user_known (from : TgUser) (user : User) (s : Sys E) :
  find_user (tg_id from) (db s) = Some user ->
  get_or_create_user from s = (inr user, s).
Proof.
  intros Hfind. unfold get_or_create_user, bind, get_db.
  cbv beta iota zeta. now rewrite Hfind.
Qed.

(** The two cases of [get_or_create_user]: the sender is known, or gets a
    row with the next key. *)
Lemma get_or_create_user_cases (from : TgUser) (s : Sys E) :
  exists user s',
    get_or_create_user from s = (inr user, s') /\
    telegram_id user = tg_id from /\
    find_user (tg_id from) (db s') = Some user /\
    same_history s s' /\ world s' = world s /\
    outbox s' = outbox s /\ calls s' = calls s /\
    (forall known, find_user (tg_id from) (db s) = Some known ->
       user = known /\ db s' = db s) /\
    (find_user (tg_id from) (db s) = None ->
       users (db s') = users (db s) ++ [user] /\
       ~ In (user_id user) (map user_id (users (db s)))).
Proof.
  unfold get_or_create_user, bind, get_db. cbv beta iota zeta.
  destruct (find_user (tg_id from) (db s)) as [known|] eqn:Hfind.
  - exists known, s. unfold ret.
    destruct (find_user_some _ _ _ Hfind) as [_ Htid].
    split; [reflexivity |]. split; [exact Htid |]. split; [exact Hfind |].
    split; [split; reflexivity |]. do 3 (split; [reflexivity |]).
    split; [intros k Hk; injection Hk as <-; now split | discriminate].
  - eexists. eexists. split; [reflexivity |].
    cbn [db users searches movies world outbox calls telegram_id user_id].
    split; [reflexivity |]. split.
    { unfold find_user in *. cbn [users]. rewrite (find_app_none _ _ _ Hfind).
      cbn [find telegram_id]. now rewrite Z.eqb_refl. }
    split; [split; reflexivity |]. do 3 (split; [reflexivity |]).
    split; [discriminate |].
    intros _; split; [reflexivity | apply next_id_fresh].
Qed.

(** X1. [get_or_create_user] never raises and answers with a row of the
    sender's Telegram id that is in the table afterwards; it leaves the
    history tables, the messages and the provider alone; a sender who is
    known gets the row there is and the tables stay as they are, a new
    sender adds exactly one row; asking again gives the same row and
    changes nothing. *)
Theorem get_or_create_user_idempotent :
  forall (from : TgUser) (s : Sys E),
    exists user s',
      get_or_create_user from s = (inr user, s') /\
      telegram_id user = tg_id from /\
      find_user (tg_id from) (db s') = Some user /\
      same_history s s' /\ world s' = world s /\
      outbox s' = outbox s /\ calls s' = calls s /\
      (forall known, find_user (tg_id from) (db s) = Some known ->
         user = known /\ db s' = db s) /\
      (find_user (tg_id from) (db s) = None ->
         users (db s') = users (db s) ++ [user] /\
         ~ In (user_id user) (map user_id (users (db s)))) /\
      get_or_create_user from s' = (inr user, s').
Proof.
  intros from s.
  destruct (get_or_create_user_cases from s)
    as (user & s' & Hrun & Htid & Hfind & Hh & Hw & Ho & Hc & Hknown & Hnew).
  exists user, s'. repeat (split; [assumption |]).
  now apply get_or_create_user_known.
Qed.

End Users.

(** *** Steps that leave the tables alone *)

Section Frames.

Context {E : Env}.

Lemma kept_same_db : kept (same_db (E := E)).
Proof. split; unfold same_db; [reflexivity | congruence]. Qed.

Ltac same_db_seq :=
  apply yields_seq with (Q := fun _ => True); [apply kept_same_db | | intros ? _].

Ltac same_db_now := intros ?; split; [reflexivity | trivial].

Lemma still_send (r : reply) : steps same_db (send r).
Proof. same_db_now. Qed.

Lemma still_lift {A : Type} (r : exn + A) : steps same_db (lift r).
Proof. same_db_now. Qed.

Lemma still_ret {A : Type} (a : A) : steps same_db (ret a).
Proof. same_db_now. Qed.

Lemma still_raise {A : Type} (e : exn) : steps same_db (raise (A := A) e).
Proof. same_db_now. Qed.

Lemma still_fetch (req : request) : steps same_db (fetch req).
Proof. intros s. rewrite fetch_run. split; [reflexivity | trivial]. Qed.

Lemma still_fetch_json (req : request) : steps same_db (fetch_json req).
Proof. intros s. rewrite fetch_json_run. split; [reflexivity | trivial]. Qed.

Lemma still_get_genre_id (genre_name : pystr) :
  steps same_db (get_genre_id genre_name).
Proof.
  unfold get_genre_id. same_db_seq; [apply still_fetch |].
  destruct a as [body|]; [| apply still_ret].
  same_db_seq; [apply still_lift |]. same_db_seq; apply still_lift.
Qed.

Lemma still_with_genre (genre : option pystr) (params : dict) :
  steps same_db (with_genre genre params).
Proof.
  destruct genre as [[|c name]|]; try apply still_ret.
  unfold with_genre. same_db_seq; [apply still_get_genre_id | apply still_ret].
Qed.

Lemma still_search_movies_by_rating (min_rating : pyfloat) (genre : option pystr)
    (page : Z) :
  steps same_db (search_movies_by_rating min_rating genre page).
Proof.
  unfold search_movies_by_rating.
  same_db_seq; [apply still_with_genre | apply still_fetch_json].
Qed.

Lemma still_search_movies_by_budget (budget_type : pystr) (genre : option pystr)
    (page : Z) :
  steps same_db (search_movies_by_budget budget_type genre page).
Proof.
  unfold search_movies_by_budget.
  same_db_seq; [apply still_with_genre | apply still_fetch_json].
Qed.

Lemma still_no_results (results : json) : steps same_db (no_results results).
Proof.
  unfold no_results. destruct (truthy results); [| apply still_ret].
  same_db_seq; [apply still_lift | apply still_ret].
Qed.

Lemma still_first_movies (results : json) : steps same_db (first_movies results).
Proof.
  unfold first_movies. same_db_seq; [apply still_lift |].
  same_db_seq; apply still_lift.
Qed.

Lemma still_collect_details (candidates : list json) :
  forall detailed_movies, steps same_db (collect_details candidates detailed_movies).
Proof.
  induction candidates as [|movie rest IH]; intros acc; [apply still_ret |].
  cbn [collect_details]. same_db_seq; [apply still_lift |].
  same_db_seq; [apply still_fetch_json | apply IH].
Qed.

Lemma still_send_movie (movie : json) : steps same_db (send_movie movie).
Proof.
  unfold send_movie. same_db_seq; [apply still_lift |].
  same_db_seq; [apply still_lift |].
  match goal with |- context [if ?b then _ else _] => destruct b end;
    apply still_send.
Qed.

Lemma still_send_results (detailed_movies : list json) :
  steps same_db (send_results detailed_movies).
Proof.
  induction detailed_movies as [|movie rest IH]; [apply still_ret |].
  cbn [send_results]. same_db_seq; [apply still_send_movie | exact IH].
Qed.

(** What the three commands do with the answer of the provider, for any
    relation that the quiet steps and the snapshot write respect. *)
Lemma results_tail_steps (R : Sys E -> Sys E -> Prop) (user : User)
    (search_type query : pystr) (not_found : text) (results : json) :
  kept R ->
  (forall x y, same_db x y -> R x y) ->
  (forall l, steps R (save_search_history user search_type query l)) ->
  steps R
    (bind (no_results results) (fun empty =>
       if empty then send (reply_text not_found)
       else
         bind (first_movies results) (fun movies =>
         bind (collect_details movies []) (fun detailed_movies =>
         bind (save_search_history user search_type query detailed_movies) (fun _ =>
         send_results detailed_movies))))).
Proof.
  intros [Hrefl Htrans] Hquiet Hsave.
  assert (Hq : forall (A : Type) (m : M E A), steps same_db m -> steps R m).
  { intros A m. apply yields_rel, Hquiet. }
  apply yields_seq with (Q := fun _ => True);
    [exact Htrans | apply Hq, still_no_results |].
  intros [|] _; [apply Hq, still_send |].
  apply yields_seq with (Q := fun _ => True);
    [exact Htrans | apply Hq, still_first_movies |].
  intros movies _.
  apply yields_seq with (Q := fun _ => True);
    [exact Htrans | apply Hq, still_collect_details |].
  intros detailed_movies _.
  apply yields_seq with (Q := fun _ => True); [exact Htrans | apply Hsave |].
  intros _ _. apply Hq, still_send_results.
Qed.

(** Each handler that may write to the history first finds or makes the
    row of the sender, and then only takes quiet steps and snapshot writes
    for this row and its own kind of search. *)
Lemma movie_search_command_after_user (from : TgUser) (args : list pystr) (s : Sys E) :
  exists user s0,
    get_or_create_user from s = (inr user, s0) /\
    forall R : Sys E -> Sys E -> Prop,
      kept R ->
      (forall x y, same_db x y -> R x y) ->
      (forall q l, steps R (save_search_history user (py "title") q l)) ->
      R s0 (snd (movie_search_command from args s)).
Proof.
  destruct (get_or_create_user_run from s) as (user & d & Hrun & _).
  eexists. eexists. split; [exact Hrun |].
  intros R HR Hquiet Hsave. pose proof HR as [Hrefl Htrans].
  assert (Hq : forall (A : Type) (m : M E A), steps same_db m -> steps R m).
  { intros A m. apply yields_rel, Hquiet. }
  unfold movie_search_command. unfold bind at 1. rewrite Hrun.
  match goal with |- R ?s0 (snd (?m ?s0)) =>
    cut (steps R m); [intros Hm; apply Hm |] end.
  destruct args as [|arg more]; [apply Hq, still_send |].
  apply yields_seq with (Q := fun _ => True);
    [exact Htrans | apply Hq, still_send | intros _ _].
  apply yields_seq with (Q := fun _ => True);
    [exact Htrans | apply Hq, still_fetch_json | intros results _].
  apply results_tail_steps; auto.
Qed.

Lemma movie_by_rating_command_after_user (from : TgUser) (args : list pystr)
    (s : Sys E) :
  exists user s0,
    get_or_create_user from s = (inr user, s0) /\
    forall R : Sys E -> Sys E -> Prop,
      kept R ->
      (forall x y, same_db x y -> R x y) ->
      (forall q l, steps R (save_search_history user (py "rating") q l)) ->
      R s0 (snd (movie_by_rating_command from args s)).
Proof.
  destruct (get_or_create_user_run from s) as (user & d & Hrun & _).
  eexists. eexists. split; [exact Hrun |].
  intros R HR Hquiet Hsave. pose proof HR as [Hrefl Htrans].
  assert (Hq : forall (A : Type) (m : M E A), steps same_db m -> steps R m).
  { intros A m. apply yields_rel, Hquiet. }
  unfold movie_by_rating_command. unfold bind at 1. rewrite Hrun.
  match goal with |- R ?s0 (snd (?m ?s0)) =>
    cut (steps R m); [intros Hm; apply Hm |] end.
  destruct args as [|arg more]; [apply Hq, still_send |].
  destruct (float_of_str arg) as [min_rating|]; [| apply Hq, still_send].
  apply yields_seq with (Q := fun _ => True);
    [exact Htrans | apply Hq, still_send | intros _ _].
  apply yields_seq with (Q := fun _ => True);
    [exact Htrans | apply Hq, still_search_movies_by_rating | intros results _].
  apply results_tail_steps; auto.
Qed.

Lemma handle_budget_search_after_user (from : TgUser) (args : list pystr)
    (budget_type : pystr) (s : Sys E) :
  exists user s0,
    get_or_create_user from s = (inr user, s0) /\
    forall R : Sys E -> Sys E -> Prop,
      kept R ->
      (forall x y, same_db x y -> R x y) ->
      (forall q l,
         steps R (save_search_history user (py "budget_" ++ budget_type) q l)) ->
      R s0 (snd (handle_budget_search from args budget_type s)).
Proof.
  destruct (get_or_create_user_run from s) as (user & d & Hrun & _).
  eexists. eexists. split; [exact Hrun |].
  intros R HR Hquiet Hsave. pose proof HR as [Hrefl Htrans].
  assert (Hq : forall (A : Type) (m : M E A), steps same_db m -> steps R m).
  { intros A m. apply yields_rel, Hquiet. }
  unfold handle_budget_search. unfold bind at 1. rewrite Hrun.
  match goal with |- R ?s0 (snd (?m ?s0)) =>
    cut (steps R m); [intros Hm; apply Hm |] end.
  cbv zeta.
  apply yields_seq with (Q := fun _ => True);
    [exact Htrans | apply Hq, still_send | intros _ _].
  apply yields_seq with (Q := fun _ => True);
    [exact Htrans | apply Hq, still_search_movies_by_budget | intros results _].
  apply results_tail_steps; auto.
Qed.

Lemma handle_message_after_user (from : TgUser) (query : pystr) (s : Sys E) :
  exists user s0,
    get_or_create_user from s = (inr user, s0) /\
    forall R : Sys E -> Sys E -> Prop,
      kept R ->
      (forall x y, same_db x y -> R x y) ->
      (forall q l, steps R (save_search_history user (py "title") q l)) ->
      R s0 (snd (handle_message from query s)).
Proof.
  destruct (get_or_create_user_run from s) as (user & d & Hrun & _).
  eexists. eexists. split; [exact Hrun |].
  intros R HR Hquiet Hsave. pose proof HR as [Hrefl Htrans].
  assert (Hq : forall (A : Type) (m : M E A), steps same_db m -> steps R m).
  { intros A m. apply yields_rel, Hquiet. }
  unfold handle_message. unfold bind at 1. rewrite Hrun.
  match goal with |- R ?s0 (snd (?m ?s0)) =>
    cut (steps R m); [intros Hm; apply Hm |] end.
  destruct (Z.of_nat (List.length query) >? 2); [| apply Hq, still_ret].
  apply yields_seq with (Q := fun _ => True);
    [exact Htrans | apply Hq, still_send | intros _ _].
  apply yields_seq with (Q := fun _ => True);
    [exact Htrans | apply Hq, still_fetch_json | intros results _].
  apply yields_seq with (Q := fun _ => True);
    [exact Htrans | apply Hq, still_no_results |].
  intros [|] _; [apply Hq, still_send |].
  do 3 (apply yields_seq with (Q := fun _ => True);
          [exact Htrans | apply Hq, still_lift | intros ? _]).
  apply yields_seq with (Q := fun _ => True);
    [exact Htrans | apply Hq, still_fetch_json | intros details _].
  destruct (truthy details); [| apply Hq, still_send].
  do 2 (apply yields_seq with (Q := fun _ => True);
          [exact Htrans | apply Hq, still_lift | intros ? _]).
  apply yields_seq with (Q := fun _ => True); [exact Htrans | apply Hsave |].
  intros _ _. match goal with |- context [if ?b then _ else _] => destruct b end;
    apply Hq, still_send.
Qed.

End Frames.

(** *** The keys of the tables *)

Section Keys.

Context {E : Env}.

Lemma NoDup_consecutive (n : nat) :
  forall ids, NoDup ids -> NoDup (ids ++ consecutive (next_id ids) n).
Proof.
  induction n as [|n IH]; intros ids Hids; cbn [consecutive].
  - now rewrite app_nil_r.
  - change (next_id ids :: consecutive (next_id ids + 1) n)
      with ([next_id ids] ++ consecutive (next_id ids + 1) n).
    rewrite app_assoc, <- next_id_snoc. apply IH.
    apply NoDup_snoc; [exact Hids | apply next_id_fresh].
Qed.

Lemma search_ids_after_delete (keep : SearchHistory -> bool)
    (entries : list SearchHistory) :
  NoDup (map search_id entries) -> NoDup (map search_id (filter keep entries)).
Proof.
  intros Hids. induction entries as [|entry entries IH]; cbn [filter];
    [constructor |].
  cbn [map] in Hids. apply NoDup_cons_iff in Hids as [Hfresh Hrest].
  destruct (keep entry); [| now apply IH].
  cbn [map]. apply NoDup_cons; [| now apply IH].
  rewrite in_map_iff. intros (other & Hsame & Hin).
  apply filter_In in Hin as [Hin _]. apply Hfresh.
  rewrite <- Hsame. now apply in_map.
Qed.

Lemma get_or_create_user_keys (from : TgUser) (s s0 : Sys E) (user : User) :
  keys_ok (db s) ->
  get_or_create_user from s = (inr user, s0) ->
  keys_ok (db s0) /\ In user (users (db s0)).
Proof.
  intros (Hu & Ht & Hs & Hm & Hown) Hrun.
  unfold get_or_create_user, bind, get_db in Hrun. cbv beta iota zeta in Hrun.
  destruct (find_user (tg_id from) (db s)) as [known|] eqn:Hfind.
  - injection Hrun as <- <-. split; [repeat split; assumption |].
    now apply find_user_some in Hfind.
  - injection Hrun as <- <-. cbn [db users searches movies].
    split; [| apply in_or_app; right; now left].
    repeat split; cbn [users searches movies]; try assumption.
    + rewrite map_app. cbn [map user_id].
      apply NoDup_snoc; [exact Hu | apply next_id_fresh].
    + rewrite map_app. cbn [map telegram_id].
      apply NoDup_snoc; [exact Ht | now apply find_user_none].
    + intros h Hh. rewrite map_app. apply in_or_app. left. now apply Hown.
Qed.

Lemma kept_keeps_keys (u : User) : kept (keeps_keys (E := E) u).
Proof.
  split; unfold keeps_keys; [tauto |].
  intros x y z Hxy Hyz H. auto.
Qed.

Lemma same_db_keeps_keys (u : User) (x y : Sys E) :
  same_db x y -> keeps_keys u x y.
Proof. unfold same_db, keeps_keys. intros ->. tauto. Qed.

Lemma save_search_history_keeps_keys (user : User) (search_type query : pystr)
    (results : list json) :
  steps (keeps_keys user) (save_search_history user search_type query results).
Proof.
  intros s. split; [| trivial].
  pose proof (save_search_history_run user search_type query results s) as H.
  cbn zeta in H. destruct H as (_ & _ & _ & H). unfold keeps_keys.
  destruct (fst (save_search_history user search_type query results s)).
  { rewrite H. tauto. }
  destruct H as (rows & -> & _ & _ & Hids).
  intros [(Hu & Ht & Hs & Hm & Hown) Hin]. cbn [users searches movies].
  split; [| exact Hin]. repeat split; cbn [users searches movies]; try assumption.
  - rewrite map_app. cbn [map search_id].
    apply NoDup_snoc; [exact Hs | apply next_id_fresh].
  - rewrite map_app, Hids. now apply NoDup_consecutive.
  - intros h Hh. apply in_app_or in Hh as [Hh | [<- | []]]; [now apply Hown |].
    cbn [search_user]. now apply in_map.
Qed.

Lemma clear_history_keys (from : TgUser) (s : Sys E) :
  keys_ok (db s) -> keys_ok (db (snd (clear_history from s))).
Proof.
  intros Hok.
  destruct (find_user (tg_id from) (db s)) as [user|] eqn:Hfind.
  - rewrite (clear_history_run from user s Hfind).
    destruct Hok as (Hu & Ht & Hs & Hm & Hown).
    repeat split; cbn [snd db users searches movies]; try assumption.
    + now apply search_ids_after_delete.
    + intros h Hh. apply filter_In in Hh as [Hh _]. now apply Hown.
  - unfold clear_history, User_get, bind, get_db. cbv beta iota zeta.
    now rewrite Hfind.
Qed.

Lemma after_user_keys (from : TgUser) (s : Sys E) (s' : Sys E) :
  (exists user s0,
      get_or_create_user from s = (inr user, s0) /\
      forall R : Sys E -> Sys E -> Prop,
        kept R ->
        (forall x y, same_db x y -> R x y) ->
        (forall q l, steps R (save_search_history user (py "title") q l)) ->
        R s0 s') ->
  keys_ok (db s) -> keys_ok (db s').
Proof.
  intros (user & s0 & Hrun & Hrest) Hok.
  destruct (get_or_create_user_keys from s s0 user Hok Hrun) as [Hok0 Hin].
  apply (Hrest (keeps_keys user)); auto using kept_keeps_keys, same_db_keeps_keys.
  intros q l. apply save_search_history_keeps_keys.
Qed.

Lemma dispatch_keys (from : TgUser) (u : update) (s : Sys E) :
  keys_ok (db s) -> keys_ok (db (snd (dispatch from u s))).
Proof.
  intros Hok. destruct u; cbn [dispatch].
  - unfold start_command, bind.
    destruct (get_or_create_user from s) as [[e|user] s0] eqn:Hrun.
    + destruct (get_or_create_user_run from s) as (? & ? & H & _). congruence.
    + now apply (get_or_create_user_keys from s s0 user Hok).
  - exact Hok.
  - unfold history, bind.
    destruct (get_or_create_user from s) as [[e|user] s0] eqn:Hrun.
    + destruct (get_or_create_user_run from s) as (? & ? & H & _). congruence.
    + apply (get_or_create_user_keys from s s0 user Hok) in Hrun as [Hok0 _].
      unfold get_db. cbv beta iota zeta.
      destruct (recent_searches user (db s0)); exact Hok0.
  - apply (after_user_keys from s); [| exact Hok].
    apply movie_search_command_after_user.
  - destruct (movie_by_rating_command_after_user from args s)
      as (user & s0 & Hrun & Hrest).
    destruct (get_or_create_user_keys from s s0 user Hok Hrun) as [Hok0 Hin].
    apply (Hrest (keeps_keys user));
      auto using kept_keeps_keys, same_db_keeps_keys.
    intros q l. apply save_search_history_keeps_keys.
  - destruct (handle_budget_search_after_user from args (py "low") s)
      as (user & s0 & Hrun & Hrest).
    destruct (get_or_create_user_keys from s s0 user Hok Hrun) as [Hok0 Hin].
    apply (Hrest (keeps_keys user));
      auto using kept_keeps_keys, same_db_keeps_keys.
    intros q l. apply save_search_history_keeps_keys.
  - destruct (handle_budget_search_after_user from args (py "high") s)
      as (user & s0 & Hrun & Hrest).
    destruct (get_or_create_user_keys from s s0 user Hok Hrun) as [Hok0 Hin].
    apply (Hrest (keeps_keys user));
      auto using kept_keeps_keys, same_db_keeps_keys.
    intros q l. apply save_search_history_keeps_keys.
  - unfold handle_callback, bind, send. cbv beta iota zeta.
    destruct (startswith (py "history_") data).
    + destruct (nth_error (split 95 data) 1) as [piece|]; [| exact Hok].
      destruct (int_of_str piece) as [days|]; [| exact Hok].
      match goal with |- keys_ok (db (snd (show_detailed_history from days ?s1))) =>
        assert (Hsame : db (snd (show_detailed_history from days s1)) = db s1)
      end.
      { unfold show_detailed_history, User_get, bind, get_db, clock.
        cbv beta iota zeta. cbn [db].
        destruct (find_user (tg_id from) (db s)); [| reflexivity].
        unfold ret. cbv beta iota zeta. cbn [db world].
        match goal with |- context [order_by_created_at_desc ?l] =>
          destruct (order_by_created_at_desc l) end; reflexivity. }
      rewrite Hsame. exact Hok.
    + destruct (str_eqb data (py "clear_history")); [| exact Hok].
      now apply clear_history_keys.
  - apply (after_user_keys from s); [| exact Hok].
    apply handle_message_after_user.
Qed.

(** X2. Whatever updates the bot handles, the primary keys of users,
    entries and movie rows stay unique, no Telegram id gets a second user
    row, and every entry of the history belongs to a user of the table. *)
Theorem keys_stay_unique :
  forall (updates : list (TgUser * update)) (s : Sys E),
    keys_ok (db s) -> keys_ok (db (run_all updates s)).
Proof.
  induction updates as [|[from u] rest IH]; intros s Hok; [exact Hok |].
  cbn [run_all]. apply IH. now apply dispatch_keys.
Qed.

End Keys.

(** *** Whose the entries are *)

Section Attribution.

Context {E : Env}.

Lemma kept_writes_for (u : User) : kept (writes_for (E := E) u).
Proof.
  split; unfold writes_for, new_entries.
  - intros x. split; [reflexivity | intros entry H; now left].
  - intros x y z [Hu1 H1] [Hu2 H2]. split; [congruence |].
    intros entry Hin. destruct (H2 entry Hin) as [Hy | HP]; [auto | now right].
Qed.

Lemma same_db_writes_for (u : User) (x y : Sys E) :
  same_db x y -> writes_for u x y.
Proof.
  unfold same_db, writes_for, new_entries. intros ->.
  split; [reflexivity | intros entry H; now left].
Qed.

Lemma save_search_history_writes_for (user : User) (search_type query : pystr)
    (results : list json) :
  In (search_type, get_search_type_name search_type) search_type_names ->
  steps (writes_for user) (save_search_history user search_type query results).
Proof.
  intros Hkind s. split; [| trivial].
  pose proof (save_search_history_run user search_type query results s) as H.
  cbn zeta in H. destruct H as (_ & _ & _ & H). unfold writes_for, new_entries.
  destruct (fst (save_search_history user search_type query results s)).
  { rewrite H. split; [reflexivity | intros entry Hin; now left]. }
  destruct H as (rows & -> & _). cbn [users searches].
  split; [reflexivity |]. intros entry Hin.
  apply in_app_or in Hin as [Hold | [<- | []]]; [now left | right].
  split; [reflexivity | exact Hkind].
Qed.

Lemma after_user_writes_for (from : TgUser) (kind : pystr) (s s' : Sys E) :
  In (kind, get_search_type_name kind) search_type_names ->
  (exists user s0,
      get_or_create_user from s = (inr user, s0) /\
      forall R : Sys E -> Sys E -> Prop,
        kept R ->
        (forall x y, same_db x y -> R x y) ->
        (forall q l, steps R (save_search_history user kind q l)) ->
        R s0 s') ->
  exists user,
    find_user (tg_id from) (db s') = Some user /\
    new_entries (written_for user) s s'.
Proof.
  intros Hkind (user & s0 & Hrun & Hrest).
  destruct (get_or_create_user_cases from s)
    as (user' & s0' & Hrun' & _ & Hfind & [Hs _] & _).
  rewrite Hrun in Hrun'. injection Hrun' as <- <-.
  destruct (Hrest (writes_for user)) as [Husers Hnew];
    auto using kept_writes_for, same_db_writes_for.
  { intros q l. now apply save_search_history_writes_for. }
  exists user. split.
  - unfold find_user in *. now rewrite Husers.
  - intros entry Hin. destruct (Hnew entry Hin) as [Hold | HP]; [left | now right].
    now rewrite <- Hs.
Qed.

Lemma no_new_entries (from : TgUser) (s s' : Sys E) :
  (forall entry, In entry (searches (db s')) -> In entry (searches (db s))) ->
  forall entry, In entry (searches (db s')) ->
    In entry (searches (db s)) \/
    exists user,
      find_user (tg_id from) (db s') = Some user /\ written_for user entry.
Proof. intros H entry Hin. left. now apply H. Qed.

(** X3. An entry that appears in the history while an update is handled
    belongs to the user row of the sender of this update, and its kind is
    one of the four kinds [get_search_type_name] has a name for. *)
Theorem new_entries_belong_to_sender :
  forall (from : TgUser) (u : update) (s : Sys E) (entry : SearchHistory),
    In entry (searches (db (snd (dispatch from u s)))) ->
    In entry (searches (db s)) \/
    exists user,
      find_user (tg_id from) (db (snd (dispatch from u s))) = Some user /\
      written_for user entry.
Proof.
  intros from u s.
  assert (Hwrites : forall kind s',
            In (kind, get_search_type_name kind) search_type_names ->
            (exists user s0,
                get_or_create_user from s = (inr user, s0) /\
                forall R : Sys E -> Sys E -> Prop,
                  kept R ->
                  (forall x y, same_db x y -> R x y) ->
                  (forall q l, steps R (save_search_history user kind q l)) ->
                  R s0 s') ->
            forall entry, In entry (searches (db s')) ->
              In entry (searches (db s)) \/
              exists user,
                find_user (tg_id from) (db s') = Some user /\
                written_for user entry).
  { intros kind s' Hkind Hafter entry Hin.
    destruct (after_user_writes_for from kind s s' Hkind Hafter)
      as (user & Hfind & Hnew).
    destruct (Hnew entry Hin) as [Hold | HP]; [now left | right].
    now exists user. }
  destruct u; cbn [dispatch].
  - apply no_new_entries. intros entry.
    unfold start_command, bind.
    destruct (get_or_create_user_run from s) as (user & d & -> & Hs & _).
    cbn [send snd db]. now rewrite Hs.
  - apply no_new_entries. intros entry H. exact H.
  - apply no_new_entries. intros entry.
    destruct (history_quiet from s) as [[-> _] _]. trivial.
  - apply (Hwrites (py "title")); [cbn; tauto |].
    apply movie_search_command_after_user.
  - apply (Hwrites (py "rating")); [cbn; tauto |].
    apply movie_by_rating_command_after_user.
  - apply (Hwrites (py "budget_low")); [cbn; tauto |].
    apply (handle_budget_search_after_user from args (py "low")).
  - apply (Hwrites (py "budget_high")); [cbn; tauto |].
    apply (handle_budget_search_after_user from args (py "high")).
  - apply no_new_entries. intros entry.
    unfold handle_callback, bind, send. cbv beta iota zeta.
    destruct (startswith (py "history_") data).
    + destruct (nth_error (split 95 data) 1) as [piece|]; [| trivial].
      destruct (int_of_str piece) as [days|]; [| trivial].
      match goal with |- context [show_detailed_history from days ?s1] =>
        destruct (show_detailed_history_quiet from days s1) as [[-> _] _]
      end. trivial.
    + destruct (str_eqb data (py "clear_history")); [| trivial].
      match goal with |- context [clear_history from ?s1] =>
        destruct (clear_history_bounded from s1) as [Hstep _]
      end.
      intros Hin.
      destruct (find_user (tg_id from) (db s)) as [user|] eqn:Hfind.
      * match goal with H : In entry (searches (db (snd (clear_history from ?s1)))) |- _ =>
          rewrite (clear_history_run from user s1 Hfind) in H;
          cbn [snd db searches] in H; apply filter_In in H as [H _]; exact H
        end.
      * revert Hin. unfold clear_history, User_get, bind, get_db.
        cbv beta iota zeta. cbn [db]. now rewrite Hfind.
  - apply (Hwrites (py "title")); [cbn; tauto |].
    apply handle_message_after_user.
Qed.

End Attribution.

(** *** Reading the history *)

Section Reading.

Context {E : Env}.

Lemma insert_desc_perm (x : SearchHistory) (l : list SearchHistory) :
  Permutation (x :: l) (insert_desc x l).
Proof.
  induction l as [|y l IH]; cbn [insert_desc]; [reflexivity |].
  destruct (created_at y <=? created_at x); [reflexivity |].
  rewrite perm_swap. now constructor.
Qed.

Lemma insert_desc_sorted (x : SearchHistory) (l : list SearchHistory) :
  newest_first l -> newest_first (insert_desc x l).
Proof.
  unfold newest_first. induction 1 as [|y l Hl IH Hy]; cbn [insert_desc].
  - repeat constructor.
  - destruct (Z.leb_spec (created_at y) (created_at x)) as [Hlt | Hge].
    + constructor; [now constructor |].
      constructor; [lia |].
      apply Forall_impl with (2 := Hy). intros z Hz. lia.
    + constructor; [exact IH |].
      apply (Permutation_Forall (insert_desc_perm x l)).
      constructor; [lia | exact Hy].
Qed.

Lemma order_by_perm (l : list SearchHistory) :
  Permutation l (order_by_created_at_desc l).
Proof.
  induction l as [|x l IH]; [reflexivity |].
  cbn [order_by_created_at_desc fold_right].
  rewrite <- insert_desc_perm. now constructor.
Qed.

Lemma order_by_sorted (l : list SearchHistory) :
  newest_first (order_by_created_at_desc l).
Proof.
  induction l as [|x l IH]; [constructor |].
  now apply insert_desc_sorted.
Qed.

Lemma sorted_app {A : Type} (R : A -> A -> Prop) (a b : list A) :
  StronglySorted R (a ++ b) ->
  StronglySorted R a /\ forall x y, In x a -> In y b -> R x y.
Proof.
  induction a as [|h a IH]; cbn [app]; intros H.
  - split; [constructor | intros x y []].
  - inversion H as [|? ? Hs Hf]; subst. destruct (IH Hs) as [Ha Hcross].
    apply Forall_app in Hf as [Hfa Hfb].
    split; [now constructor |].
    intros x y [<- | Hx] Hy; [| now apply Hcross].
    now apply (proj1 (Forall_forall _ _) Hfb).
Qed.

(** X4. The query of [history] gives at most [MAX_HISTORY_ENTRIES]
    entries, all of them entries of the user, newest first; they are the
    newest ones: the entries of the user it leaves out are not newer than
    any it gives, and none is left out when the user has at most
    [MAX_HISTORY_ENTRIES]. *)
Theorem history_lists_newest :
  forall (user : User) (d : DB),
    (List.length (recent_searches user d) <= Z.to_nat Config.MAX_HISTORY_ENTRIES)%nat /\
    newest_first (recent_searches user d) /\
    (forall h, In h (recent_searches user d) ->
       In h (searches d) /\ search_user h = user_id user) /\
    exists older,
      Permutation (searches_of user d) (recent_searches user d ++ older) /\
      (forall x y, In x (recent_searches user d) -> In y older ->
         created_at y <= created_at x) /\
      ((List.length (searches_of user d) <= Z.to_nat Config.MAX_HISTORY_ENTRIES)%nat ->
       older = []).
Proof.
  intros user d. unfold recent_searches.
  rewrite slice_to_firstn by discriminate.
  set (n := Z.to_nat Config.MAX_HISTORY_ENTRIES).
  set (l := order_by_created_at_desc (searches_of user d)).
  assert (Hperm : Permutation (searches_of user d) l) by apply order_by_perm.
  assert (Hsorted : newest_first l) by apply order_by_sorted.
  rewrite <- (firstn_skipn n l) in Hsorted.
  apply sorted_app in Hsorted as [Hfirst Hcross].
  split; [rewrite length_firstn; lia |]. split; [exact Hfirst |]. split.
  - intros h Hh.
    assert (Hin : In h (searches_of user d)).
    { apply (Permutation_in _ (Permutation_sym Hperm)).
      rewrite <- (firstn_skipn n l). apply in_or_app. now left. }
    apply filter_In in Hin as [Hin Hu]. split; [exact Hin | now apply Z.eqb_eq].
  - exists (skipn n l). split; [now rewrite firstn_skipn |].
    split; [exact Hcross |].
    intros Hlen. apply skipn_all2.
    now rewrite <- (Permutation_length Hperm).
Qed.

(** Entries of equal time come in the order of the table. *)
Lemma order_by_ties (l : list SearchHistory) (t : Z) :
  Forall (fun h => created_at h = t) l -> order_by_created_at_desc l = l.
Proof.
  induction 1 as [|x l Hx Hl IH]; [reflexivity |].
  cbn [order_by_created_at_desc fold_right].
  fold (order_by_created_at_desc l). rewrite IH.
  destruct Hl as [|y l Hy Hl]; [reflexivity |].
  cbn [insert_desc]. rewrite Hx, Hy. now rewrite Z.leb_refl.
Qed.



Lemma insert_desc_head (x e : SearchHistory) (l : list SearchHistory) :
  created_at x < created_at e ->
  insert_desc x (e :: l) = e :: insert_desc x l.
Proof.
  intros H. cbn [insert_desc].
  destruct (Z.leb_spec (created_at e) (created_at x)); [lia | reflexivity].
Qed.

Lemma order_by_newest_last (l : list SearchHistory) (e : SearchHistory) :
  (forall h, In h l -> created_at h < created_at e) ->
  exists rest, order_by_created_at_desc (l ++ [e]) = e :: rest.
Proof.
  induction l as [|x l IH]; intros H.
  - now exists [].
  - destruct IH as [rest Hrest]; [intros h Hh; apply H; now right |].
    cbn [app order_by_created_at_desc fold_right] in *.
    unfold order_by_created_at_desc in Hrest. rewrite Hrest.
    rewrite insert_desc_head by (apply H; now left).
    now eexists.
Qed.

(** X6. A search that was saved is what [history] shows first: after a
    snapshot write for a user, the query of [history] for this user begins
    with the new entry, as long as every entry the user had carries an
    earlier time than the clock gave to the new one. (At equal times
    SQLite gives the older entry first.) *)
Theorem saved_search_comes_first :
  forall (user : User) (kind text : pystr) (results : list json)
         (s s' : Sys E),
    save_search_history user kind text results s = (inr tt, s') ->
    (forall h, In h (searches_of user (db s)) -> created_at h < now (world s)) ->
    exists entry rest,
      recent_searches user (db s') = entry :: rest /\
      In entry (searches (db s')) /\ ~ In entry (searches (db s)) /\
      search_type entry = kind /\
      query entry = text /\
      result_count entry = Z.of_nat (List.length results).
Proof.
  intros user kind text results s s' Hrun Hclock.
  pose proof (save_search_history_run user kind text results s) as H.
  cbn zeta in H. rewrite Hrun in H. cbn [fst snd] in H.
  destruct H as (_ & _ & _ & rows & Hdb & _).
  set (entry := mkSearchHistory (next_id (map search_id (searches (db s))))
                  (user_id user) kind text
                  (Z.of_nat (List.length results)) (now (world s))) in *.
  assert (Hmine : searches_of user (db s') = searches_of user (db s) ++ [entry]).
  { unfold searches_of. rewrite Hdb. cbn [searches]. rewrite filter_app.
    cbn [filter entry search_user]. now rewrite Z.eqb_refl. }
  destruct (order_by_newest_last (searches_of user (db s)) entry Hclock)
    as [rest Hrest].
  exists entry. eexists. unfold recent_searches.
  rewrite slice_to_firstn by discriminate. rewrite Hmine, Hrest.
  split; [reflexivity |]. rewrite Hdb. cbn [searches].
  split; [apply in_or_app; right; now left |].
  split; [| repeat split].
  intros Hin. apply (in_map search_id) in Hin.
  exact (next_id_fresh _ Hin).
Qed.

End Reading.

(** *** Callbacks and invalid input *)

Section Callbacks.

Context {E : Env}.

Lemma split_at_head (sep : N) (s : pystr) :
  forall piece, exists pieces,
    split_at sep s piece = (rev piece ++ until sep s) :: pieces.
Proof.
  induction s as [|c s IH]; intros piece; cbn [split_at until].
  - exists []. now rewrite app_nil_r.
  - destruct (N.eqb c sep).
    + eexists. now rewrite app_nil_r.
    + destruct (IH (c :: piece)) as [pieces ->]. exists pieces.
      cbn [rev]. now rewrite <- app_assoc.
Qed.

Lemma history_data (rest : pystr) :
  startswith (py "history_") (py "history_" ++ rest) = true /\
  nth_error (split 95 (py "history_" ++ rest)) 1 = Some (until 95 rest).
Proof.
  split; [apply startswith_spec; now exists rest |].
  unfold split. cbn.
  destruct (split_at_head 95 rest []) as [pieces ->]. reflexivity.
Qed.

(** X7. [handle_callback] answers the callback first and then goes three
    ways only: the data [clear_history] clears the history of the sender;
    data that begin with [history_] show the history of the number of days
    written before the next underscore, and raise [ValueError] when this is
    no number; any other data do nothing more. *)
Theorem handle_callback_routes :
  forall (from : TgUser) (data : pystr) (s : Sys E),
    (data = py "clear_history" ->
     handle_callback from data s =
       clear_history from
         (mkSys (world s) (db s) (outbox s ++ [answer]) (calls s)))
    /\
    (forall rest, data = py "history_" ++ rest ->
     handle_callback from data s =
       match int_of_str (until 95 rest) with
       | Some days =>
           show_detailed_history from days
             (mkSys (world s) (db s) (outbox s ++ [answer]) (calls s))
       | None =>
           (inl ValueError,
            mkSys (world s) (db s) (outbox s ++ [answer]) (calls s))
       end)
    /\
    (startswith (py "history_") data = false ->
     data <> py "clear_history" ->
     handle_callback from data s =
       (inr tt, mkSys (world s) (db s) (outbox s ++ [answer]) (calls s))).
Proof.
  intros from data s. split; [| split].
  - intros ->. reflexivity.
  - intros rest ->. destruct (history_data rest) as [Hstart Hnth].
    unfold handle_callback, bind, send. cbv beta iota zeta.
    rewrite Hstart, Hnth. destruct (int_of_str (until 95 rest)); reflexivity.
  - intros Hstart Hne. unfold handle_callback, bind, send. cbv beta iota zeta.
    rewrite Hstart.
    destruct (str_eqb data (py "clear_history")) eqn:Heq; [| reflexivity].
    apply str_eqb_eq in Heq. contradiction.
Qed.

(** X8. A callback of a sender who has no user row is answered and does
    nothing else, whatever its data: no entry is deleted and no message is
    edited. *)
Theorem callback_of_unknown_sender :
  forall (from : TgUser) (data : pystr) (s : Sys E),
    find_user (tg_id from) (db s) = None ->
    snd (handle_callback from data s) =
      mkSys (world s) (db s) (outbox s ++ [answer]) (calls s) /\
    (data = py "clear_history" ->
     fst (handle_callback from data s) = inl DoesNotExist).
Proof.
  intros from data s Hfind.
  assert (Hclear : forall s1 : Sys E, db s1 = db s ->
            clear_history from s1 = (inl DoesNotExist, s1)).
  { intros s1 Hdb. unfold clear_history, User_get, bind, get_db.
    cbv beta iota zeta. now rewrite Hdb, Hfind. }
  split.
  - unfold handle_callback, bind, send. cbv beta iota zeta.
    destruct (startswith (py "history_") data).
    + destruct (nth_error (split 95 data) 1) as [piece|]; [| reflexivity].
      destruct (int_of_str piece) as [days|]; [| reflexivity].
      unfold show_detailed_history, User_get, bind, get_db.
      cbv beta iota zeta. cbn [db]. now rewrite Hfind.
    + destruct (str_eqb data (py "clear_history")); [| reflexivity].
      now rewrite Hclear.
  - intros ->. unfold handle_callback, bind, send. cbv beta iota zeta.
    cbn [startswith py map list_ascii_of_string N_of_ascii N.eqb].
    change (handle_callback from (py "clear_history") s) with
      (clear_history from
         (mkSys (world s) (db s) (outbox s ++ [answer]) (calls s))).
    now rewrite Hclear.
Qed.

Lemma filter_twice {A : Type} (p : A -> bool) (l : list A) :
  filter p (filter p l) = filter p l.
Proof.
  induction l as [|a l IH]; [reflexivity |].
  cbn [filter]. destruct (p a) eqn:Ha; [| exact IH].
  cbn [filter]. rewrite Ha. now f_equal.
Qed.

(** X9. Clearing the history twice: the second time nothing is left to
    delete, the count reported is 0 and the tables stay as the first time
    left them. *)
Theorem clear_history_twice :
  forall (from : TgUser) (user : User) (s : Sys E),
    find_user (tg_id from) (db s) = Some user ->
    exists s' s'',
      clear_history from s = (inr tt, s') /\
      clear_history from s' = (inr tt, s'') /\
      db s'' = db s' /\
      outbox s'' = outbox s' ++ [edit_message_text (HistoryCleared 0)].
Proof.
  intros from user s Hfind.
  eexists. eexists. split; [exact (clear_history_run from user s Hfind) |].
  match goal with |- clear_history from ?s1 = _ /\ _ =>
    assert (Hfind' : find_user (tg_id from) (db s1) = Some user) by exact Hfind;
    rewrite (clear_history_run from user s1 Hfind')
  end.
  split; [reflexivity |]. cbn [db outbox users searches movies].
  assert (Hnone : forall l : list SearchHistory,
            filter (fun h => search_user h =? user_id user)
              (filter (fun h => negb (search_user h =? user_id user)) l) = []).
  { intros l. apply (filter_filter_negb (fun h => search_user h =? user_id user)). }
  split.
  - now rewrite filter_twice.
  - unfold searches_of. cbn [searches]. now rewrite Hnone.
Qed.

(** X10. Input the commands refuse: a title search without a title and a
    rating search without a rating, or with a rating that is no number,
    send one message of guidance and do nothing else: no call to the
    provider and no change to the history. *)
Theorem invalid_input_fails_fast :
  forall (from : TgUser) (s : Sys E),
    (calls (snd (movie_search_command from [] s)) = calls s /\
     same_history s (snd (movie_search_command from [] s)) /\
     outbox (snd (movie_search_command from [] s)) =
       outbox s ++ [reply_text AskTitle])
    /\
    (calls (snd (movie_by_rating_command from [] s)) = calls s /\
     same_history s (snd (movie_by_rating_command from [] s)) /\
     outbox (snd (movie_by_rating_command from [] s)) =
       outbox s ++ [reply_text AskRating])
    /\
    (forall arg more, float_of_str arg = None ->
     calls (snd (movie_by_rating_command from (arg :: more) s)) = calls s /\
     same_history s (snd (movie_by_rating_command from (arg :: more) s)) /\
     outbox (snd (movie_by_rating_command from (arg :: more) s)) =
       outbox s ++ [reply_text RatingNotNumeric]).
Proof.
  intros from s.
  destruct (get_or_create_user_run from s) as (user & d & Hrun & Hs & Hm & _).
  split; [| split].
  - unfold movie_search_command, bind. rewrite Hrun. cbn [send snd calls db outbox].
    repeat split; assumption.
  - unfold movie_by_rating_command, bind. rewrite Hrun.
    cbn [send snd calls db outbox]. repeat split; assumption.
  - intros arg more Hbad. unfold movie_by_rating_command, bind.
    rewrite Hrun, Hbad. cbn [send snd calls db outbox]. repeat split; assumption.
Qed.

End Callbacks.

(** *** Records the table refuses *)

Section Records.

Context {E : Env}.

Lemma returned_and_then {A B : Type} (r : exn + A) (k : A -> exn + B) :
  (forall a, returned (k a) = true) -> returned (and_then r k) = returned r.
Proof. intros Hk. destruct r; [reflexivity | apply Hk]. Qed.

Lemma named_getitem (genre : json) :
  named genre = true <->
  exists name, getitem genre (py "name") = inr (JStr name).
Proof.
  destruct genre as [| | | | | |d]; cbn [named getitem];
    try (split; [discriminate | intros [? H]; discriminate]).
  destruct (lookup (py "name") d) as [[| | | | name | |]|];
    split; try discriminate; try (intros [? H]; discriminate).
  - intros _. now exists name.
  - reflexivity.
Qed.

Lemma names_joined (genres : list json) :
  returned
    (and_then (traverse (fun genre => getitem genre (py "name")) genres)
       (fun names => and_then (traverse as_str names)
          (fun names => inr (join (py ", ") names)))) =
  forallb named genres.
Proof.
  assert (Hpipe : forall l,
            returned (and_then (traverse (fun genre => getitem genre (py "name")) l)
                        (traverse as_str)) = forallb named l).
  { induction l as [|genre l IH]; [reflexivity |].
    cbn [traverse forallb].
    destruct (named genre) eqn:Hn.
    - apply named_getitem in Hn as [name ->]. cbn [and_then andb].
      rewrite <- IH.
      destruct (traverse (fun genre => getitem genre (py "name")) l) as [e|ns];
        [reflexivity |].
      cbn [and_then traverse as_str].
      destruct (traverse as_str ns); reflexivity.
    - cbn [andb].
      destruct (getitem genre (py "name")) as [e|n] eqn:Hg; [reflexivity |].
      cbn [and_then].
      destruct (traverse (fun genre => getitem genre (py "name")) l) as [e|ns];
        [reflexivity |].
      cbn [and_then traverse].
      destruct n; try reflexivity.
      assert (named genre = true) by (apply named_getitem; eexists; exact Hg).
      congruence. }
  rewrite <- Hpipe.
  destruct (traverse (fun genre => getitem genre (py "name")) genres) as [e|ns];
    [reflexivity |].
  cbn [and_then]. now apply returned_and_then.
Qed.

Lemma genre_names_returned (d : dict) :
  returned (genre_names_of (JDict d)) =
  genres_ok (or_default (lookup (py "genres") d) (JList [])).
Proof.
  unfold genre_names_of. cbn [get and_then].
  change (match lookup (py "genres") d with
          | Some v => v
          | None => JList []
          end) with (or_default (lookup (py "genres") d) (JList [])).
  destruct (or_default (lookup (py "genres") d) (JList [])) as [| | | |str|l|g];
    try reflexivity.
  - destruct str as [|c str]; reflexivity.
  - cbn [iter and_then genres_ok]. apply names_joined.
  - destruct g as [|kv g]; reflexivity.
Qed.

Lemma insert_error_constraints (row : MovieResult) :
  insert_error row = None -> constraints_ok row = true.
Proof.
  unfold insert_error.
  destruct (and_then _ _) as [e|[[[a b] c] d]]; [discriminate |].
  destruct (first_error _); [discriminate |].
  destruct (constraints_ok row); [reflexivity | discriminate].
Qed.

Lemma storable_storableb (movie_data : json) :
  storable movie_data -> storableb movie_data = true.
Proof.
  unfold storable. intros (row & Hrow & Hok).
  apply insert_error_constraints in Hok.
  destruct movie_data as [| | | | | |d]; try discriminate Hrow.
  unfold movie_row in Hrow. unfold storableb. cbn [get and_then] in Hrow.
  pose proof (genre_names_returned d) as Hg.
  destruct (genre_names_of (JDict d)) as [e|genre_names]; cbn [returned] in Hg;
    [discriminate Hrow |].
  rewrite <- Hg, andb_true_r. cbn [and_then] in Hrow. injection Hrow as <-.
  exact Hok.
Qed.

(** X11. The records the snapshot write refuses. When a movie of the list
    is no object, has no id or a null one, has a null title or adult flag,
    or has genres that are no list of objects with a string for a name,
    the write raises, and the tables, the messages and the calls are as
    before. *)
Theorem snapshot_write_refuses :
  forall (user : User) (search_type query : pystr) (results : list json) (s : Sys E),
    forallb storableb results = false ->
    (exists e, fst (save_search_history user search_type query results s) = inl e) /\
    db (snd (save_search_history user search_type query results s)) = db s /\
    outbox (snd (save_search_history user search_type query results s)) = outbox s /\
    calls (snd (save_search_history user search_type query results s)) = calls s.
Proof.
  intros user search_type query results s Hbad.
  assert (Himp : fst (save_search_history user search_type query results s) = inr tt ->
                 forallb storableb results = true).
  { rewrite save_search_history_returns, forallb_forall, Forall_forall.
    intros H x Hx. apply storable_storableb. now apply H. }
  pose proof (save_search_history_run user search_type query results s) as H.
  cbn zeta in H. destruct H as (_ & Ho & Hc & H).
  destruct (fst (save_search_history user search_type query results s)) as [e|[]].
  - split; [now exists e |]. repeat split; assumption.
  - rewrite (Himp eq_refl) in Hbad. discriminate.
Qed.

End Records.

(** *** Writing and sending *)

Section Delivery.

Context {E : Env}.

Lemma send_movie_run (movie : json) (s : Sys E) :
  send_movie movie s =
  match reply_for movie with
  | inr r => (inr tt, mkSys (world s) (db s) (outbox s ++ [r]) (calls s))
  | inl e => (inl e, s)
  end.
Proof.
  unfold send_movie, reply_for, bind, lift. cbv beta iota zeta.
  destruct (format_movie_message movie) as [e|message]; [reflexivity |].
  cbn [and_then].
  destruct (get movie (py "poster_path") JNull) as [e|poster_path];
    [reflexivity |].
  cbn [and_then]. destruct (truthy poster_path); reflexivity.
Qed.

Lemma traverse_app_fails {A B : Type} (f : A -> exn + B) (pre post : list A)
    (bad : A) (bs : list B) (e : exn) :
  traverse f pre = inr bs -> f bad = inl e ->
  traverse f (pre ++ bad :: post) = inl e.
Proof.
  revert bs. induction pre as [|a pre IH]; intros bs Hpre Hbad.
  - cbn [app traverse]. now rewrite Hbad.
  - cbn [app traverse] in *. destruct (f a) as [e'|b]; [discriminate |].
    cbn [and_then] in *.
    destruct (traverse f pre) as [e'|bs']; [discriminate |].
    now rewrite (IH bs' eq_refl Hbad).
Qed.

Lemma traverse_length {A B : Type} (f : A -> exn + B) (l : list A) (bs : list B) :
  traverse f l = inr bs -> List.length bs = List.length l.
Proof.
  revert bs. induction l as [|a l IH]; intros bs H; cbn [traverse] in H.
  - now injection H as <-.
  - destruct (f a) as [e|b]; [discriminate |]. cbn [and_then] in H.
    destruct (traverse f l) as [e|bs']; [discriminate |].
    injection H as <-. cbn [List.length]. now rewrite (IH bs' eq_refl).
Qed.

Lemma send_results_sent (detailed_movies : list json) :
  forall (replies : list reply) (s : Sys E),
    traverse reply_for detailed_movies = inr replies ->
    send_results detailed_movies s =
      (inr tt, mkSys (world s) (db s) (outbox s ++ replies) (calls s)).
Proof.
  induction detailed_movies as [|movie rest IH]; intros replies s Hall.
  - injection Hall as <-. rewrite app_nil_r. now destruct s.
  - cbn [traverse] in Hall.
    destruct (reply_for movie) as [e|r] eqn:Hr; [discriminate |].
    cbn [and_then] in Hall.
    destruct (traverse reply_for rest) as [e|rs] eqn:Hrs; [discriminate |].
    injection Hall as <-.
    cbn [send_results]. unfold bind. rewrite send_movie_run, Hr.
    rewrite (IH rs _ eq_refl). cbn [world db outbox calls].
    now rewrite <- app_assoc.
Qed.

Lemma send_results_stops (shown : list json) :
  forall (replies : list reply) (bad : json) (later : list json) (e : exn)
         (s : Sys E),
    traverse reply_for shown = inr replies ->
    reply_for bad = inl e ->
    send_results (shown ++ bad :: later) s =
      (inl e, mkSys (world s) (db s) (outbox s ++ replies) (calls s)).
Proof.
  induction shown as [|movie rest IH]; intros replies bad later e s Hall Hbad.
  - injection Hall as <-. rewrite app_nil_r. cbn [app send_results].
    unfold bind. rewrite send_movie_run, Hbad. now destruct s.
  - cbn [traverse] in Hall.
    destruct (reply_for movie) as [e'|r] eqn:Hr; [discriminate |].
    cbn [and_then] in Hall.
    destruct (traverse reply_for rest) as [e'|rs] eqn:Hrs; [discriminate |].
    injection Hall as <-.
    cbn [app send_results]. unfold bind. rewrite send_movie_run, Hr.
    rewrite (IH rs bad later e _ eq_refl Hbad). cbn [world db outbox calls].
    now rewrite <- app_assoc.
Qed.

(** X12. [send_results] sends one message per movie, in the order of the
    list: a photo with the caption when the record has a poster, a text
    otherwise. When a movie cannot be shown, the messages of the movies
    before it have been sent, none is sent after it, and the exception
    goes on. *)
Theorem send_results_in_order :
  forall (detailed_movies : list json) (replies : list reply) (s : Sys E),
    traverse reply_for detailed_movies = inr replies ->
    send_results detailed_movies s =
      (inr tt, mkSys (world s) (db s) (outbox s ++ replies) (calls s)) /\
    List.length replies = List.length detailed_movies /\
    forall bad e later,
      reply_for bad = inl e ->
      send_results (detailed_movies ++ bad :: later) s =
        (inl e, mkSys (world s) (db s) (outbox s ++ replies) (calls s)).
Proof.
  intros detailed_movies replies s Hall. split; [| split].
  - now apply send_results_sent.
  - now apply (traverse_length reply_for).
  - intros bad e later Hbad. now apply send_results_stops.
Qed.

(** The title search of a known sender on a page that is not empty, up to
    the snapshot write. *)
Lemma title_search_to_save (from : TgUser) (user : User) (arg : pystr)
    (more : list pystr) (s : Sys E) (results : json) (page ids : list json)
    (w : World) :
  find_user (tg_id from) (db s) = Some user ->
  requests_get (title_request (join (py " ") (arg :: more)) 1) (world s) =
    (Some results, w) ->
  getitem results (py "results") = inr (JList page) ->
  page <> [] ->
  have_ids page ids ->
  movie_search_command from (arg :: more) s =
    bind (save_search_history user (py "title") (join (py " ") (arg :: more))
            (filter truthy
               (fst (fetch_each (firstn (Z.to_nat Config.MOVIES_PER_PAGE) ids)
                       (mkSys w (db s)
                          (outbox s ++
                           [reply_text (SearchingTitle (join (py " ") (arg :: more)))])
                          (calls s ++ [title_request (join (py " ") (arg :: more)) 1]))))))
      (fun _ =>
         send_results
           (filter truthy
              (fst (fetch_each (firstn (Z.to_nat Config.MOVIES_PER_PAGE) ids)
                      (mkSys w (db s)
                         (outbox s ++
                          [reply_text (SearchingTitle (join (py " ") (arg :: more)))])
                         (calls s ++ [title_request (join (py " ") (arg :: more)) 1]))))))
      (snd (fetch_each (firstn (Z.to_nat Config.MOVIES_PER_PAGE) ids)
              (mkSys w (db s)
                 (outbox s ++
                  [reply_text (SearchingTitle (join (py " ") (arg :: more)))])
                 (calls s ++ [title_request (join (py " ") (arg :: more)) 1])))).
Proof.
  intros Hfind Hget Hpage Hne Hids.
  unfold movie_search_command. unfold bind at 1.
  rewrite (get_or_create_user_known from user s Hfind).
  cbv beta iota zeta. unfold bind at 1. unfold send at 1.
  cbv beta iota zeta. unfold bind at 1. unfold search_movies_by_title.
  rewrite fetch_json_run. cbn [world db outbox calls]. rewrite Hget.
  cbn [fst snd answer_of].
  destruct (getitem_get _ _ _ JNull Hpage) as [Hg Ht].
  unfold bind at 1. rewrite (no_results_run results (JList page)) by assumption.
  assert (Htruthy : truthy (JList page) = true)
    by (destruct page; [contradiction | reflexivity]).
  rewrite Htruthy. cbn [negb].
  unfold bind at 1. rewrite (first_movies_run results page) by assumption.
  unfold bind at 1.
  rewrite (collect_details_run _ _
             (Forall2_firstn _ (Z.to_nat Config.MOVIES_PER_PAGE) _ _ Hids)).
  reflexivity.
Qed.

(** X13. A title search of a known sender whose surviving records can all
    be stored, with numbers in their numeric columns, and shown: it
    returns; the history gets one entry of this
    user, of the kind [title], with the words of the command as its query
    and the number of survivors as its count; each survivor gets a row and
    a message, rows and messages in the order of the provider, after the
    message that the search has started. *)
Theorem title_search_delivers :
  forall (from : TgUser) (user : User) (arg : pystr) (more : list pystr)
         (s : Sys E) (results : json) (page ids : list json) (w : World)
         (replies : list reply),
    let text := join (py " ") (arg :: more) in
    let survivors :=
      filter truthy
        (fst (fetch_each (firstn (Z.to_nat Config.MOVIES_PER_PAGE) ids)
                (mkSys w (db s) (outbox s ++ [reply_text (SearchingTitle text)])
                   (calls s ++ [title_request text 1])))) in
    find_user (tg_id from) (db s) = Some user ->
    requests_get (title_request text 1) (world s) = (Some results, w) ->
    getitem results (py "results") = inr (JList page) ->
    page <> [] ->
    have_ids page ids ->
    Forall storable survivors ->
    forallb column_typed survivors = true ->
    traverse reply_for survivors = inr replies ->
    exists s' entry rows,
      movie_search_command from (arg :: more) s = (inr tt, s') /\
      searches (db s') = searches (db s) ++ [entry] /\
      search_user entry = user_id user /\
      search_type entry = py "title" /\
      query entry = text /\
      result_count entry = Z.of_nat (List.length survivors) /\
      movies (db s') = movies (db s) ++ rows /\
      Forall2 (row_of entry) rows survivors /\
      outbox s' = outbox s ++ reply_text (SearchingTitle text) :: replies.
Proof.
  intros from user arg more s results page ids w replies text survivors
    Hfind Hget Hpage Hne Hids Hst _ Hreplies.
  rewrite (title_search_to_save from user arg more s results page ids w)
    by assumption.
  fold text. fold survivors.
  match goal with |- context [bind _ _ ?s3] =>
    destruct (fetch_each_frame (firstn (Z.to_nat Config.MOVIES_PER_PAGE) ids)
                (mkSys w (db s) (outbox s ++ [reply_text (SearchingTitle text)])
                   (calls s ++ [title_request text 1])))
      as (Hdb & Hout & _ & _);
    pose proof (save_search_history_run user (py "title") text survivors s3) as Hrun;
    pose proof (proj2 (save_search_history_returns user (py "title") text
                         survivors s3) Hst) as Hok
  end.
  cbn zeta in Hrun. unfold bind.
  destruct (save_search_history user (py "title") text survivors _) as [r s4].
  cbn [fst snd] in *. subst r.
  destruct Hrun as (_ & Ho & _ & rows & Hdb4 & Hrows & _).
  rewrite (send_results_sent survivors replies s4 Hreplies).
  cbn [db outbox] in Hdb, Hout. rewrite Hdb in Hdb4, Hrows. rewrite Hout in Ho.
  eexists. eexists. exists rows. split; [reflexivity |].
  cbn [db outbox]. rewrite Hdb4, Ho. cbn [searches movies].
  repeat split; try reflexivity; try assumption.
  now rewrite <- app_assoc.
Qed.

(** X14. The title search writes before it sends: when the survivors can
    be stored, with numbers in their numeric columns, and one of them
    cannot be shown, the command raises, the messages of the
    survivors before it have been sent, and the entry and the rows of all
    the survivors are in the history all the same. *)
Theorem title_search_writes_before_sending :
  forall (from : TgUser) (user : User) (arg : pystr) (more : list pystr)
         (s : Sys E) (results : json) (page ids : list json) (w : World)
         (shown : list json) (bad : json) (later : list json)
         (replies : list reply) (e : exn),
    let text := join (py " ") (arg :: more) in
    let survivors :=
      filter truthy
        (fst (fetch_each (firstn (Z.to_nat Config.MOVIES_PER_PAGE) ids)
                (mkSys w (db s) (outbox s ++ [reply_text (SearchingTitle text)])
                   (calls s ++ [title_request text 1])))) in
    find_user (tg_id from) (db s) = Some user ->
    requests_get (title_request text 1) (world s) = (Some results, w) ->
    getitem results (py "results") = inr (JList page) ->
    page <> [] ->
    have_ids page ids ->
    Forall storable survivors ->
    forallb column_typed survivors = true ->
    survivors = shown ++ bad :: later ->
    traverse reply_for shown = inr replies ->
    reply_for bad = inl e ->
    exists s' entry rows,
      movie_search_command from (arg :: more) s = (inl e, s') /\
      searches (db s') = searches (db s) ++ [entry] /\
      result_count entry = Z.of_nat (List.length survivors) /\
      movies (db s') = movies (db s) ++ rows /\
      Forall2 (row_of entry) rows survivors /\
      outbox s' = outbox s ++ reply_text (SearchingTitle text) :: replies.
Proof.
  intros from user arg more s results page ids w shown bad later replies e
    text survivors Hfind Hget Hpage Hne Hids Hst _ Hsplit Hreplies Hbad.
  rewrite (title_search_to_save from user arg more s results page ids w)
    by assumption.
  fold text. fold survivors.
  match goal with |- context [bind _ _ ?s3] =>
    destruct (fetch_each_frame (firstn (Z.to_nat Config.MOVIES_PER_PAGE) ids)
                (mkSys w (db s) (outbox s ++ [reply_text (SearchingTitle text)])
                   (calls s ++ [title_request text 1])))
      as (Hdb & Hout & _ & _);
    pose proof (save_search_history_run user (py "title") text survivors s3) as Hrun;
    pose proof (proj2 (save_search_history_returns user (py "title") text
                         survivors s3) Hst) as Hok
  end.
  cbn zeta in Hrun. unfold bind.
  destruct (save_search_history user (py "title") text survivors _) as [r s4].
  cbn [fst snd] in *. subst r.
  destruct Hrun as (_ & Ho & _ & rows & Hdb4 & Hrows & _).
  replace (send_results survivors s4)
    with (send_results (shown ++ bad :: later) s4) by (now rewrite Hsplit).
  rewrite (send_results_stops shown replies bad later e s4 Hreplies Hbad).
  cbn [db outbox] in Hdb, Hout. rewrite Hdb in Hdb4, Hrows. rewrite Hout in Ho.
  eexists. eexists. exists rows. split; [reflexivity |].
  cbn [db outbox]. rewrite Hdb4, Ho. cbn [searches movies].
  repeat split; try reflexivity; try assumption.
  now rewrite <- app_assoc.
Qed.

End Delivery.

(** *** Candidates and records that are not well formed *)

Section Malformed.

Context {E : Env}.

Lemma collect_details_stops (good ids : list json) (bad : json) (rest : list json)
    (e : exn) :
  have_ids good ids ->
  getitem bad (py "id") = inl e ->
  forall (detailed_movies : list json) (s : Sys E),
    collect_details (good ++ bad :: rest) detailed_movies s =
    (inl e, snd (fetch_each ids s)).
Proof.
  intros Hids Hbad. induction Hids as [|movie id good ids Hid _ IH]; intros acc s.
  - cbn [app collect_details fetch_each snd]. unfold bind, lift. now rewrite Hbad.
  - cbn [app collect_details fetch_each]. unfold bind, lift, get_movie_details.
    rewrite Hid, fetch_json_run.
    destruct (requests_get (details_request id) (world s)) as [r w].
    cbn [fst snd]. rewrite IH.
    destruct (fetch_each ids _) as [answers s2]. reflexivity.
Qed.

(** X15. A candidate without an id among the first [MOVIES_PER_PAGE] of
    the page stops the title search: the exception of the lookup goes on,
    the details of the candidates before it have been asked for and are
    lost, nothing is written to the history and nothing is sent after the
    message that the search has started. *)
Theorem title_search_malformed_candidate :
  forall (from : TgUser) (arg : pystr) (more : list pystr) (s : Sys E)
         (results : json) (good ids : list json) (bad : json) (rest : list json)
         (w : World) (e : exn),
    let text := join (py " ") (arg :: more) in
    requests_get (title_request text 1) (world s) = (Some results, w) ->
    getitem results (py "results") = inr (JList (good ++ bad :: rest)) ->
    have_ids good ids ->
    (List.length good < Z.to_nat Config.MOVIES_PER_PAGE)%nat ->
    getitem bad (py "id") = inl e ->
    fst (movie_search_command from (arg :: more) s) = inl e /\
    same_history s (snd (movie_search_command from (arg :: more) s)) /\
    outbox (snd (movie_search_command from (arg :: more) s)) =
      outbox s ++ [reply_text (SearchingTitle text)] /\
    calls (snd (movie_search_command from (arg :: more) s)) =
      calls s ++ title_request text 1 :: map details_request ids.
Proof.
  intros from arg more s results good ids bad rest w e text
    Hget Hpage Hids Hlen Hbad.
  destruct (movie_search_command_run from arg more s) as (user & d & Hs & Hm & Heq).
  cbv zeta in Heq. fold text in Heq. rewrite Hget in Heq.
  cbn [fst snd answer_of] in Heq.
  destruct (getitem_get _ _ _ JNull Hpage) as [Hg Ht].
  unfold bind at 1 in Heq.
  rewrite (no_results_run results (JList (good ++ bad :: rest))) in Heq
    by assumption.
  assert (Htruthy : truthy (JList (good ++ bad :: rest)) = true)
    by (destruct good; reflexivity).
  rewrite Htruthy in Heq. cbn [negb] in Heq.
  unfold bind at 1 in Heq.
  rewrite (first_movies_run results (good ++ bad :: rest)) in Heq by assumption.
  assert (Hfirst : exists rest',
            firstn (Z.to_nat Config.MOVIES_PER_PAGE) (good ++ bad :: rest) =
            good ++ bad :: rest').
  { rewrite firstn_app, firstn_all2 by lia.
    destruct (Z.to_nat Config.MOVIES_PER_PAGE - List.length good)%nat
      as [|k] eqn:Hk; [lia |].
    cbn [firstn]. now eexists. }
  destruct Hfirst as [rest' Hfirst]. rewrite Hfirst in Heq.
  unfold bind at 1 in Heq.
  rewrite (collect_details_stops good ids bad rest' e Hids Hbad) in Heq.
  rewrite Heq.
  match goal with |- context [fetch_each ids ?s2] =>
    destruct (fetch_each_frame ids s2) as (Hdb & Hout & Hcalls & _)
  end.
  unfold same_history. cbn [fst snd db outbox calls] in *.
  split; [reflexivity |]. split; [split; rewrite Hdb; assumption |].
  split; [exact Hout |]. now rewrite Hcalls, <- app_assoc.
Qed.

(** X16. The quick search shows before it writes: when the record of the
    top candidate cannot be shown, the exception goes on and nothing is
    written to the history. *)
Theorem quick_search_shows_before_writing :
  forall (from : TgUser) (text : pystr) (s : Sys E) (page movie id : json)
         (e : exn),
    let details :=
      answer_of (fst (requests_get (details_request id)
         (snd (requests_get (title_request text 1) (world s))))) in
    2 < Z.of_nat (List.length text) ->
    getitem (answer_of (fst (requests_get (title_request text 1) (world s))))
      (py "results") = inr page ->
    truthy page = true ->
    getfirst page = inr movie ->
    getitem movie (py "id") = inr id ->
    truthy details = true ->
    format_movie_message details = inl e ->
    fst (handle_message from text s) = inl e /\
    same_history s (snd (handle_message from text s)) /\
    outbox (snd (handle_message from text s)) =
      outbox s ++ [reply_text (SearchingMovie text)].
Proof.
  intros from text s page movie id e details Hlen Hpage Htp Hfirst Hid Ht Hfmt.
  assert (Hlong : (Z.of_nat (List.length text) >? 2) = true)
    by (apply Z.gtb_lt; lia).
  destruct (handle_message_run from text s Hlong) as (user & d & Hs & Hm & Heq).
  cbv zeta in Heq.
  destruct (getitem_get _ _ _ JNull Hpage) as [Hget Htr].
  unfold bind at 1 in Heq.
  rewrite (no_results_run _ page) in Heq by assumption.
  rewrite Htp in Heq. cbn [negb] in Heq.
  unfold bind at 1 in Heq. unfold lift at 1 in Heq. rewrite Hpage in Heq.
  unfold bind at 1 in Heq. unfold lift at 1 in Heq. rewrite Hfirst in Heq.
  unfold bind at 1 in Heq. unfold lift at 1 in Heq. rewrite Hid in Heq.
  unfold bind at 1 in Heq. unfold get_movie_details in Heq.
  rewrite fetch_json_run in Heq. cbn [world db outbox calls] in Heq.
  fold details in Heq. rewrite Ht in Heq.
  unfold bind at 1 in Heq. unfold lift at 1 in Heq. rewrite Hfmt in Heq.
  rewrite Heq. unfold same_history. cbn [fst snd db outbox].
  split; [reflexivity |]. split; [split; assumption | reflexivity].
Qed.

Lemma lookup_setitem_same (key : pystr) (v : json) (d : dict) :
  lookup key (setitem key v d) = Some v.
Proof.
  induction d as [|[k v'] d IH]; cbn [setitem lookup].
  - now rewrite (proj2 (str_eqb_eq key key) eq_refl).
  - destruct (str_eqb key k) eqn:Hk; cbn [lookup]; now rewrite Hk.
Qed.

Lemma lookup_setitem_other (key other : pystr) (v : json) (d : dict) :
  other <> key -> lookup other (setitem key v d) = lookup other d.
Proof.
  intros Hne. induction d as [|[k v'] d IH]; cbn [setitem lookup].
  - destruct (str_eqb other key) eqn:Hk; [| reflexivity].
    apply str_eqb_eq in Hk. contradiction.
  - destruct (str_eqb key k) eqn:Hk; cbn [lookup].
    + apply str_eqb_eq in Hk. subst k.
      destruct (str_eqb other key) eqn:Ho; [| reflexivity].
      apply str_eqb_eq in Ho. contradiction.
    + now rewrite IH.
Qed.

(** X17. The genre of a discover search touches one parameter only.
    Without a genre, or with an empty one, the genre list is not asked for
    and the parameters stay as they are. With a genre the list is asked
    for once: an id that is not empty becomes [with_genres] and every
    other parameter keeps its value; no id, or an id that counts as empty
    such as 0, leaves the parameters as they are; an exception of the
    lookup goes on. *)
Theorem with_genre_sets_one_parameter :
  forall (genre : option pystr) (params : dict) (s : Sys E),
    (given genre = false -> with_genre genre params s = (inr params, s))
    /\
    (forall name, genre = Some name -> given genre = true ->
       match get_genre_id name s with
       | (inl e, s1) => with_genre genre params s = (inl e, s1)
       | (inr genre_id, s1) =>
           exists params',
             with_genre genre params s = (inr params', s1) /\
             (truthy genre_id = false -> params' = params) /\
             (truthy genre_id = true ->
              lookup (py "with_genres") params' = Some genre_id /\
              forall key, key <> py "with_genres" ->
                lookup key params' = lookup key params)
       end).
Proof.
  intros genre params s. split.
  - destruct genre as [[|c name]|]; [reflexivity | discriminate | reflexivity].
  - intros name -> Hgiven. destruct name as [|c name]; [discriminate |].
    unfold with_genre, bind, ret.
    destruct (get_genre_id (c :: name) s) as [[e|genre_id] s1]; [reflexivity |].
    eexists. split; [reflexivity |].
    destruct (truthy genre_id).
    + split; [discriminate |]. intros _.
      split; [apply lookup_setitem_same |].
      intros key Hkey. now apply lookup_setitem_other.
    + split; [reflexivity | discriminate].
Qed.

End Malformed.

(** *** What an update can cost and what it cannot undo *)

Section Bounds.

Context {E : Env}.

Lemma within_bind {A B : Type} (a b : nat) (Q : A -> Prop) (Q' : B -> Prop)
    (m : M E A) (k : A -> M E B) :
  yields (calls_within a) Q m ->
  (forall x, Q x -> yields (calls_within b) Q' (k x)) ->
  yields (calls_within (a + b)) Q' (bind m k).
Proof.
  apply yields_bind.
  - intros x y (extra & Hc & Hl). exists extra. split; [exact Hc | lia].
  - intros x y z (e1 & Hc1 & Hl1) (e2 & Hc2 & Hl2). exists (e1 ++ e2).
    split; [now rewrite Hc2, Hc1, app_assoc | rewrite length_app; lia].
Qed.

Lemma within_more {A : Type} (a b : nat) (Q : A -> Prop) (m : M E A) :
  (a <= b)%nat -> yields (calls_within a) Q m -> yields (calls_within b) Q m.
Proof.
  intros Hab. apply yields_rel.
  intros x y (extra & Hc & Hl). exists extra. split; [exact Hc | lia].
Qed.

Lemma silent_of_same_calls {A : Type} (m : M E A) :
  (forall s, calls (snd (m s)) = calls s) -> steps (calls_within 0) m.
Proof.
  intros H s. split; [| trivial]. exists []. rewrite app_nil_r, H.
  split; [reflexivity | cbn [List.length]; lia].
Qed.

Lemma silent_send (r : reply) : steps (calls_within 0) (send r).
Proof. now apply silent_of_same_calls. Qed.

Lemma silent_lift {A : Type} (r : exn + A) : steps (calls_within 0) (lift r).
Proof. now apply silent_of_same_calls. Qed.

Lemma silent_ret {A : Type} (a : A) : steps (calls_within 0) (ret a).
Proof. now apply silent_of_same_calls. Qed.

Lemma silent_get_or_create_user (from : TgUser) :
  steps (calls_within 0) (get_or_create_user from).
Proof.
  apply silent_of_same_calls. intros s.
  now destruct (get_or_create_user_run from s) as (user & d & -> & _).
Qed.

Lemma silent_no_results (results : json) : steps (calls_within 0) (no_results results).
Proof.
  apply silent_of_same_calls. intros s. now rewrite no_results_state.
Qed.

Lemma silent_first_movies (results : json) :
  yields (calls_within 0) (at_most (Z.to_nat Config.MOVIES_PER_PAGE))
    (first_movies results).
Proof.
  intros s. split; [| apply first_movies_at_most].
  exists []. rewrite app_nil_r. split; [| cbn [List.length]; lia].
  unfold first_movies, bind, lift.
  destruct (getitem results (py "results")) as [e|page]; [reflexivity |].
  destruct (getslice page Config.MOVIES_PER_PAGE) as [e|movies]; reflexivity.
Qed.

Lemma silent_save_search_history (user : User) (search_type query : pystr)
    (results : list json) :
  steps (calls_within 0) (save_search_history user search_type query results).
Proof.
  apply silent_of_same_calls. intros s.
  now destruct (save_search_history_same_calls user search_type query results s).
Qed.

Lemma silent_send_results (detailed_movies : list json) :
  steps (calls_within 0) (send_results detailed_movies).
Proof.
  apply silent_of_same_calls. intros s.
  now destruct (send_results_same_calls detailed_movies s).
Qed.

Lemma one_fetch (req : request) : steps (calls_within 1) (fetch req).
Proof.
  intros s. rewrite fetch_run. split; [| trivial].
  exists [req]. split; [reflexivity | cbn [List.length]; lia].
Qed.

Lemma one_fetch_json (req : request) : steps (calls_within 1) (fetch_json req).
Proof.
  intros s. rewrite fetch_json_run. split; [| trivial].
  exists [req]. split; [reflexivity | cbn [List.length]; lia].
Qed.

Lemma one_get_genre_id (genre_name : pystr) :
  steps (calls_within 1) (get_genre_id genre_name).
Proof.
  unfold get_genre_id.
  apply (within_bind 1 0) with (Q := fun _ => True); [apply one_fetch |].
  intros [body|] _; [| apply silent_ret].
  apply (within_bind 0 0) with (Q := fun _ => True); [apply silent_lift |].
  intros genres _.
  apply (within_bind 0 0) with (Q := fun _ => True); [apply silent_lift |].
  intros items _. apply silent_lift.
Qed.

Lemma one_with_genre (genre : option pystr) (params : dict) :
  steps (calls_within 1) (with_genre genre params).
Proof.
  destruct genre as [[|c name]|];
    try (apply (within_more 0 1); [lia | apply silent_ret]).
  unfold with_genre.
  apply (within_bind 1 0) with (Q := fun _ => True); [apply one_get_genre_id |].
  intros genre_id _. apply silent_ret.
Qed.

Lemma collect_details_within (candidates : list json) :
  forall detailed_movies,
    steps (calls_within (List.length candidates))
      (collect_details candidates detailed_movies).
Proof.
  induction candidates as [|movie rest IH]; intros acc; [apply silent_ret |].
  cbn [collect_details List.length].
  apply (within_bind 0 (S (List.length rest))) with (Q := fun _ => True);
    [apply silent_lift |].
  intros id _.
  apply (within_bind 1 (List.length rest)) with (Q := fun _ => True);
    [apply one_fetch_json |].
  intros details _. apply IH.
Qed.

Lemma results_tail_within (user : User) (search_type query : pystr)
    (not_found : text) (results : json) :
  steps (calls_within (Z.to_nat Config.MOVIES_PER_PAGE))
    (bind (no_results results) (fun empty =>
       if empty then send (reply_text not_found)
       else
         bind (first_movies results) (fun movies =>
         bind (collect_details movies []) (fun detailed_movies =>
         bind (save_search_history user search_type query detailed_movies) (fun _ =>
         send_results detailed_movies))))).
Proof.
  apply (within_bind 0 _) with (Q := fun _ => True); [apply silent_no_results |].
  intros [|] _; [apply (within_more 0); [lia | apply silent_send] |].
  apply (within_bind 0 _) with (Q := at_most (Z.to_nat Config.MOVIES_PER_PAGE));
    [apply silent_first_movies |].
  intros movies Hmovies.
  apply (within_more (List.length movies + 0)).
  { unfold at_most in Hmovies. revert Hmovies.
    change (Z.to_nat Config.MOVIES_PER_PAGE) with 5%nat. cbn [Nat.add]. lia. }
  apply within_bind with (Q := fun _ => True); [apply collect_details_within |].
  intros detailed_movies _.
  apply (within_bind 0 0) with (Q := fun _ => True);
    [apply silent_save_search_history |].
  intros _ _. apply silent_send_results.
Qed.

Lemma clear_history_same_calls (from : TgUser) (s : Sys E) :
  calls (snd (clear_history from s)) = calls s.
Proof.
  destruct (find_user (tg_id from) (db s)) as [user|] eqn:Hfind.
  - now rewrite (clear_history_run from user s Hfind).
  - unfold clear_history, User_get, bind, get_db. cbv beta iota zeta.
    now rewrite Hfind.
Qed.

Lemma show_detailed_history_same_calls (from : TgUser) (days : Z) (s : Sys E) :
  calls (snd (show_detailed_history from days s)) = calls s.
Proof.
  unfold show_detailed_history, User_get, bind, get_db, clock.
  cbv beta iota zeta.
  destruct (find_user (tg_id from) (db s)); [| reflexivity].
  unfold ret. cbv beta iota zeta.
  match goal with |- context [order_by_created_at_desc ?l] =>
    destruct (order_by_created_at_desc l) end; reflexivity.
Qed.

(** X18. No update makes the bot call the provider more than
    [MOVIES_PER_PAGE] + 2 times (the genre list, one search and the
    details of one page); a title search costs at most [MOVIES_PER_PAGE]
    + 1 calls, a text message at most two, and the commands [start],
    [help] and [history] and the callbacks cost none. No call is ever
    taken off the record. *)
Theorem provider_calls_bounded :
  forall (from : TgUser) (u : update) (s : Sys E),
    calls_within (call_budget u) s (snd (dispatch from u s)).
Proof.
  intros from u s.
  cut (steps (calls_within (call_budget u)) (dispatch from u));
    [intros H; apply H |].
  destruct u; cbn [dispatch call_budget].
  - unfold start_command.
    apply (within_bind 0 0) with (Q := fun _ => True);
      [apply silent_get_or_create_user | intros _ _; apply silent_send].
  - apply silent_send.
  - unfold history.
    apply (within_bind 0 0) with (Q := fun _ => True);
      [apply silent_get_or_create_user | intros user _].
    apply silent_of_same_calls. intros s0. unfold bind, get_db.
    cbv beta iota zeta. destruct (recent_searches user (db s0)); reflexivity.
  - unfold movie_search_command.
    apply (within_bind 0 _) with (Q := fun _ => True);
      [apply silent_get_or_create_user | intros user _].
    destruct args as [|arg more]; [apply (within_more 0); [cbv; lia | apply silent_send] |].
    apply (within_bind 0 _) with (Q := fun _ => True);
      [apply silent_send | intros _ _].
    apply (within_more (1 + Z.to_nat Config.MOVIES_PER_PAGE)); [cbv; lia |].
    apply within_bind with (Q := fun _ => True);
      [apply one_fetch_json | intros results _].
    apply results_tail_within.
  - unfold movie_by_rating_command.
    apply (within_bind 0 _) with (Q := fun _ => True);
      [apply silent_get_or_create_user | intros user _].
    destruct args as [|arg more]; [apply (within_more 0); [cbv; lia | apply silent_send] |].
    destruct (float_of_str arg) as [min_rating|];
      [| apply (within_more 0); [cbv; lia | apply silent_send]].
    apply (within_bind 0 _) with (Q := fun _ => True);
      [apply silent_send | intros _ _].
    apply (within_more (2 + Z.to_nat Config.MOVIES_PER_PAGE)); [cbv; lia |].
    apply within_bind with (Q := fun _ => True); [| intros results _].
    + unfold search_movies_by_rating.
      apply (within_bind 1 1) with (Q := fun _ => True);
        [apply one_with_genre | intros params _; apply one_fetch_json].
    + apply results_tail_within.
  - unfold low_budget_movie_command, handle_budget_search.
    apply (within_bind 0 _) with (Q := fun _ => True);
      [apply silent_get_or_create_user | intros user _]. cbv zeta.
    apply (within_bind 0 _) with (Q := fun _ => True);
      [apply silent_send | intros _ _].
    apply (within_more (2 + Z.to_nat Config.MOVIES_PER_PAGE)); [cbv; lia |].
    apply within_bind with (Q := fun _ => True); [| intros results _].
    + unfold search_movies_by_budget.
      apply (within_bind 1 1) with (Q := fun _ => True);
        [apply one_with_genre | intros params _; apply one_fetch_json].
    + apply results_tail_within.
  - unfold high_budget_movie_command, handle_budget_search.
    apply (within_bind 0 _) with (Q := fun _ => True);
      [apply silent_get_or_create_user | intros user _]. cbv zeta.
    apply (within_bind 0 _) with (Q := fun _ => True);
      [apply silent_send | intros _ _].
    apply (within_more (2 + Z.to_nat Config.MOVIES_PER_PAGE)); [cbv; lia |].
    apply within_bind with (Q := fun _ => True); [| intros results _].
    + unfold search_movies_by_budget.
      apply (within_bind 1 1) with (Q := fun _ => True);
        [apply one_with_genre | intros params _; apply one_fetch_json].
    + apply results_tail_within.
  - unfold handle_callback.
    apply (within_bind 0 0) with (Q := fun _ => True);
      [apply silent_send | intros _ _].
    destruct (startswith (py "history_") data).
    + destruct (nth_error (split 95 data) 1) as [piece|];
        [| now apply silent_of_same_calls].
      destruct (int_of_str piece) as [days|]; [| now apply silent_of_same_calls].
      apply silent_of_same_calls, show_detailed_history_same_calls.
    + destruct (str_eqb data (py "clear_history")); [| apply silent_ret].
      apply silent_of_same_calls, clear_history_same_calls.
  - unfold handle_message.
    apply (within_bind 0 2) with (Q := fun _ => True);
      [apply silent_get_or_create_user | intros user _].
    destruct (Z.of_nat (List.length message) >? 2);
      [| apply (within_more 0); [cbv; lia | apply silent_ret]].
    apply (within_bind 0 2) with (Q := fun _ => True);
      [apply silent_send | intros _ _].
    apply (within_bind 1 1) with (Q := fun _ => True);
      [apply one_fetch_json | intros results _].
    apply (within_bind 0 1) with (Q := fun _ => True);
      [apply silent_no_results |].
    intros [|] _; [apply (within_more 0); [cbv; lia | apply silent_send] |].
    do 3 (apply (within_bind 0 1) with (Q := fun _ => True);
            [apply silent_lift | intros ? _]).
    apply (within_bind 1 0) with (Q := fun _ => True);
      [apply one_fetch_json | intros details _].
    destruct (truthy details); [| apply silent_send].
    do 2 (apply (within_bind 0 0) with (Q := fun _ => True);
            [apply silent_lift | intros ? _]).
    apply (within_bind 0 0) with (Q := fun _ => True);
      [apply silent_save_search_history | intros _ _].
    match goal with |- context [if ?b then _ else _] => destruct b end;
      apply silent_send.
Qed.

End Bounds.

(** *** What is never deleted *)

Section Growth.

Context {E : Env}.

Lemma kept_grows : kept (grows (E := E)).
Proof.
  split; unfold grows.
  - intros x. split; exists []; now rewrite app_nil_r.
  - intros x y z [[u1 Hu1] [r1 Hr1]] [[u2 Hu2] [r2 Hr2]]. split.
    + exists (u1 ++ u2). now rewrite Hu2, Hu1, app_assoc.
    + exists (r1 ++ r2). now rewrite Hr2, Hr1, app_assoc.
Qed.

Lemma same_db_grows (x y : Sys E) : same_db x y -> grows x y.
Proof.
  unfold same_db, grows. intros ->. split; exists []; now rewrite app_nil_r.
Qed.

Lemma save_search_history_grows (user : User) (search_type query : pystr)
    (results : list json) :
  steps grows (save_search_history user search_type query results).
Proof.
  intros s. split; [| trivial].
  pose proof (save_search_history_run user search_type query results s) as H.
  cbn zeta in H. destruct H as (_ & _ & _ & H). unfold grows.
  destruct (fst (save_search_history user search_type query results s)).
  { rewrite H. split; exists []; now rewrite app_nil_r. }
  destruct H as (rows & -> & _). cbn [users movies].
  split; [exists []; now rewrite app_nil_r | now exists rows].
Qed.

Lemma get_or_create_user_grows (from : TgUser) (s s0 : Sys E) (user : User) :
  get_or_create_user from s = (inr user, s0) -> grows s s0.
Proof.
  intros Hrun.
  destruct (get_or_create_user_cases from s)
    as (user' & s0' & Hrun' & _ & _ & [_ Hm] & _ & _ & _ & Hknown & Hnew).
  rewrite Hrun in Hrun'. injection Hrun' as <- <-. split.
  - destruct (find_user (tg_id from) (db s)) as [known|] eqn:Hfind.
    + destruct (Hknown known eq_refl) as [_ ->]. exists []. now rewrite app_nil_r.
    + destruct (Hnew eq_refl) as [-> _]. now eexists.
  - exists []. now rewrite app_nil_r.
Qed.

Lemma dispatch_grows (from : TgUser) (u : update) (s : Sys E) :
  grows s (snd (dispatch from u s)).
Proof.
  pose proof kept_grows as [Hrefl Htrans].
  assert (Hafter : forall kind s',
            (exists user s0,
                get_or_create_user from s = (inr user, s0) /\
                forall R : Sys E -> Sys E -> Prop,
                  kept R ->
                  (forall x y, same_db x y -> R x y) ->
                  (forall q l, steps R (save_search_history user kind q l)) ->
                  R s0 s') ->
            grows s s').
  { intros kind s' (user & s0 & Hrun & Hrest).
    apply Htrans with s0; [now apply (get_or_create_user_grows from s s0 user) |].
    apply Hrest; auto using kept_grows, same_db_grows.
    intros q l. apply save_search_history_grows. }
  destruct u; cbn [dispatch].
  - unfold start_command, bind.
    destruct (get_or_create_user from s) as [[e|user] s0] eqn:Hrun.
    + destruct (get_or_create_user_run from s) as (? & ? & H & _). congruence.
    + now apply (get_or_create_user_grows from s s0 user).
  - apply same_db_grows. reflexivity.
  - unfold history, bind.
    destruct (get_or_create_user from s) as [[e|user] s0] eqn:Hrun.
    + destruct (get_or_create_user_run from s) as (? & ? & H & _). congruence.
    + apply (get_or_create_user_grows from s s0 user) in Hrun.
      unfold get_db. cbv beta iota zeta.
      destruct (recent_searches user (db s0)); exact Hrun.
  - apply (Hafter (py "title")), movie_search_command_after_user.
  - apply (Hafter (py "rating")), movie_by_rating_command_after_user.
  - apply (Hafter (py "budget_low")),
      (handle_budget_search_after_user from args (py "low")).
  - apply (Hafter (py "budget_high")),
      (handle_budget_search_after_user from args (py "high")).
  - unfold handle_callback, bind, send. cbv beta iota zeta.
    destruct (startswith (py "history_") data).
    + destruct (nth_error (split 95 data) 1) as [piece|];
        [| apply same_db_grows; reflexivity].
      destruct (int_of_str piece) as [days|]; [| apply same_db_grows; reflexivity].
      apply same_db_grows.
      match goal with |- same_db _ (snd (show_detailed_history from days ?s1)) =>
        unfold same_db, show_detailed_history, User_get, bind, get_db, clock
      end.
      cbv beta iota zeta. cbn [db].
      destruct (find_user (tg_id from) (db s)); [| reflexivity].
      unfold ret. cbv beta iota zeta. cbn [db world].
      match goal with |- context [order_by_created_at_desc ?l] =>
        destruct (order_by_created_at_desc l) end; reflexivity.
    + destruct (str_eqb data (py "clear_history")); [| apply same_db_grows; reflexivity].
      destruct (find_user (tg_id from) (db s)) as [user|] eqn:Hfind.
      * match goal with |- grows _ (snd (clear_history from ?s1)) =>
          rewrite (clear_history_run from user s1 Hfind)
        end.
        split; exists []; cbn [snd db users movies]; now rewrite app_nil_r.
      * unfold clear_history, User_get, bind, get_db. cbv beta iota zeta.
        cbn [db]. rewrite Hfind. apply same_db_grows. reflexivity.
  - apply (Hafter (py "title")), handle_message_after_user.
Qed.

(** X19. The bot never deletes or changes a user or a movie row: after
    any updates the two tables begin with the rows they had, in the same
    order, and what is new comes after them. *)
Theorem users_and_movie_rows_only_grow :
  forall (updates : list (TgUser * update)) (s : Sys E),
    grows s (run_all updates s).
Proof.
  induction updates as [|[from u] rest IH]; intros s; [apply kept_grows |].
  cbn [run_all]. apply (proj2 kept_grows) with (snd (dispatch from u s));
    [apply dispatch_grows | apply IH].
Qed.

(** X20. A sender the bot sees for the first time gets a user row and is
    told that the history is empty, as long as every entry of the history
    belongs to a user of the table. *)
Theorem history_of_new_sender :
  forall (from : TgUser) (s : Sys E),
    keys_ok (db s) ->
    find_user (tg_id from) (db s) = None ->
    exists user s',
      history from s = (inr tt, s') /\
      users (db s') = users (db s) ++ [user] /\
      telegram_id user = tg_id from /\
      searches (db s') = searches (db s) /\
      outbox s' = outbox s ++ [reply_text HistoryEmpty].
Proof.
  intros from s (_ & _ & _ & _ & Hown) Hfind.
  destruct (get_or_create_user_cases from s)
    as (user & s0 & Hrun & Htid & _ & [Hs _] & _ & Hout & _ & _ & Hnew).
  destruct (Hnew Hfind) as [Husers Hfresh].
  unfold history, bind. rewrite Hrun. unfold get_db. cbv beta iota zeta.
  assert (Hnone : recent_searches user (db s0) = []).
  { unfold recent_searches, searches_of. rewrite Hs, filter_none; [reflexivity |].
    intros h Hh. apply Z.eqb_neq. intros Heq. apply Hfresh.
    rewrite <- Heq. now apply Hown. }
  rewrite Hnone. exists user. eexists. split; [reflexivity |].
  cbn [send snd db outbox]. rewrite Hout. repeat split; assumption.
Qed.

Lemma find_genre_stops (genre_name : pystr) (before : list (Z * pystr))
    (bad : json) (rest : list json) (e : exn) :
  (forall g, In g before -> ~ names genre_name g) ->
  getitem bad (py "name") = inl e ->
  find_genre genre_name (map genre_json before ++ bad :: rest) = inl e.
Proof.
  intros Hno Hbad.
  induction before as [|g before IH]; cbn [map app find_genre].
  - now rewrite Hbad.
  - change (getitem (genre_json g) (py "name")) with (@inr exn json (JStr (snd g))).
    cbn [and_then].
    destruct (contains (str_lower genre_name) (str_lower (snd g))) eqn:Hc.
    + apply names_iff in Hc. now destruct (Hno g (or_introl eq_refl)).
    + apply IH. intros g' Hg'. apply Hno. now right.
Qed.

(** X21. What the genre lookup does with an answer that is not a genre
    list: when the provider fails, or answers with an object that has no
    key [genres], it resolves to [None]; an answer that is no object
    raises [AttributeError]; a genre without a name raises when the genres
    before it do not match. In every case the provider was called exactly
    once and nothing else changed. *)
Theorem get_genre_id_on_bad_answers :
  forall (genre_name : pystr) (s : Sys E),
    (calls (snd (get_genre_id genre_name s)) = calls s ++ [genre_list_request] /\
     db (snd (get_genre_id genre_name s)) = db s /\
     outbox (snd (get_genre_id genre_name s)) = outbox s)
    /\
    (fst (requests_get genre_list_request (world s)) = None ->
     fst (get_genre_id genre_name s) = inr JNull)
    /\
    (forall body,
       fst (requests_get genre_list_request (world s)) = Some (JDict body) ->
       lookup (py "genres") body = None ->
       fst (get_genre_id genre_name s) = inr JNull)
    /\
    (forall body,
       fst (requests_get genre_list_request (world s)) = Some body ->
       (forall d, body <> JDict d) ->
       fst (get_genre_id genre_name s) = inl AttributeError)
    /\
    (forall body before bad rest e,
       fst (requests_get genre_list_request (world s)) = Some (JDict body) ->
       lookup (py "genres") body =
         Some (JList (map genre_json before ++ bad :: rest)) ->
       (forall g, In g before -> ~ names genre_name g) ->
       getitem bad (py "name") = inl e ->
       fst (get_genre_id genre_name s) = inl e).
Proof.
  intros genre_name s.
  unfold get_genre_id, bind. rewrite fetch_run.
  split; [| split; [| split; [| split]]].
  - destruct (fst (requests_get genre_list_request (world s))) as [body|];
      [| repeat split].
    unfold lift.
    destruct (get body (py "genres") (JList [])) as [e|genres]; [repeat split |].
    destruct (iter genres) as [e|items]; repeat split.
  - intros ->. reflexivity.
  - intros body -> Hnone. unfold lift. cbn [get]. rewrite Hnone. reflexivity.
  - intros body -> Hnot. unfold lift.
    destruct body; try reflexivity. now destruct (Hnot d).
  - intros body before bad rest e -> Hgenres Hno Hbad. unfold lift.
    cbn [get]. rewrite Hgenres. cbn [iter fst].
    now apply find_genre_stops.
Qed.

End Growth.

(** *** Discover searches that find nothing *)

Section Discover.

Context {E : Env}.

Lemma no_results_nothing_found (r : option json) (s : Sys E) :
  nothing_found r = true -> no_results (answer_of r) s = (inr true, s).
Proof.
  unfold no_results, bind, lift, ret, nothing_found.
  destruct r as [body|]; [| reflexivity]. cbn [answer_of].
  destruct body as [| b | z | f | str | l | d]; intros H;
    try (apply Bool.negb_true_iff in H; now rewrite H).
  destruct (truthy (JDict d)); [| reflexivity]. cbn [get].
  unfold or_default in H. now rewrite H.
Qed.

(** X22. A discover search without a genre that finds nothing: the budget
    and the rating search ask the provider once, with the parameters of
    the search and no genre, tell the sender that they search and then
    that no movie was found, return, and leave the history as it was. A
    budget kind other than [low] sorts by falling budget. *)
Theorem discover_search_nothing_found :
  forall (from : TgUser) (s : Sys E),
    (forall budget_type,
       let req := mkRequest DiscoverMovie (budget_params budget_type 1) in
       (budget_type <> py "low" ->
        lookup (py "sort_by") (params req) = Some (JStr (py "budget.desc"))) /\
       (nothing_found (fst (requests_get req (world s))) = true ->
        exists s',
          handle_budget_search from [] budget_type s = (inr tt, s') /\
          calls s' = calls s ++ [req] /\
          same_history s s' /\
          outbox s' = outbox s ++
            [reply_text (SearchingBudget budget_type None);
             reply_text MoviesNotFoundParams]))
    /\
    (forall arg min_rating,
       let req := mkRequest DiscoverMovie (rating_params min_rating 1) in
       float_of_str arg = Some min_rating ->
       nothing_found (fst (requests_get req (world s))) = true ->
       exists s',
         movie_by_rating_command from [arg] s = (inr tt, s') /\
         calls s' = calls s ++ [req] /\
         same_history s s' /\
         outbox s' = outbox s ++
           [reply_text (SearchingRating min_rating None);
            reply_text MoviesNotFoundParams]).
Proof.
  intros from s.
  destruct (get_or_create_user_run from s) as (user & d & Hrun & Hs & Hm & _).
  split.
  - intros budget_type req. split.
    + intros Hlow. cbn [params req budget_params lookup].
      destruct (str_eqb budget_type (py "low")) eqn:Heq.
      * apply str_eqb_eq in Heq. contradiction.
      * reflexivity.
    + intros Hnone. unfold handle_budget_search. unfold bind at 1.
      rewrite Hrun. cbv zeta. unfold bind at 1. unfold send at 1.
      cbv beta iota zeta. unfold bind at 1.
      unfold search_movies_by_budget, with_genre. unfold bind at 1.
      unfold ret at 1. cbv beta iota zeta. rewrite fetch_json_run.
      cbn [world db outbox calls]. fold req.
      unfold bind. rewrite (no_results_nothing_found _ _ Hnone).
      eexists. split; [reflexivity |].
      cbn [send calls db outbox]. unfold same_history.
      repeat split; try assumption. now rewrite <- app_assoc.
  - intros arg min_rating req Hfloat Hnone.
    unfold movie_by_rating_command. unfold bind at 1.
    rewrite Hrun, Hfloat. cbv zeta. unfold bind at 1. unfold send at 1.
    cbv beta iota zeta. unfold bind at 1.
    unfold search_movies_by_rating, with_genre. unfold bind at 1.
    unfold ret at 1. cbv beta iota zeta. rewrite fetch_json_run.
    cbn [world db outbox calls]. fold req.
    unfold bind. rewrite (no_results_nothing_found _ _ Hnone).
    eexists. split; [reflexivity |].
    cbn [send calls db outbox]. unfold same_history.
    repeat split; try assumption. now rewrite <- app_assoc.
Qed.

End Discover.

(** ** Runs on the scripted provider *)

#[local] Existing Instance Script.env.

(** The scenario of the specification: three candidates, all details
    fetched, give one entry that counts three results and three rows in
    the order of the provider. *)
Example title_search_three_candidates :
  map result_count
    (searches (db (snd (movie_search_command Script.alice [Script.matrix]
                          (Script.start Script.three_hits empty_db))))) = [3] /\
  map movie_id
    (movies (db (snd (movie_search_command Script.alice [Script.matrix]
                        (Script.start Script.three_hits empty_db))))) =
    [JInt 1; JInt 2; JInt 3].
Proof. vm_compute. split; reflexivity. Qed.

(** The example of the specification: the beginning of a genre name in
    lower case resolves to this genre. *)
Example genre_fantast :
  fst (get_genre_id Script.fantast
         (Script.start [Some (JDict Script.genre_list)] empty_db)) = inr (JInt 878).
Proof. reflexivity. Qed.

(** A write that fails at its second movie leaves the tables as they
    were, although the loop had already inserted the entry and a row. *)
Example snapshot_write_rolls_back :
  save_search_history Script.alice_row (py "title") Script.matrix Script.mixed
    Script.before_save = (inl IntegrityError, Script.before_save) /\
  List.length
    (movies (db (snd (bind (SearchHistory_create Script.alice_row (py "title")
                              Script.matrix 2)
                        (fun entry => create_movie_results entry Script.mixed)
                        Script.before_save)))) = 1%nat.
Proof. vm_compute. split; reflexivity. Qed.

(** C1, at a concrete input. The page has two candidates and both detail
    fetches fail: the title search sends nothing after its first message
    and writes an entry that counts no result. *)
Theorem title_search_all_details_fail :
  fst (movie_search_command Script.alice [Script.matrix]
         (Script.start Script.no_details empty_db)) = inr tt /\
  outbox (snd (movie_search_command Script.alice [Script.matrix]
                 (Script.start Script.no_details empty_db))) =
    [reply_text (SearchingTitle Script.matrix)] /\
  searches (db (snd (movie_search_command Script.alice [Script.matrix]
                       (Script.start Script.no_details empty_db)))) =
    [mkSearchHistory 1 1 (py "title") Script.matrix 0 3] /\
  movies (db (snd (movie_search_command Script.alice [Script.matrix]
                     (Script.start Script.no_details empty_db)))) = [].
Proof. vm_compute. repeat split. Qed.

(** C3, as the claim has it, fails: after the history is cleared, the row
    of the deleted entry is still in the table and still points to it. *)
Lemma clear_history_cascade_counterexample :
  In Script.matrix_entry (searches (db Script.after_search)) /\
  ~ In Script.matrix_entry (searches (db Script.after_clear)) /\
  In Script.matrix_row (movies (db Script.after_clear)) /\
  owned_by Script.matrix_entry Script.matrix_row = true.
Proof.
  vm_compute. split; [left; reflexivity |]. split; [intros [] |].
  split; [left; reflexivity | reflexivity].
Qed.

(** C2, as the claim has it, fails: Alice searches, clears her history and
    searches again. SQLite gives the new entry the key of the deleted one,
    and the row the first search left behind is owned by the new entry: it
    counts one result and owns two rows. *)
Lemma result_count_stale_rows_counterexample :
  fst (movie_search_command Script.alice [Script.matrix]
         (Script.again Script.one_hit Script.after_clear)) = inr tt /\
  exists entry,
    searches (db Script.after_clear) = [] /\
    searches (db Script.searched_again) = [entry] /\
    result_count entry = 1 /\
    List.length (movies_of entry (db Script.searched_again)) = 2%nat.
Proof.
  split; [vm_compute; reflexivity |].
  eexists. vm_compute. repeat split.
Qed.

(** C7, as the claim has it, fails in two ways. The details of the second
    of three candidates are fetched and are an empty object: all three
    fetches succeed and two records are kept. And with one failure among
    five candidates, a survivor without an id makes the write fail: the
    command raises and no row is stored. *)
Lemma detail_fan_out_counterexample :
  (Forall (fun a => a <> None) Script.empty_second /\
   fst (collect_details (map candidate_json [11; 12; 13]) []
          (Script.start Script.empty_second Script.known_db)) =
     inr [Script.details_json 11 (py "a"); Script.details_json 13 (py "c")])
  /\
  (fst (movie_search_command Script.alice [Script.matrix]
          (Script.start Script.five_hits_one_bad Script.known_db)) =
     inl IntegrityError /\
   movies (db (snd (movie_search_command Script.alice [Script.matrix]
                      (Script.start Script.five_hits_one_bad Script.known_db)))) = []).
Proof.
  split; split; try (vm_compute; reflexivity).
  repeat constructor; discriminate.
Qed.

(** C10, as the claim has it, fails: Alice searches, clears her history and
    sends the plain message. The entry the quick search writes counts one
    result and owns two rows: its own and the one left behind under the
    same key. *)
Lemma quick_search_stale_rows_counterexample :
  fst (handle_message Script.alice Script.matrix
         (Script.again Script.one_hit Script.after_clear)) = inr tt /\
  exists entry,
    searches (db Script.asked_again) = [entry] /\
    result_count entry = 1 /\
    List.length (movies_of entry (db Script.asked_again)) = 2%nat.
Proof.
  split; [vm_compute; reflexivity |].
  eexists. vm_compute. repeat split.
Qed.

(** After one search, two movies saved for Alice: the second entry counts
    two results and owns two rows, beside the row of the first entry. *)
Lemma save_search_history_result_count_witness :
  exists s' entry rows,
    save_search_history Script.alice_row (py "title") Script.matrix
      Script.two_movies Script.after_search = (inr tt, s') /\
    searches (db s') = searches (db Script.after_search) ++ [entry] /\
    List.length (movies (db s')) = 3%nat /\
    result_count entry = 2 /\
    movies_of entry (db s') = rows /\
    result_count entry = Z.of_nat (List.length (movies_of entry (db s'))).
Proof.
  assert (Hrun : save_search_history Script.alice_row (py "title") Script.matrix
                   Script.two_movies Script.after_search =
                 (inr tt,
                  snd (save_search_history Script.alice_row (py "title")
                         Script.matrix Script.two_movies Script.after_search)))
    by (vm_compute; reflexivity).
  assert (Hrefs : references_ok (db Script.after_search)).
  { intros r Hin. vm_compute in Hin. destruct Hin as [<- | []].
    vm_compute. left. reflexivity. }
  destruct (save_search_history_result_count _ _ _ _ _ _ Hrun)
    as (entry & rows & Hs & _ & Hm & Hc & Hrows & _ & _ & _ & Hall).
  destruct (Hall Hrefs) as [Hown Hcount].
  eexists. exists entry, rows. split; [exact Hrun |]. split; [exact Hs |].
  split; [rewrite Hm, length_app, (Forall2_length Hrows); reflexivity |].
  split; [rewrite Hc, (Forall2_length Hrows); reflexivity |].
  split; [exact Hown | exact Hcount].
Defined.

(** Alice clears her history after one search: one entry is reported
    deleted and her recent searches are empty. *)
Lemma clear_history_count_witness :
  find_user (tg_id Script.alice) (db Script.after_search) = Some Script.alice_row /\
  exists s',
    clear_history Script.alice Script.after_search = (inr tt, s') /\
    outbox s' = outbox Script.after_search ++ [edit_message_text (HistoryCleared 1)] /\
    recent_searches Script.alice_row (db s') = [].
Proof.
  assert (Hfind : find_user (tg_id Script.alice) (db Script.after_search) =
                  Some Script.alice_row) by (vm_compute; reflexivity).
  split; [exact Hfind |].
  destruct (clear_history_count Script.alice Script.alice_row Script.after_search Hfind)
    as (s' & Hrun & Hout & _ & _ & Hrecent & _).
  exists s'. split; [exact Hrun |]. split; [exact Hout | exact Hrecent].
Defined.

(** The same run leaves the table of movie rows as it was. *)
Lemma clear_history_keeps_movie_rows_witness :
  find_user (tg_id Script.alice) (db Script.after_search) = Some Script.alice_row /\
  exists s',
    clear_history Script.alice Script.after_search = (inr tt, s') /\
    movies (db s') = movies (db Script.after_search).
Proof.
  assert (Hfind : find_user (tg_id Script.alice) (db Script.after_search) =
                  Some Script.alice_row) by (vm_compute; reflexivity).
  split; [exact Hfind |].
  destruct (clear_history_keeps_movie_rows Script.alice Script.alice_row
              Script.after_search Hfind) as (s' & Hrun & Hm & _).
  exists s'. split; [exact Hrun | exact Hm].
Defined.

(** The Russian genre list: [fantast] resolves to the second genre;
    [western] resolves to nothing and the rating search goes on without
    a genre. *)
Lemma genre_resolution_first_match_witness :
  (exists result,
     get_genre_id Script.fantast
       (Script.start [Some (JDict Script.genre_list)] empty_db) =
       (inr result,
        mkSys (E := Script.env) (Script.mkWorld 1 []) empty_db []
          [genre_list_request]) /\
     ((exists pre g post,
          Script.genres = pre ++ g :: post /\ names Script.fantast g /\
          (forall g', In g' pre -> ~ names Script.fantast g') /\
          result = JInt (fst g))
      \/
      ((forall g, In g Script.genres -> ~ names Script.fantast g) /\ result = JNull)))
  /\
  search_movies_by_rating (Finite (inject_Z 8)) (Some Script.western) 1
    (Script.start [Some (JDict Script.genre_list)] empty_db) =
  search_movies_by_rating (Finite (inject_Z 8)) None 1
    (snd (get_genre_id Script.western
            (Script.start [Some (JDict Script.genre_list)] empty_db))).
Proof.
  split.
  - apply (proj1 (genre_resolution_first_match Script.fantast
                    (Script.start [Some (JDict Script.genre_list)] empty_db))
             Script.genres Script.genre_list (Script.mkWorld 1 []));
      reflexivity.
  - apply (proj2 (genre_resolution_first_match Script.western
                    (Script.start [Some (JDict Script.genre_list)] empty_db))
             eq_refl eq_refl (Finite (inject_Z 8)) (py "low") 1).
Defined.

(** A page of seven candidates: the details of the first five are asked
    for, in order. *)
Lemma page_limit_takes_prefix_witness :
  calls (snd (movie_search_command Script.alice [Script.matrix]
                (Script.start Script.seven_hits empty_db))) =
  title_request Script.matrix 1 ::
    map details_request [JInt 11; JInt 12; JInt 13; JInt 14; JInt 15].
Proof.
  assert (Hids : have_ids (map candidate_json Script.seven) (map JInt Script.seven))
    by (repeat constructor).
  assert (Hne : map candidate_json Script.seven <> []) by discriminate.
  exact (proj2 (proj2 (proj2 (proj2
    (page_limit_takes_prefix Script.alice Script.matrix []
       (Script.start Script.seven_hits empty_db)
       (page_json Script.seven) (map candidate_json Script.seven)
       (map JInt Script.seven) (Script.mkWorld 1 (tl Script.seven_hits))
       eq_refl eq_refl Hne Hids))))).
Defined.

(** Five candidates, the third fetch fails: four rows and an entry that
    counts four. *)
Lemma detail_fan_out_drops_failures_witness :
  exists s2 entry rows,
    save_search_history Script.alice_row (py "title") Script.matrix
      (filter truthy
         (fst (fetch_each (map JInt Script.five)
                 (Script.start Script.third_fails Script.known_db))))
      (snd (fetch_each (map JInt Script.five)
              (Script.start Script.third_fails Script.known_db))) = (inr tt, s2) /\
    searches (db s2) = [entry] /\
    result_count entry = 4 /\
    movies (db s2) = rows /\
    List.length rows = 4%nat.
Proof.
  assert (Hids : have_ids (map candidate_json Script.five) (map JInt Script.five))
    by (repeat constructor).
  destruct (detail_fan_out_drops_failures (map candidate_json Script.five)
              (map JInt Script.five)
              (Script.start Script.third_fails Script.known_db) Hids)
    as (_ & _ & _ & _ & Hfour).
  destruct (Hfour Script.alice_row (py "title") Script.matrix
              [Script.details_json 11 (py "a"); Script.details_json 12 (py "b")]
              [Script.details_json 14 (py "d"); Script.details_json 15 (py "e")])
    as (s2 & entry & rows & Hrun & Hs & Hc & Hm & Hl & _).
  - reflexivity.
  - reflexivity.
  - repeat constructor; (eexists; split; reflexivity).
  - exists s2, entry, rows. repeat split; assumption.
Defined.

(** A title search on a page of seven candidates from an empty history. *)
Lemma result_count_at_most_page_witness :
  Forall bounded
    (searches (db (run_all [(Script.alice, CmdMovieSearch [Script.matrix])]
                     (Script.start Script.seven_hits empty_db)))).
Proof.
  apply result_count_at_most_page. constructor.
Defined.

(** The message "ab" does nothing; the message "Matrix" after Alice's
    title search, with one candidate and its details, writes a second
    entry that counts one result and owns one row. *)
Lemma quick_search_single_snapshot_witness :
  (calls (snd (handle_message Script.alice (py "ab")
                 (Script.start Script.one_hit empty_db))) = [] /\
   outbox (snd (handle_message Script.alice (py "ab")
                  (Script.start Script.one_hit empty_db))) = []) /\
  (fst (handle_message Script.alice Script.matrix
          (Script.again Script.one_hit Script.after_search)) = inr tt /\
   exists entry row,
     searches (db (snd (handle_message Script.alice Script.matrix
                          (Script.again Script.one_hit Script.after_search)))) =
       searches (db Script.after_search) ++ [entry] /\
     result_count entry = 1 /\
     movies_of entry
       (db (snd (handle_message Script.alice Script.matrix
                   (Script.again Script.one_hit Script.after_search)))) = [row]).
Proof.
  split.
  - destruct (proj1 (quick_search_single_snapshot Script.alice (py "ab")
                       (Script.start Script.one_hit empty_db)))
      as (Hc & _ & Ho); [vm_compute; discriminate |].
    split; [exact Hc | exact Ho].
  - destruct (proj2 (proj2 (quick_search_single_snapshot Script.alice Script.matrix
                              (Script.again Script.one_hit Script.after_search)))
                (JList (map candidate_json [603])) (candidate_json 603) (JInt 603))
      as [_ Hwritten].
    + vm_compute. reflexivity.
    + reflexivity.
    + reflexivity.
    + reflexivity.
    + reflexivity.
    + destruct Hwritten as (Hret & entry & row & Hs & Hcount & _ & _ & _ & _ & Hown).
      * eexists. split; reflexivity.
      * eexists. reflexivity.
      * split; [exact Hret |]. exists entry, row.
        split; [exact Hs |]. split; [exact Hcount |]. apply Hown.
        intros r Hin. vm_compute in Hin. destruct Hin as [<- | []].
        vm_compute. left. reflexivity.
Defined.

(** Bob writes for the first time: he gets the first row of the table, and
    asking again finds it. *)
Lemma get_or_create_user_idempotent_witness :
  exists user s',
    get_or_create_user Script.bob (Script.start [] empty_db) = (inr user, s') /\
    users (db s') = [user] /\
    get_or_create_user Script.bob s' = (inr user, s').
Proof.
  destruct (get_or_create_user_idempotent Script.bob (Script.start [] empty_db))
    as (user & s' & Hrun & _ & _ & _ & _ & _ & _ & _ & Hnew & Hagain).
  exists user, s'. split; [exact Hrun |]. split; [| exact Hagain].
  exact (proj1 (Hnew eq_refl)).
Defined.

(** A title search of Alice and then the clearing of her history, from
    empty tables. *)
Lemma keys_stay_unique_witness :
  keys_ok
    (db (run_all [ (Script.alice, CmdMovieSearch [Script.matrix]);
                   (Script.alice, CallbackQuery (py "clear_history")) ]
           (Script.start Script.one_hit empty_db))).
Proof.
  apply keys_stay_unique.
  cbn. repeat split; try constructor. intros h [].
Defined.

(** The entry of Alice's title search is hers. *)
Lemma new_entries_belong_to_sender_witness :
  In Script.matrix_entry (searches (db (Script.start Script.one_hit empty_db))) \/
  exists user,
    find_user (tg_id Script.alice)
      (db (snd (dispatch Script.alice (CmdMovieSearch [Script.matrix])
                  (Script.start Script.one_hit empty_db)))) = Some user /\
    written_for user Script.matrix_entry.
Proof.
  apply new_entries_belong_to_sender. vm_compute. left. reflexivity.
Defined.

(** Alice after one search: the query of [history] leaves nothing out. *)
Lemma history_lists_newest_witness :
  exists older,
    Permutation (searches_of Script.alice_row (db Script.after_search))
      (recent_searches Script.alice_row (db Script.after_search) ++ older) /\
    older = [].
Proof.
  destruct (history_lists_newest Script.alice_row (db Script.after_search))
    as (_ & _ & _ & older & Hperm & _ & Hall).
  exists older. split; [exact Hperm |]. apply Hall. vm_compute. lia.
Defined.


(** Two movies saved for Alice some time after her title search: the new
    entry is the first of her recent searches. *)
Lemma saved_search_comes_first_witness :
  exists entry rest,
    recent_searches Script.alice_row
      (db (snd (save_search_history Script.alice_row (py "title") Script.matrix
                  Script.two_movies (Script.again [] Script.after_search)))) =
      entry :: rest /\
    result_count entry = 2.
Proof.
  destruct (saved_search_comes_first Script.alice_row (py "title") Script.matrix
              Script.two_movies (Script.again [] Script.after_search)
              (snd (save_search_history Script.alice_row (py "title") Script.matrix
                      Script.two_movies (Script.again [] Script.after_search))))
    as (entry & rest & Hrecent & _ & _ & _ & _ & Hcount).
  - vm_compute. reflexivity.
  - intros h Hin. vm_compute in Hin. destruct Hin as [<- | []].
    vm_compute. reflexivity.
  - exists entry, rest. split; [exact Hrecent | exact Hcount].
Defined.

(** The three kinds of callback data. *)
Lemma handle_callback_routes_witness :
  handle_callback Script.alice (py "clear_history") Script.after_search =
    clear_history Script.alice
      (mkSys (world Script.after_search) (db Script.after_search)
         (outbox Script.after_search ++ [answer]) (calls Script.after_search))
  /\
  handle_callback Script.alice (py "history_7_days") Script.after_search =
    show_detailed_history Script.alice 7
      (mkSys (world Script.after_search) (db Script.after_search)
         (outbox Script.after_search ++ [answer]) (calls Script.after_search))
  /\
  handle_callback Script.alice (py "more") Script.after_search =
    (inr tt,
     mkSys (world Script.after_search) (db Script.after_search)
       (outbox Script.after_search ++ [answer]) (calls Script.after_search)).
Proof.
  destruct (handle_callback_routes Script.alice (py "clear_history")
              Script.after_search) as (Hclear & _ & _).
  destruct (handle_callback_routes Script.alice (py "history_7_days")
              Script.after_search) as (_ & Hshow & _).
  destruct (handle_callback_routes Script.alice (py "more")
              Script.after_search) as (_ & _ & Hother).
  split; [exact (Hclear eq_refl) |].
  split; [exact (Hshow (py "7_days") eq_refl) |].
  apply Hother; [reflexivity | discriminate].
Defined.

(** Bob, who has no row, presses the button that clears the history of
    Alice's chat. *)
Lemma callback_of_unknown_sender_witness :
  snd (handle_callback Script.bob (py "clear_history") Script.after_search) =
    mkSys (world Script.after_search) (db Script.after_search)
      (outbox Script.after_search ++ [answer]) (calls Script.after_search) /\
  fst (handle_callback Script.bob (py "clear_history") Script.after_search) =
    inl DoesNotExist.
Proof.
  destruct (callback_of_unknown_sender Script.bob (py "clear_history")
              Script.after_search) as [Hsnd Hfst].
  - vm_compute. reflexivity.
  - split; [exact Hsnd | exact (Hfst eq_refl)].
Defined.

(** Alice clears her history twice after one search. *)
Lemma clear_history_twice_witness :
  exists s' s'',
    clear_history Script.alice Script.after_search = (inr tt, s') /\
    clear_history Script.alice s' = (inr tt, s'') /\
    outbox s'' = outbox s' ++ [edit_message_text (HistoryCleared 0)].
Proof.
  destruct (clear_history_twice Script.alice Script.alice_row Script.after_search)
    as (s' & s'' & H1 & H2 & _ & Hout).
  - vm_compute. reflexivity.
  - exists s', s''. split; [exact H1 |]. split; [exact H2 | exact Hout].
Defined.

(** A rating that is no number. *)
Lemma invalid_input_fails_fast_witness :
  calls (snd (movie_by_rating_command Script.alice [py "high"]
                (Script.start Script.one_hit empty_db))) = [] /\
  outbox (snd (movie_by_rating_command Script.alice [py "high"]
                 (Script.start Script.one_hit empty_db))) =
    [reply_text RatingNotNumeric].
Proof.
  destruct (invalid_input_fails_fast Script.alice
              (Script.start Script.one_hit empty_db)) as (_ & _ & Hbad).
  destruct (Hbad (py "high") []) as (Hcalls & _ & Hout); [reflexivity |].
  split; [exact Hcalls | exact Hout].
Defined.

(** The list with the record that has no id is refused and the tables stay
    as they were. *)
Lemma snapshot_write_refuses_witness :
  (exists e,
     fst (save_search_history Script.alice_row (py "title") Script.matrix
            Script.mixed Script.before_save) = inl e) /\
  db (snd (save_search_history Script.alice_row (py "title") Script.matrix
             Script.mixed Script.before_save)) = db Script.before_save.
Proof.
  destruct (snapshot_write_refuses Script.alice_row (py "title") Script.matrix
              Script.mixed Script.before_save) as (Hraise & Hdb & _).
  - reflexivity.
  - split; [exact Hraise | exact Hdb].
Defined.

(** Two movies without a poster: two texts, in order. *)
Lemma send_results_in_order_witness :
  send_results Script.two_movies Script.before_save =
    (inr tt,
     mkSys (world Script.before_save) (db Script.before_save)
       (outbox Script.before_save ++
        [ reply_text (Html (py "The Matrix")); reply_text (Html (py "Reloaded")) ])
       (calls Script.before_save)).
Proof.
  apply (send_results_in_order Script.two_movies). reflexivity.
Defined.

(** Alice is known and searches a title with three candidates: three rows
    and three messages after the first one. *)
Lemma title_search_delivers_witness :
  exists s' entry rows,
    movie_search_command Script.alice [Script.matrix]
      (Script.start Script.three_hits Script.known_db) = (inr tt, s') /\
    searches (db s') = [entry] /\
    result_count entry = 3 /\
    movies (db s') = rows /\
    outbox s' =
      [ reply_text (SearchingTitle Script.matrix);
        reply_text (Html (py "m")); reply_text (Html (py "m"));
        reply_text (Html (py "m")) ].
Proof.
  assert (Hids : have_ids (map candidate_json [1; 2; 3]) (map JInt [1; 2; 3]))
    by (repeat constructor).
  assert (Hne : map candidate_json [1; 2; 3] <> []) by discriminate.
  assert (Hst : Forall storable
                  (map (fun id => Script.details_json id (py "m")) [1; 2; 3]))
    by (repeat constructor; (eexists; split; reflexivity)).
  destruct (title_search_delivers Script.alice Script.alice_row Script.matrix []
              (Script.start Script.three_hits Script.known_db)
              (page_json [1; 2; 3]) (map candidate_json [1; 2; 3])
              (map JInt [1; 2; 3]) (Script.mkWorld 1 (tl Script.three_hits))
              [ reply_text (Html (py "m")); reply_text (Html (py "m"));
                reply_text (Html (py "m")) ]
              eq_refl eq_refl eq_refl Hne Hids Hst eq_refl eq_refl)
    as (s' & entry & rows & Hrun & Hs & _ & _ & _ & Hc & Hm & _ & Hout).
  exists s', entry, rows. repeat split; assumption.
Defined.

(** The second of two survivors has a title that is a number: the command
    raises after the message of the first, and the entry counts two. *)
Lemma title_search_writes_before_sending_witness :
  exists s' entry rows,
    movie_search_command Script.alice [Script.matrix]
      (Script.start Script.shown_then_odd Script.known_db) = (inl TypeError, s') /\
    searches (db s') = [entry] /\
    result_count entry = 2 /\
    movies (db s') = rows /\
    outbox s' =
      [ reply_text (SearchingTitle Script.matrix);
        reply_text (Html (py "The Matrix")) ].
Proof.
  assert (Hids : have_ids (map candidate_json [603; 604]) (map JInt [603; 604]))
    by (repeat constructor).
  assert (Hne : map candidate_json [603; 604] <> []) by discriminate.
  assert (Hst : Forall storable
                  [Script.details_json 603 (py "The Matrix"); Script.odd_date])
    by (repeat constructor; (eexists; split; reflexivity)).
  destruct (title_search_writes_before_sending Script.alice Script.alice_row
              Script.matrix []
              (Script.start Script.shown_then_odd Script.known_db)
              (page_json [603; 604]) (map candidate_json [603; 604])
              (map JInt [603; 604]) (Script.mkWorld 1 (tl Script.shown_then_odd))
              [Script.details_json 603 (py "The Matrix")] Script.odd_date []
              [reply_text (Html (py "The Matrix"))] TypeError
              eq_refl eq_refl eq_refl Hne Hids Hst eq_refl eq_refl eq_refl eq_refl)
    as (s' & entry & rows & Hrun & Hs & Hc & Hm & _ & Hout).
  exists s', entry, rows. repeat split; assumption.
Defined.

(** The second candidate of the page has no id: the details of the first
    were asked for, and nothing was written. *)
Lemma title_search_malformed_candidate_witness :
  fst (movie_search_command Script.alice [Script.matrix]
         (Script.start Script.broken_hits empty_db)) = inl KeyError /\
  searches (db (snd (movie_search_command Script.alice [Script.matrix]
                       (Script.start Script.broken_hits empty_db)))) = [] /\
  calls (snd (movie_search_command Script.alice [Script.matrix]
                (Script.start Script.broken_hits empty_db))) =
    [title_request Script.matrix 1; details_request (JInt 603)].
Proof.
  assert (Hids : have_ids [candidate_json 603] [JInt 603]) by (repeat constructor).
  destruct (title_search_malformed_candidate Script.alice Script.matrix []
              (Script.start Script.broken_hits empty_db)
              Script.broken_page [candidate_json 603] [JInt 603] (JDict []) []
              (Script.mkWorld 1 (tl Script.broken_hits)) KeyError
              eq_refl eq_refl Hids)
    as (Hfst & [Hs _] & _ & Hcalls).
  - vm_compute. lia.
  - reflexivity.
  - split; [exact Hfst |]. split; [exact Hs | exact Hcalls].
Defined.

(** The message "Matrix" finds a record whose title is a number: the
    caption fails and no entry is written. *)
Lemma quick_search_shows_before_writing_witness :
  fst (handle_message Script.alice Script.matrix
         (Script.start Script.odd_hit empty_db)) = inl TypeError /\
  searches (db (snd (handle_message Script.alice Script.matrix
                       (Script.start Script.odd_hit empty_db)))) = [].
Proof.
  destruct (quick_search_shows_before_writing Script.alice Script.matrix
              (Script.start Script.odd_hit empty_db)
              (JList [candidate_json 604]) (candidate_json 604) (JInt 604)
              TypeError)
    as (Hfst & [Hs _] & _).
  - vm_compute. reflexivity.
  - reflexivity.
  - reflexivity.
  - reflexivity.
  - reflexivity.
  - reflexivity.
  - reflexivity.
  - split; [exact Hfst | exact Hs].
Defined.

(** A rating search without a genre does not ask for the genre list. *)
Lemma with_genre_sets_one_parameter_witness :
  with_genre None (rating_params (Finite (inject_Z 8)) 1)
    (Script.start [Some (JDict Script.genre_list)] empty_db) =
  (inr (rating_params (Finite (inject_Z 8)) 1),
   Script.start [Some (JDict Script.genre_list)] empty_db).
Proof.
  apply (proj1 (with_genre_sets_one_parameter None
                  (rating_params (Finite (inject_Z 8)) 1)
                  (Script.start [Some (JDict Script.genre_list)] empty_db))).
  reflexivity.
Defined.

(** Bob asks for his history after Alice has searched. *)
Lemma history_of_new_sender_witness :
  exists user s',
    history Script.bob Script.after_search = (inr tt, s') /\
    users (db s') = users (db Script.after_search) ++ [user] /\
    outbox s' = outbox Script.after_search ++ [reply_text HistoryEmpty].
Proof.
  destruct (history_of_new_sender Script.bob Script.after_search)
    as (user & s' & Hrun & Husers & _ & _ & Hout).
  - unfold keys_ok. vm_compute.
    split; [| split; [| split; [| split]]];
      try (constructor; [intros [] | constructor]).
    intros h [<- | []]. left. reflexivity.
  - vm_compute. reflexivity.
  - exists user, s'. split; [exact Hrun |]. split; [exact Husers | exact Hout].
Defined.

(** The provider does not answer: the genre resolves to [None]. *)
Lemma get_genre_id_on_bad_answers_witness :
  fst (get_genre_id Script.western (Script.start [] empty_db)) = inr JNull.
Proof.
  apply (proj1 (proj2 (get_genre_id_on_bad_answers Script.western
                         (Script.start [] empty_db)))).
  reflexivity.
Defined.

(** A search for films of high budget when the provider does not answer. *)
Lemma discover_search_nothing_found_witness :
  lookup (py "sort_by") (budget_params (py "high") 1) =
    Some (JStr (py "budget.desc")) /\
  exists s',
    handle_budget_search Script.alice [] (py "high")
      (Script.start [] empty_db) = (inr tt, s') /\
    outbox s' =
      [ reply_text (SearchingBudget (py "high") None);
        reply_text MoviesNotFoundParams ].
Proof.
  destruct (proj1 (discover_search_nothing_found Script.alice
                     (Script.start [] empty_db)) (py "high")) as [Hsort Hrun].
  split; [apply Hsort; discriminate |].
  destruct (Hrun eq_refl) as (s' & Hr & _ & _ & Hout).
  exists s'. split; [exact Hr | exact Hout].
Defined.
